(* ===== verification/_CoqProject ===== *)
-Q . S2P
Prelude.v
PyStr.v
PyNum.v
Sorting.v
Regex.v
RegexSpec.v
Dates.v
Clock.v
Parser.v
ParserMachine.v
Format.v
Batch.v
Summary.v
Sheets.v
Console.v
