(* ===== verification/Prelude.v ===== *)
(** * A verified model of the Chase statement processor [src/pdf-2-excel.py]

    The program is one Python function, [main], which asks for a folder,
    finds the PDF statements in it (or in its first subfolder that has
    some), sorts them by the date in their filenames, extracts the text
    of each with [pdfplumber], parses the transaction lines of the text,
    numbers each statement's records, sorts all records by transaction
    date and sequence number, writes two sheets and prints a financial
    and a monthly summary.  Its logic sits in three nested functions:
    [extract_statement_date] (lines 82-88), [determine_transaction_year]
    (lines 90-106) and [extract_chase_transactions] (lines 108-148).

    ** Files

    - [Prelude] (this file): Python strings as [list ascii] (the
      abbreviation [pystr], literals written [⟪"..."⟫] in [py_scope]),
      exceptions as the result type [pyres] with stdpp's monad notation,
      [py_index] (a subscript with negative indices), [py_for] (a loop
      whose body may raise), [py_map], [py_filter_map], and the generic
      lemmas, with the rewrite database [pyx] of the monad laws and its
      tactic [py_simp].
    - [PyStr]: the [str] methods the code calls: [strip], [split(sep)],
      [in], [find], [rfind], slicing with CPython's index adjustment,
      [replace(c, '')], [lower], [endswith] and the [<=] order.
    - [PyNum]: [int()] (whitespace, sign, digits and underscores), [str()]
      of an integer, and [float()] of an amount token as exact hundredths
      ([cents_of]).
    - [Sorting]: a stable sort [sort_by], proved sorted, a permutation,
      stable, and the only list with these properties ([sort_by_unique]);
      it models both [list.sort] (line 160) and [sort_values] (line 195).
    - [Regex]: a backtracking matcher for the constructs of the three
      patterns ([\d], classes, [{n}], [?], [+], [^]) after CPython's
      [sre], with [re.match], [re.search] and [re.findall]; each pattern
      characterised exactly ([re_match_mmdd], [re_search_date8],
      [findall_amount_token]).
    - [RegexSpec]: the language [lang] of a pattern, as Python's
      documentation of [re] describes it, and the matcher proved against
      it: what [re.match] returns is a match and it finds one whenever
      one exists, [re.search] is leftmost, and [re.findall] is repeated
      [re.search] ([findall_search]).
    - [Dates]: Module [StatementDate] ([extract_statement_date]), Module
      [TransactionYear] ([determine_transaction_year] and the rule
      [year_rule] it implements on numbers), Module [Calendar]
      ([pd.to_datetime] on [MM/DD/YYYY]).
    - [Clock]: Module [Clock], [datetime.now()] as a record [datetime] and
      [strftime("%Y%m%d_%H%M%S")] as [strftime_stamp] (line 199), with
      the reader [strptime_stamp] and its round trip.
    - [Parser]: Module [Parser] with the record [transaction] (the dict of
      lines 139-147), [parse_line] (the body of lines 122-147), the loop
      state [parser_state] (flag and list) and [step] (one iteration of
      lines 114-147), composed by [extract_chase_transactions] with
      [py_for] over [text.split('\n')].
    - [ParserMachine]: the same loop as a small-step machine in the style
      of an operational semantics: a configuration [config] is the loop
      state with the remaining lines, or a returned list, or a raised
      exception; the relation [pstep] has one rule per branch of lines
      114-147 ([continue] on the marker, outside the section, on the
      opening balance, a dropped line, an appended record, an exception)
      and one for [return] (line 148); [run_steps] runs it with fuel.
    - [Batch]: the interfaces [FileSystem] ([os.listdir], which may
      raise, and [os.path.isdir]) and [PdfReader] ([pdfplumber]), and
      Module [Batch] with [discover] (lines 55-79, outside the [try]),
      [sorted_files] (153-160, of the listing made inside it), [page_text]
      (172-174), [number_from] (179-180), [process_file] and
      [process_statements] (the per-file [try]/[except], 167-184),
      [sort_rows] (191-195) and [run], the whole of [main] from the chosen
      folder to its outcome.
    - [Format]: Module [MoneyFormat], [format(x, ',.2f')] of an amount in
      hundredths ([format_money], lines 222-224): sign, thousands
      separators and two decimals.
    - [Summary]: Module [Report]: the two sheets' rows, credits, debits and
      net change (lines 220-224), and the monthly groups (229-232).
    - [Sheets]: Module [Frame], a pandas DataFrame as its labels and rows
      of [cell]s, with [df.drop(labels, axis=1)] ([drop_columns]) and
      [df[labels]] ([select_columns]), both raising [KeyError] on a missing
      label, and [to_excel] as the table it writes; Module [Excel], the
      program's frame (lines 191-195) and [excel_sheets], the two tables of
      lines 203-210.
    - [Console]: [main] with everything the user sees.  The interface
      [Gui] stands for [tk.Tk()] (lines 16-17), which raises [TclError]
      without a display; [Workbook] stands for [pd.ExcelWriter] (line
      203), which receives the tables of [Sheets.excel_sheets].  Module
      [Transcript] holds the events ([ShowInfo], [ShowError], the folder
      dialog [AskDirectory] with the path it returns, [Print], ...), the
      workbook's name and path ([excel_filename], [output_path], lines
      198-201), a writer monad [io] whose trace is the
      sequence of events, and [process_io] (lines 167-184 with their
      prints), [report_io] (212-241), [statements_io] (the [try] of lines
      151-249) and [main_io] (lines 14-79: root window, welcome box,
      dependency check, folder dialog, discovery), and [program_io], the [__main__] wrapper (lines
      251-256).  An exception outside the [try] ends [main] with the
      outcome [Crashed] ([or_crash]); one inside it reaches the [except]
      ([or_fail]).  [Batch.run] is the same program without the
      transcript.

    ** What is proved

    - The parser loop implements its specification
      ([extract_chase_transactions_spec]): it parses, in order, the lines
      after the first marker line that contain neither marker.
    - The loop as a machine: by rule induction on [pstep], the reachable
      configurations satisfy the loop invariant ([reachable_inv]), and
      the section flag is never reset while records are only appended
      ([loop_monotone]).
    - [parse_line] in every branch: no date, fewer than two amount tokens
      (silent drop), the normal case with every field of the record
      ([parse_line_dated], [parse_line_record]), and its only exception,
      that of [determine_transaction_year] ([parse_line_raise]); no
      exception at all under a statement date [YYYY-MM-..]
      ([parse_line_ok], [extract_chase_transactions_ok]).
    - The year resolver returns [str] of [year_rule], which picks the year
      nearest the statement month ([year_rule_nearest]); the statement
      date of a filename with eight digits is that run as [YYYY-MM-DD].
    - The orchestrator: discovery and its fallback, the statement order,
      the numbering [1..n], failure isolation of a raising file, the lines
      of concatenated pages, the outcomes of [run] (completed, no
      transactions, failed) and the order of the final rows.  The error
      paths behind the findings, for every input: a page without text
      drops its whole file ([textless_page_skipped]); a file named
      without a date drops its whole file as soon as its section has a
      dated line ([undated_statement_skipped]); one date [pd.to_datetime]
      cannot read fails the whole run ([run_bad_date_fails]).
    - The summaries: net change is the sum of the amounts, the monthly
      groups are sorted, each counts and sums its month's rows, and their
      totals are the row count and the net change.
    - The transcript ([Console]): every statement file is
      reported in order, with its count or its error
      ([main_io_reports_files]); a failed write ends the run with the error
      and no summary ([main_io_write_failure]); the printed number of transactions is the sum
      of the per-file counts, and the number of statements counts the
      files that raised ([main_io_counts]).
    - Errors outside the [try]: a subfolder that cannot be listed crashes
      the run even when a later subfolder holds statements
      ([run_subfolder_crash]), and the user then sees only the wrapper's
      print and prompt, no dialog ([program_io_crash]); without a display
      [tk.Tk()] fails before any box is shown ([program_io_no_display]).
    - The workbook's name is unique only to the second: two runs on one
      folder write the same path exactly when the clock agrees to the
      second ([output_path_collision]).
    - The regular expressions: [re_match_lang], [re_search_leftmost] and
      [findall_iterated_search] relate the backtracking matcher to the
      language of its pattern.
    - Shapes: every month of the monthly summary is a [YYYY-MM] key of a row
      ([run_monthly_keys]); every printed amount is an amount token the
      parser accepts ([format_money_token]).
    - The sheets: on the program's frame neither column operation raises, and the two sheets hold the rows of [Summary.Report]
      ([excel_sheets_spec]).
    - Round trips: [int(str(z)) = z], [sep.join(s.split(sep)) = s],
      [float(format(x, ',.2f').replace(',', '')) = x]
      ([format_money_roundtrip], on exact amounts; Python's float sums
      are not modelled).
    - Computed examples: the specification's example, the description
      heuristic running into the balance, interleaved statements in the
      output, and the whole transcript of a run ([overlap_transcript]);
      the witnesses run the general theorems on such inputs.

    ** Bounds and fuel

    [re.findall] is modelled with fuel [length s + 1]; [findall_fuel]
    proves that any larger fuel gives the same result, so the fuel never
    runs out, and [findall_iterated_search] uses it.  The machine's interpreter [run_steps] needs one step per
    line and one for the return; [run_steps_enough] proves that this fuel
    reaches the final configuration.  [str()] of an integer uses fuel [N.size |z| + 1] digits,
    enough by [size_bound] (and [py_int_str_int] shows the result).  All
    other recursion is structural.  Python integers are unbounded and are
    [Z] or [nat] here; amounts are exact hundredths in [Z] where Python
    uses binary floats, so the sums are exact.

    ** Not modelled

    The drawing of the tkinter windows (the path the folder dialog returns
    is the input [folder] of [main_io] and [run]); a file system that changes between
    two listings ([listdir] is a function of the path, so the listing of
    line 154 repeats the discovery's); [pdfplumber]'s text extraction itself (the [PdfReader]
    interface stands for it); the bytes of the workbook and openpyxl's
    cell encoding (the [Workbook] interface receives the tables); the text of [print(monthly)] (a DataFrame rendering, kept
    as the event [PrintTable] of the groups) and of [str(e)] (kept as the
    exception) and of [traceback.print_exc()]; the clock itself (what
    [datetime.now()] returns is the argument [t_now]); float rounding
    of sums;
    characters above U+00FF ([ascii] holds eight bits); regex features the
    three patterns do not use; [pd.to_datetime] formats other than
    [%m/%d/%Y]: pandas infers the format from the first [Date], and a
    first row whose month field exceeds 12 ([13/05/2024]) makes it parse
    day first where the model raises. *)

From Stdlib Require Export Ascii ZArith Lia.
From Stdlib Require String.
From stdpp Require Export base list strings sets relations.

(** ** Python strings

    A Python [str] is a sequence of code points.  The development models it
    as a [list ascii]: a Rocq [ascii] holds eight bits, read here as a code
    point in U+0000..U+00FF (Latin-1).  Every string operation of the
    program is modelled exactly on that range. *)

Abbreviation pystr := (list ascii).

Declare Scope py_scope.
Delimit Scope py_scope with py.

(** [⟪ "..." ⟫] writes a Python string literal. *)
Notation "⟪ s ⟫" := (String.list_ascii_of_string s%string) (format "⟪ s ⟫") : py_scope.

Open Scope py_scope.

(** ** Python exceptions

    The program catches exceptions with bare [except Exception], so only
    the fact that one is raised matters; its kind is kept for readability. *)

Inductive py_exn : Type :=
  | ValueError        (** [int()] of a string that is not a decimal integer *)
  | IndexError        (** a list subscript out of range *)
  | TypeError         (** [None + "\n"]: a page [extract_text] found no text on *)
  | DateParseError    (** [pd.to_datetime] of a string it cannot read *)
  | ExtractionError   (** anything [pdfplumber] raises on a file *)
  | OSError           (** the workbook cannot be written, e.g. [PermissionError] *)
  | KeyError          (** a column label a DataFrame does not have *)
  | TclError.         (** [tk.Tk()] without a display to open *)

Inductive pyres (A : Type) : Type :=
  | Ok (a : A)
  | Raise (e : py_exn).
Arguments Ok {A} a.
Arguments Raise {A} e.

#[export] Instance pyres_ret : MRet pyres := λ A a, Ok a.
#[export] Instance pyres_bind : MBind pyres :=
  λ A B f r, match r with Ok a => f a | Raise e => Raise e end.
#[export] Instance pyres_fmap : FMap pyres :=
  λ A B f r, match r with Ok a => Ok (f a) | Raise e => Raise e end.

Definition is_ok {A} (r : pyres A) : bool :=
  match r with Ok _ => true | Raise _ => false end.

(** [l[i]] on a Python list, with Python's negative indices. *)
Definition py_index {A} (l : list A) (i : Z) : pyres A :=
  let n := Z.of_nat (length l) in
  let j := if (i <? 0)%Z then (i + n)%Z else i in
  if ((0 <=? j) && (j <? n))%Z then
    match l !! Z.to_nat j with Some a => Ok a | None => Raise IndexError end
  else Raise IndexError.

(** A Python [for] loop over a list whose body updates a state and may
    raise: the first exception aborts the loop. *)
Fixpoint py_for {S A} (body : S → A → pyres S) (s : S) (l : list A) : pyres S :=
  match l with
  | [] => Ok s
  | x :: l' => s' ← body s x; py_for body s' l'
  end.

(** ** Generic lemmas *)

Create Rewrite HintDb pyx.

Lemma bind_Ok {A B} (a : A) (f : A → pyres B) : (Ok a ≫= f) = f a.
Proof. reflexivity. Qed.

Lemma bind_Raise {A B} (e : py_exn) (f : A → pyres B) : (Raise e ≫= f) = Raise e.
Proof. reflexivity. Qed.

Lemma mret_Ok {A} (a : A) : (mret a : pyres A) = Ok a.
Proof. reflexivity. Qed.

#[export] Hint Rewrite @bind_Ok @bind_Raise @mret_Ok : pyx.

Lemma bind_Ok_inv {A B} (r : pyres A) (f : A → pyres B) b :
  (r ≫= f) = Ok b → ∃ a, r = Ok a ∧ f a = Ok b.
Proof. destruct r; simpl; [eauto | discriminate]. Qed.

Lemma bind_Raise_inv {A B} (r : pyres A) (f : A → pyres B) e :
  (r ≫= f) = Raise e → r = Raise e ∨ ∃ a, r = Ok a ∧ f a = Raise e.
Proof. destruct r; simpl; intros H; [right; eauto | left; congruence]. Qed.

Lemma py_for_app {S A} (body : S → A → pyres S) s l1 l2 :
  py_for body s (l1 ++ l2) = (s' ← py_for body s l1; py_for body s' l2).
Proof.
  revert s. induction l1 as [|x l1 IH]; intros s; simpl; [done|].
  destruct (body s x); simpl; [apply IH | done].
Qed.

(** A loop whose body never raises is an ordinary [foldl]. *)
Lemma py_for_total {S A} (body : S → A → pyres S) (f : S → A → S) s l :
  (∀ s x, body s x = Ok (f s x)) → py_for body s l = Ok (foldl f s l).
Proof.
  intros Hf. revert s. induction l as [|x l IH]; intros s; simpl; [done|].
  rewrite Hf. apply IH.
Qed.

Lemma py_index_lookup {A} (l : list A) (i : nat) a :
  l !! i = Some a → py_index l (Z.of_nat i) = Ok a.
Proof.
  intros H. pose proof (lookup_lt_Some _ _ _ H).
  unfold py_index.
  destruct (Z.ltb_spec (Z.of_nat i) 0); [lia|].
  destruct (Z.leb_spec 0 (Z.of_nat i)); [|lia].
  destruct (Z.ltb_spec (Z.of_nat i) (Z.of_nat (length l))); [|lia].
  simpl. rewrite Nat2Z.id, H. done.
Qed.

Lemma py_index_neg {A} (l : list A) (k : nat) a :
  (0 < k)%nat → (k ≤ length l)%nat → l !! (length l - k)%nat = Some a →
  py_index l (- Z.of_nat k) = Ok a.
Proof.
  intros Hk Hkl H. unfold py_index.
  destruct (Z.ltb_spec (- Z.of_nat k) 0); [|lia].
  destruct (Z.leb_spec 0 (- Z.of_nat k + Z.of_nat (length l))); [|lia].
  destruct (Z.ltb_spec (- Z.of_nat k + Z.of_nat (length l)) (Z.of_nat (length l))); [|lia].
  simpl. replace (Z.to_nat (- Z.of_nat k + Z.of_nat (length l))) with (length l - k)%nat by lia.
  rewrite H. done.
Qed.

Lemma py_index_Ok_elem {A} (l : list A) i a : py_index l i = Ok a → a ∈ l.
Proof.
  unfold py_index. repeat case_match; intros; simplify_eq;
    by eapply list_elem_of_lookup_2.
Qed.

(** [py_simp] rewrites the monad's laws and reduces the pure parts. *)
Ltac py_simp := repeat (autorewrite with pyx; simpl).

Lemma forallb_Forall {A} (f : A → bool) (l : list A) :
  forallb f l = true ↔ Forall (λ x, f x = true) l.
Proof.
  rewrite forallb_forall, Forall_forall. by setoid_rewrite list_elem_of_In.
Qed.

(** A loop that appends [f x] to a list when it is [Some _], in order,
    stopping at the first exception: the functional form of the
    parser's loop. *)
Fixpoint py_filter_map {A B} (f : A → pyres (option B)) (l : list A) : pyres (list B) :=
  match l with
  | [] => Ok []
  | x :: l' =>
      o ← f x;
      r ← py_filter_map f l';
      Ok (match o with Some b => b :: r | None => r end)
  end.

Lemma py_filter_map_app {A B} (f : A → pyres (option B)) l1 l2 :
  py_filter_map f (l1 ++ l2) = (r1 ← py_filter_map f l1; r2 ← py_filter_map f l2; Ok (r1 ++ r2)).
Proof.
  induction l1 as [|x l1 IH]; simpl.
  - by destruct (py_filter_map f l2).
  - destruct (f x) as [o|]; simpl; [|done]. rewrite IH.
    destruct (py_filter_map f l1), (py_filter_map f l2); simpl; try done.
    by destruct o.
Qed.

Lemma py_filter_map_elem {A B} (f : A → pyres (option B)) l r y :
  py_filter_map f l = Ok r → y ∈ r → ∃ x, x ∈ l ∧ f x = Ok (Some y).
Proof.
  revert r. induction l as [|x l IH]; intros r Hr Hy; simpl in Hr.
  - injection Hr as <-. set_solver.
  - destruct (f x) as [o|] eqn:Hx; [|done]. simpl in Hr.
    destruct (py_filter_map f l) as [r'|] eqn:Hl; [|done]. simpl in Hr. injection Hr as <-.
    destruct o as [b|].
    + apply elem_of_cons in Hy as [->|Hy]; [exists x; set_solver|].
      destruct (IH r' eq_refl Hy) as (x' & ? & ?). exists x'. set_solver.
    + destruct (IH r' eq_refl Hy) as (x' & ? & ?). exists x'. set_solver.
Qed.

(** If [f] raises on no element, the loop does not raise. *)
Lemma py_filter_map_ok {A B} (f : A → pyres (option B)) l :
  (∀ x, x ∈ l → is_ok (f x) = true) → is_ok (py_filter_map f l) = true.
Proof.
  induction l as [|x l IH]; intros H; simpl; [done|].
  assert (Hx : is_ok (f x) = true) by set_solver.
  destruct (f x); [|done]. simpl.
  assert (Hl : is_ok (py_filter_map f l) = true) by (apply IH; set_solver).
  by destruct (py_filter_map f l).
Qed.

(** One element on which [f] raises makes the whole loop raise. *)
Lemma py_filter_map_not_ok {A B} (f : A → pyres (option B)) l x :
  x ∈ l → is_ok (f x) = false → is_ok (py_filter_map f l) = false.
Proof.
  induction l as [|y l IH]; intros Hx Hf; [set_solver|]. simpl.
  apply elem_of_cons in Hx as [<-|Hx]; [by destruct (f x)|].
  destruct (f y); simpl; [|done]. specialize (IH Hx Hf).
  by destruct (py_filter_map f l).
Qed.

(** An exception of the loop is an exception of [f] on some element. *)
Lemma py_filter_map_raise {A B} (f : A → pyres (option B)) l e :
  py_filter_map f l = Raise e → ∃ x, x ∈ l ∧ f x = Raise e.
Proof.
  induction l as [|x l IH]; simpl; [done|]. intros H.
  destruct (f x) as [o|] eqn:Hx; simpl in H.
  - destruct (py_filter_map f l) eqn:Hl; simpl in H; [done|].
    injection H as ->. destruct (IH eq_refl) as (x' & ? & ?). exists x'. set_solver.
  - injection H as ->. exists x. set_solver.
Qed.

(** [l[-2]] and [l[-1]] on a list of at least two elements. *)
Lemma last2_decomp {A} (l : list A) :
  2 ≤ length l → ∃ pre a b, l = pre ++ [a; b].
Proof.
  intros Hl. destruct l as [|x l] using rev_ind; [simpl in Hl; lia|].
  destruct l as [|y l] using rev_ind; [simpl in Hl; lia|].
  exists l, y, x. by rewrite <- app_assoc.
Qed.

Lemma py_index_last2 {A} (pre : list A) a b :
  py_index (pre ++ [a; b]) (-2) = Ok a ∧ py_index (pre ++ [a; b]) (-1) = Ok b.
Proof.
  assert (Hl : length (pre ++ [a; b]) = length pre + 2) by (rewrite length_app; done).
  split; [change (-2)%Z with (- Z.of_nat 2)%Z | change (-1)%Z with (- Z.of_nat 1)%Z];
    apply py_index_neg; rewrite ?Hl; try lia.
  - rewrite lookup_app_r by lia. by replace (length pre + 2 - 2 - length pre) with 0 by lia.
  - rewrite lookup_app_r by lia. by replace (length pre + 2 - 1 - length pre) with 1 by lia.
Qed.

(** [[f(x) for x in l]] where [f] may raise: the first exception aborts. *)
Fixpoint py_map {A B} (f : A → pyres B) (l : list A) : pyres (list B) :=
  match l with
  | [] => Ok []
  | x :: l' => y ← f x; r ← py_map f l'; Ok (y :: r)
  end.

Lemma py_map_Ok_length {A B} (f : A → pyres B) l r : py_map f l = Ok r → length r = length l.
Proof.
  revert r. induction l as [|x l IH]; intros r; simpl; [by intros [= <-]|].
  destruct (f x); simpl; [|done]. destruct (py_map f l) eqn:Hl; simpl; [|done].
  intros [= <-]. simpl. by rewrite (IH _ eq_refl).
Qed.

Lemma py_map_raise {A B} (f : A → pyres B) l e :
  py_map f l = Raise e → ∃ x, x ∈ l ∧ f x = Raise e.
Proof.
  induction l as [|x l IH]; simpl; [done|]. intros H.
  destruct (f x) eqn:Hx; simpl in H.
  - destruct (py_map f l) eqn:Hl; simpl in H; [done|].
    injection H as ->. destruct (IH eq_refl) as (x' & ? & ?). exists x'. set_solver.
  - injection H as ->. exists x. set_solver.
Qed.


(** [py_map f l] succeeds exactly when [f] succeeds on every element. *)
Lemma py_map_ok {A B} (f : A → pyres B) l :
  (∃ r, py_map f l = Ok r) ↔ ∀ x, x ∈ l → is_ok (f x) = true.
Proof.
  induction l as [|x l IH]; simpl.
  - split; [set_solver|by eexists].
  - destruct (f x) as [y|e] eqn:Hx; simpl.
    + destruct (py_map f l) as [r|e] eqn:Hl; simpl.
      * split; [|by eexists]. intros _ z [->|Hz]%elem_of_cons; [by rewrite Hx|].
        apply IH; [by eexists|done].
      * split; [by intros [? ?]|]. intros Hall. destruct (proj2 IH) as [? ?]; [|done].
        intros z Hz. apply Hall. set_solver.
    + split; [by intros [? ?]|]. intros Hall. specialize (Hall x). rewrite Hx in Hall. set_solver.
Qed.

(** What is computed from the results of [py_map f l]. *)
Lemma py_map_not_ok {A B} (f : A → pyres B) l x :
  x ∈ l → is_ok (f x) = false → ∃ e, py_map f l = Raise e.
Proof.
  intros Hx Hf. destruct (py_map f l) as [r|e] eqn:Hm; [|by exists e].
  assert (Hall : ∃ r, py_map f l = Ok r) by (by exists r).
  rewrite py_map_ok in Hall. by rewrite Hall in Hf.
Qed.

Lemma py_map_Ok_map {A B C} (f : A → pyres B) (g : B → C) (h : A → C) l r :
  (∀ x y, f x = Ok y → g y = h x) → py_map f l = Ok r → map g r = map h l.
Proof.
  intros Hgh. revert r. induction l as [|x l IH]; intros r; simpl; [by intros [= <-]|].
  destruct (f x) as [y|] eqn:Hx; simpl; [|done].
  destruct (py_map f l) eqn:Hl; simpl; [|done]. intros [= <-]. simpl. f_equal; auto.
Qed.

(** Each result of [py_map f l] beside its argument. *)
Lemma py_map_zip {A B} (f : A → pyres B) l r :
  py_map f l = Ok r → Forall (λ p, f p.2 = Ok p.1) (zip r l).
Proof.
  revert r. induction l as [|x l IH]; intros r; simpl; [by intros [= <-]|].
  destruct (f x) as [y|] eqn:Hx; simpl; [|done].
  destruct (py_map f l) eqn:Hl; simpl; [|done]. intros [= <-]. simpl.
  constructor; [done|]. by apply IH.
Qed.

(** Filters by predicates that agree on the list's elements are equal. *)
Lemma filter_ext_in {A} (P Q : A → Prop) `{∀ x, Decision (P x)} `{∀ x, Decision (Q x)} l :
  (∀ x, x ∈ l → P x ↔ Q x) → filter P l = filter (A:=A) (B:=list A) Q l.
Proof.
  induction l as [|x l IH]; intros Hpq; [done|]. rewrite !filter_cons.
  rewrite IH by set_solver. destruct (Hpq x (list_elem_of_here x l)).
  repeat case_decide; tauto || done.
Qed.

(** ** Contiguous pieces of a list *)

(** [l1] occurs in [l2] as a contiguous piece, as a line of a transcript
    occurs in it. *)
Definition infix_of {A} (l1 l2 : list A) : Prop := ∃ k1 k2, l2 = k1 ++ l1 ++ k2.

Lemma prefix_infix_of {A} (l1 l2 : list A) : l1 `prefix_of` l2 → infix_of l1 l2.
Proof. intros [k ->]. by exists [], k. Qed.

Lemma infix_of_suffix {A} (l1 l2 l3 : list A) :
  infix_of l1 l2 → l2 `suffix_of` l3 → infix_of l1 l3.
Proof. intros (k1 & k2 & ->) [k ->]. exists (k ++ k1), k2. by rewrite app_assoc. Qed.

Lemma infix_of_infix {A} (l1 l2 l3 : list A) :
  infix_of l1 l2 → infix_of l2 l3 → infix_of l1 l3.
Proof.
  intros (k1 & k2 & ->) (k3 & k4 & ->). exists (k3 ++ k1), (k2 ++ k4).
  by rewrite !app_assoc.
Qed.

Lemma infix_of_prefix {A} (l1 l2 l3 : list A) :
  l1 `prefix_of` l2 → infix_of l2 l3 → infix_of l1 l3.
Proof. intros ?%prefix_infix_of. apply infix_of_infix. done. Qed.

Create HintDb pieces.
#[export] Hint Resolve prefix_infix_of infix_of_suffix infix_of_prefix suffix_app_r
  prefix_app_r : pieces.
#[export] Hint Extern 1 (_ `suffix_of` _) => reflexivity : pieces.
#[export] Hint Extern 1 (_ `prefix_of` _) => reflexivity : pieces.

(** ** Deterministic relations *)

Section Deterministic.
Context {A} (R : relation A) (R_det : ∀ x y z, R x y → R x z → y = z).

(** Two runs of a deterministic relation that end in normal forms end in
    the same one. *)
Lemma rtc_deterministic_nf x y z : rtc R x y → rtc R x z → nf R y → nf R z → y = z.
Proof.
  intros Hy. revert z. induction Hy as [x|x x' y Hxx' Hx'y IH]; intros z Hz Hny Hnz.
  - by apply (rtc_nf _ _ Hz).
  - destruct (rtc_inv _ _ Hz) as [<-|(x'' & Hxx'' & Hx''z)].
    + exfalso. apply Hnz. by exists x'.
    + rewrite (R_det _ _ _ Hxx' Hxx'') in IH. by apply IH.
Qed.

End Deterministic.
