(* ===== verification/PyStr.v ===== *)
(** * Python [str] methods used by [src/pdf-2-excel.py]

    Each definition models one method of CPython's [str] on strings of
    code points below U+0100: character classes ([isspace], [\d]),
    [strip], [split(sep)], [sep.join], [in], [find], [rfind], slicing
    [s[a:b]], [replace(c, '')], [lower] and [endswith].  The lemmas give
    each one its specification in terms of stdpp's list operations. *)

From S2P Require Import Prelude.

(** ** Character classes *)

(** [c.isspace()] (also the whitespace [strip()] and [int()] skip): the
    code points 9-13, 28-32, U+0085 and U+00A0. *)
Definition is_space (c : ascii) : bool :=
  let n := nat_of_ascii c in
  ((9 <=? n) && (n <=? 13)) || ((28 <=? n) && (n <=? 32)) || (n =? 133) || (n =? 160).

(** [\d] in a [str] pattern matches the Unicode class Nd; below U+0100
    that is exactly '0'..'9'. *)
Definition is_digit (c : ascii) : bool :=
  let n := nat_of_ascii c in (48 <=? n) && (n <=? 57).

(** [str.lower()] on one code point: A-Z and U+00C0..U+00DE except U+00D7. *)
Definition lower_char (c : ascii) : ascii :=
  let n := nat_of_ascii c in
  if ((65 <=? n) && (n <=? 90)) || ((192 <=? n) && (n <=? 222) && negb (n =? 215))
  then ascii_of_nat (n + 32) else c.

Definition py_lower (s : pystr) : pystr := map lower_char s.

Lemma is_digit_not_space c : is_digit c = true → is_space c = false.
Proof.
  unfold is_digit, is_space. intros H.
  apply andb_true_iff in H as [H1 H2]. apply Nat.leb_le in H1, H2.
  repeat match goal with
         | |- context [?a <=? ?b] => destruct (Nat.leb_spec a b)
         | |- context [?a =? ?b] => destruct (Nat.eqb_spec a b)
         end; simpl; try done; lia.
Qed.

(** ** [strip] *)

Fixpoint lstrip (s : pystr) : pystr :=
  match s with
  | c :: s' => if is_space c then lstrip s' else s
  | [] => []
  end.

Definition rstrip (s : pystr) : pystr := reverse (lstrip (reverse s)).

(** [s.strip()] *)
Definition strip (s : pystr) : pystr := rstrip (lstrip s).

Lemma lstrip_app_spaces (w s : pystr) :
  Forall (λ c, is_space c = true) w → lstrip (w ++ s) = lstrip s.
Proof. induction 1 as [|c w Hc _ IH]; simpl; [done|]. by rewrite Hc. Qed.

Lemma lstrip_decomp s :
  ∃ w, s = w ++ lstrip s ∧ Forall (λ c, is_space c = true) w ∧
       ∀ c r, lstrip s = c :: r → is_space c = false.
Proof.
  induction s as [|c s IH]; simpl.
  - exists []. split; [done|]. split; [constructor|]. by intros.
  - destruct (is_space c) eqn:Hc.
    + destruct IH as (w & Hs & Hw & Hh). exists (c :: w). simpl.
      split; [by rewrite <- Hs|]. split; [by constructor|done].
    + exists []. split; [done|]. split; [constructor|]. by intros ? ? [= <- _].
Qed.

Lemma lstrip_non_space c s : is_space c = false → lstrip (c :: s) = c :: s.
Proof. simpl. by intros ->. Qed.

Lemma lstrip_idem_start s : (∀ c r, s = c :: r → is_space c = false) → lstrip s = s.
Proof. destruct s as [|c s]; [done|]. intros H. by rewrite lstrip_non_space by eauto. Qed.

Lemma rstrip_decomp s :
  ∃ w, s = rstrip s ++ w ∧ Forall (λ c, is_space c = true) w ∧
       ∀ r c, rstrip s = r ++ [c] → is_space c = false.
Proof.
  destruct (lstrip_decomp (reverse s)) as (w & Hs & Hw & Hh).
  exists (reverse w). unfold rstrip. split; [|split].
  - by rewrite <- reverse_app, <- Hs, reverse_involutive.
  - by apply Forall_reverse.
  - intros r c Hrc. apply (Hh c (reverse r)).
    rewrite <- (reverse_involutive (lstrip (reverse s))), Hrc, reverse_app. done.
Qed.

(** Stripping a string leaves a piece of it whose ends are not spaces. *)
Lemma strip_decomp s :
  ∃ w1 w2, s = w1 ++ strip s ++ w2 ∧
    Forall (λ c, is_space c = true) w1 ∧ Forall (λ c, is_space c = true) w2 ∧
    (∀ c r, strip s = c :: r → is_space c = false) ∧
    (∀ r c, strip s = r ++ [c] → is_space c = false).
Proof.
  destruct (lstrip_decomp s) as (w1 & Hs1 & Hw1 & Hh1).
  destruct (rstrip_decomp (lstrip s)) as (w2 & Hs2 & Hw2 & Hh2).
  exists w1, w2. unfold strip. split; [|split; [done|split; [done|split]]].
  - rewrite Hs1 at 1. by rewrite Hs2 at 1.
  - intros c r Hcr. apply (Hh1 c (r ++ w2)). by rewrite Hs2, Hcr.
  - done.
Qed.

Lemma strip_spaces_app (w1 t w2 : pystr) :
  Forall (λ c, is_space c = true) w1 → Forall (λ c, is_space c = true) w2 →
  (∀ c r, t = c :: r → is_space c = false) → (∀ r c, t = r ++ [c] → is_space c = false) →
  strip (w1 ++ t ++ w2) = t.
Proof.
  intros Hw1 Hw2 Hh Ht. unfold strip, rstrip.
  rewrite lstrip_app_spaces by done.
  destruct t as [|c r].
  - rewrite <- (app_nil_r w2), app_nil_l, lstrip_app_spaces by done. done.
  - rewrite <- app_comm_cons, lstrip_non_space by eauto.
    rewrite app_comm_cons, reverse_app, lstrip_app_spaces by (by apply Forall_reverse).
    rewrite lstrip_idem_start, reverse_involutive; [done|].
    intros d u Hdu. apply (Ht (reverse u)).
    rewrite <- (reverse_involutive (c :: r)), Hdu, reverse_cons. done.
Qed.

(** ** [split] and [join] with a one-character separator *)

(** [s.split(sep)] for a separator of one character. *)
Fixpoint split_on (sep : ascii) (s : pystr) : list pystr :=
  match s with
  | [] => [[]]
  | c :: s' =>
      let r := split_on sep s' in
      if bool_decide (c = sep) then [] :: r
      else match r with
           | x :: rs => (c :: x) :: rs
           | [] => [[c]]
           end
  end.

(** [sep.join(l)] *)
Fixpoint join (sep : ascii) (l : list pystr) : pystr :=
  match l with
  | [] => []
  | [x] => x
  | x :: l' => x ++ sep :: join sep l'
  end.

Lemma split_on_ne sep s : split_on sep s ≠ [].
Proof. destruct s; simpl; [done|]. case_bool_decide; [done|]. by case_match. Qed.

(** Splitting and joining back gives the string. *)
Lemma join_split_on sep s : join sep (split_on sep s) = s.
Proof.
  induction s as [|c s IH]; [done|]. simpl.
  pose proof (split_on_ne sep s) as Hne.
  case_bool_decide as Hc.
  - subst. destruct (split_on sep s) as [|x [|y rs]]; simpl in *; congruence.
  - destruct (split_on sep s) as [|x [|y rs]]; simpl in *; congruence.
Qed.

(** No piece contains the separator. *)
Lemma split_on_no_sep sep s : Forall (λ x, sep ∉ x) (split_on sep s).
Proof.
  induction s as [|c s IH]; simpl.
  - repeat constructor. apply not_elem_of_nil.
  - case_bool_decide as Hc.
    + constructor; [apply not_elem_of_nil|done].
    + destruct (split_on sep s) as [|x rs]; [repeat constructor; set_solver|].
      apply Forall_cons in IH as [Hx Hrs]. constructor; [|done]. set_solver.
Qed.

(** ** Prefixes, [in], [find] and [rfind] *)

Fixpoint starts_with (p s : pystr) : bool :=
  match p, s with
  | [], _ => true
  | c :: p', d :: s' => bool_decide (c = d) && starts_with p' s'
  | _ :: _, [] => false
  end.

Lemma starts_with_spec p s : starts_with p s = true ↔ p `prefix_of` s.
Proof.
  revert s. induction p as [|c p IH]; intros [|d s]; simpl.
  - split; [intros; apply prefix_nil | done].
  - split; [intros; apply prefix_nil | done].
  - split; [done|]. intros H. by apply prefix_nil_inv in H.
  - rewrite andb_true_iff, bool_decide_eq_true, IH. split.
    + intros [-> H]. by apply prefix_cons.
    + intros H. split; [by apply prefix_cons_inv_1 in H | by apply prefix_cons_inv_2 in H].
Qed.

Lemma starts_with_app p s : starts_with p (p ++ s) = true.
Proof. apply starts_with_spec. by exists s. Qed.

(** The least index where [sub] occurs. *)
Fixpoint find_nat (sub s : pystr) : option nat :=
  if starts_with sub s then Some 0
  else match s with
       | [] => None
       | _ :: s' => S <$> find_nat sub s'
       end.

(** [s.find(sub)]: the least index, or -1. *)
Definition py_find (sub s : pystr) : Z :=
  match find_nat sub s with Some i => Z.of_nat i | None => (-1)%Z end.

(** [sub in s] *)
Definition contains (sub s : pystr) : bool := bool_decide (is_Some (find_nat sub s)).

(** The greatest index where [sub] occurs. *)
Fixpoint rfind_nat (sub s : pystr) : option nat :=
  match s with
  | [] => if starts_with sub [] then Some 0 else None
  | _ :: s' =>
      match rfind_nat sub s' with
      | Some i => Some (S i)
      | None => if starts_with sub s then Some 0 else None
      end
  end.

(** [s.rfind(sub)]: the greatest index, or -1. *)
Definition py_rfind (sub s : pystr) : Z :=
  match rfind_nat sub s with Some i => Z.of_nat i | None => (-1)%Z end.

Definition occurs_at (sub s : pystr) (i : nat) : Prop := sub `prefix_of` drop i s.

Lemma find_nat_Some sub s i :
  find_nat sub s = Some i ↔ occurs_at sub s i ∧ ∀ j, j < i → ¬ occurs_at sub s j.
Proof.
  unfold occurs_at. revert i. induction s as [|c s IH]; intros i; simpl.
  - destruct (starts_with sub []) eqn:H.
    + apply starts_with_spec in H. split.
      * intros [= <-]. split; [done|lia].
      * intros [_ Hj]. destruct i; [done|]. exfalso. apply (Hj 0); [lia|done].
    + split; [done|]. intros [Hp _]. rewrite drop_nil in Hp.
      apply starts_with_spec in Hp. congruence.
  - destruct (starts_with sub (c :: s)) eqn:H.
    + apply starts_with_spec in H. split.
      * intros [= <-]. split; [done|lia].
      * intros [_ Hj]. destruct i; [done|]. exfalso. apply (Hj 0); [lia|done].
    + destruct i as [|i].
      * split; [by destruct (find_nat sub s)|]. intros [Hp _].
        apply starts_with_spec in Hp. simpl in Hp. congruence.
      * transitivity (find_nat sub s = Some i).
        { destruct (find_nat sub s); simpl; split; intros; simplify_eq; done. }
        rewrite IH. split.
        -- intros [Hp Hj]. split; [done|]. intros [|j] Hji; simpl.
           ++ intros Hp'. apply starts_with_spec in Hp'. congruence.
           ++ apply Hj. lia.
        -- intros [Hp Hj]. split; [done|]. intros j Hji. apply (Hj (S j)). lia.
Qed.

Lemma occurs_at_0 sub s : occurs_at sub s 0 ↔ starts_with sub s = true.
Proof. unfold occurs_at. rewrite drop_0. symmetry. apply starts_with_spec. Qed.

Lemma occurs_at_S sub c s i : occurs_at sub (c :: s) (S i) ↔ occurs_at sub s i.
Proof. done. Qed.

Lemma occurs_at_nil sub i : occurs_at sub [] i ↔ starts_with sub [] = true.
Proof. unfold occurs_at. rewrite drop_nil. symmetry. apply starts_with_spec. Qed.

Lemma find_nat_None sub s : find_nat sub s = None ↔ ∀ i, ¬ occurs_at sub s i.
Proof.
  induction s as [|c s IH]; simpl.
  - setoid_rewrite occurs_at_nil.
    destruct (starts_with sub []).
    + split; [done|]. intros H. by destruct (H 0).
    + split; [|done]. by intros _ ? ?.
  - destruct (starts_with sub (c :: s)) eqn:Hs.
    + split; [done|]. intros H. destruct (H 0). by apply occurs_at_0.
    + split.
      * intros Hn [|i].
        -- rewrite occurs_at_0. congruence.
        -- rewrite occurs_at_S. apply IH. by destruct (find_nat sub s).
      * intros H. assert (find_nat sub s = None) as ->; [|done].
        apply IH. intros i. apply (H (S i)).
Qed.

Lemma occurs_at_app sub a b : occurs_at sub (a ++ sub ++ b) (length a).
Proof. unfold occurs_at. rewrite drop_app_length. by exists b. Qed.

Lemma occurs_at_decomp sub s i : occurs_at sub s i → ∃ b, s = take i s ++ sub ++ b.
Proof. intros [b Hb]. exists b. by rewrite <- Hb, take_drop. Qed.

(** [sub in s] holds exactly when [s] has [sub] as a factor. *)
Lemma contains_spec sub s : contains sub s = true ↔ ∃ a b, s = a ++ sub ++ b.
Proof.
  unfold contains. rewrite bool_decide_eq_true. split.
  - intros [i Hi]. apply find_nat_Some in Hi as [Hi _].
    apply occurs_at_decomp in Hi as [b Hb]. eauto.
  - intros (a & b & ->). destruct (find_nat sub (a ++ sub ++ b)) eqn:Hf; [done|].
    rewrite find_nat_None in Hf. by destruct (Hf _ (occurs_at_app sub a b)).
Qed.

Lemma rfind_nat_None sub s :
  rfind_nat sub s = None ↔ ∀ j, j ≤ length s → ¬ occurs_at sub s j.
Proof.
  induction s as [|c s IH]; simpl.
  - setoid_rewrite occurs_at_nil.
    destruct (starts_with sub []).
    + split; [done|]. intros H. by destruct (H 0).
    + split; [|done]. by intros _ ? ? ?.
  - destruct (rfind_nat sub s) as [k|] eqn:Hr.
    + split; [done|]. intros H. exfalso.
      assert (Hk : Some k = None); [|congruence].
      apply IH. intros j Hj. apply (H (S j)). lia.
    + destruct (starts_with sub (c :: s)) eqn:Hs.
      * split; [done|]. intros H. destruct (H 0); [lia|]. by apply occurs_at_0.
      * split; [|done]. intros _ [|j] Hj.
        -- rewrite occurs_at_0. congruence.
        -- rewrite occurs_at_S. apply IH; [done|lia].
Qed.

Lemma rfind_nat_Some sub s i :
  rfind_nat sub s = Some i ↔
    i ≤ length s ∧ occurs_at sub s i ∧ ∀ j, i < j ≤ length s → ¬ occurs_at sub s j.
Proof.
  revert i. induction s as [|c s IH]; intros i; simpl.
  - rewrite occurs_at_nil. destruct (starts_with sub []).
    + split; [intros [= <-]; split; [lia|split; [done|lia]]|].
      intros (Hi & _ & _). f_equal. lia.
    + split; [done|]. intros (_ & ? & _). done.
  - destruct (rfind_nat sub s) as [k|] eqn:Hr.
    + destruct (proj1 (IH k) eq_refl) as (Hk & Hpk & Hj). split.
      * intros [= <-]. split; [lia|]. split; [done|].
        intros [|j] Hji; [lia|]. apply Hj. lia.
      * intros (Hi & Hpi & Hji). destruct i as [|i].
        -- exfalso. apply (Hji (S k)); [lia|done].
        -- assert (Some k = Some i) as [= ->]; [|done].
           apply IH. split; [lia|]. split; [done|].
           intros j Hj'. apply (Hji (S j)). lia.
    + pose proof (proj1 (rfind_nat_None sub s) Hr) as Hno.
      destruct (starts_with sub (c :: s)) eqn:Hs.
      * split.
        -- intros [= <-]. split; [lia|]. split; [by apply occurs_at_0|].
           intros [|j] Hj; [lia|]. apply Hno. lia.
        -- intros (Hi & Hpi & _). destruct i as [|i]; [done|].
           exfalso. eapply Hno; [|done]. lia.
      * split; [done|]. intros (Hi & Hpi & _). destruct i as [|i].
        -- apply occurs_at_0 in Hpi. congruence.
        -- exfalso. eapply Hno; [|done]. lia.
Qed.

(** ** Slicing [s[a:b]] *)

(** A slice bound after CPython's [PySlice_AdjustIndices] for step 1:
    a negative bound counts from the end, then the bound is clamped to
    [0, len(s)]. *)
Definition slice_index (n i : Z) : nat :=
  Z.to_nat (if (i <? 0)%Z then Z.max 0 (i + n) else Z.min i n).

(** [s[a:b]]: empty when the adjusted [a] is not below the adjusted [b]. *)
Definition py_slice (s : pystr) (a b : Z) : pystr :=
  let n := Z.of_nat (length s) in
  let i := slice_index n a in
  take (slice_index n b - i) (drop i s).

Lemma slice_index_nat n (a : nat) : slice_index (Z.of_nat n) (Z.of_nat a) = min a n.
Proof. unfold slice_index. destruct (Z.ltb_spec (Z.of_nat a) 0); lia. Qed.

Lemma py_slice_nat s (a b : nat) :
  py_slice s (Z.of_nat a) (Z.of_nat b) =
  take (min b (length s) - min a (length s)) (drop (min a (length s)) s).
Proof. unfold py_slice. by rewrite !slice_index_nat. Qed.

(** ** [replace(c, '')], [lower()] and [endswith] *)

(** [s.replace(c, '')]: every occurrence of [c] removed. *)
Definition py_remove (c : ascii) (s : pystr) : pystr := filter (λ d, d ≠ c) s.

Lemma py_remove_not_in c s : c ∉ py_remove c s.
Proof. unfold py_remove. rewrite list_elem_of_filter. naive_solver. Qed.

Lemma py_remove_id c s : c ∉ s → py_remove c s = s.
Proof.
  unfold py_remove. induction s as [|d s IH]; intros Hc; [done|].
  rewrite filter_cons_True by set_solver. f_equal. apply IH. set_solver.
Qed.

(** [s.endswith(suf)] *)
Definition ends_with (suf s : pystr) : bool := starts_with (reverse suf) (reverse s).

Lemma ends_with_spec suf s : ends_with suf s = true ↔ suf `suffix_of` s.
Proof. unfold ends_with. by rewrite starts_with_spec, suffix_prefix_reverse. Qed.

(** A string with no whitespace at all is left alone by [strip]. *)
Lemma strip_no_space t : (∀ c, c ∈ t → is_space c = false) → strip t = t.
Proof.
  intros H. rewrite <- (strip_spaces_app [] t []) at 2 by
    (try constructor; intros c r ->; apply H; set_solver).
  by rewrite app_nil_r.
Qed.

Lemma split_on_no_sep_id sep x : sep ∉ x → split_on sep x = [x].
Proof.
  induction x as [|c x IH]; intros Hx; [done|]. simpl.
  rewrite IH by set_solver. case_bool_decide; [set_solver|done].
Qed.

Lemma split_on_app_sep sep x y :
  sep ∉ x → split_on sep (x ++ sep :: y) = x :: split_on sep y.
Proof.
  induction x as [|c x IH]; intros Hx; simpl.
  - by rewrite bool_decide_eq_true_2.
  - rewrite IH by set_solver. case_bool_decide; [set_solver|done].
Qed.

Lemma py_remove_app c a b : py_remove c (a ++ b) = py_remove c a ++ py_remove c b.
Proof. apply filter_app. Qed.

Lemma contains_infix sub a t b : contains sub t = true → contains sub (a ++ t ++ b) = true.
Proof.
  rewrite !contains_spec. intros (x & y & ->). exists (a ++ x), (y ++ b).
  by rewrite <- !app_assoc.
Qed.

(** A factor of [s.strip()] is a factor of [s]. *)
Lemma contains_strip sub s : contains sub (strip s) = true → contains sub s = true.
Proof.
  intros H. destruct (strip_decomp s) as (w1 & w2 & Hs & _).
  rewrite Hs. by apply contains_infix.
Qed.

(** ** Comparison: [s <= t] on [str]

    Python compares strings lexicographically by code point, a proper
    prefix being smaller. *)
Fixpoint str_leb (s t : pystr) : bool :=
  match s, t with
  | [], _ => true
  | _ :: _, [] => false
  | c :: s', d :: t' =>
      if (nat_of_ascii c <? nat_of_ascii d)%nat then true
      else if decide (c = d) then str_leb s' t' else false
  end.

Lemma str_leb_refl s : str_leb s s = true.
Proof.
  induction s as [|c s IH]; simpl; [done|].
  rewrite Nat.ltb_irrefl. by rewrite decide_True.
Qed.

Lemma str_leb_total s t : str_leb s t = true ∨ str_leb t s = true.
Proof.
  revert t. induction s as [|c s IH]; intros [|d t]; simpl; auto.
  destruct (Nat.ltb_spec (nat_of_ascii c) (nat_of_ascii d)); [auto|].
  destruct (Nat.ltb_spec (nat_of_ascii d) (nat_of_ascii c)); [auto|].
  assert (c = d) as ->.
  { rewrite <- (ascii_nat_embedding c), <- (ascii_nat_embedding d). f_equal. lia. }
  rewrite !decide_True by done. apply IH.
Qed.

Lemma str_leb_trans s t u : str_leb s t = true → str_leb t u = true → str_leb s u = true.
Proof.
  revert t u. induction s as [|c s IH]; intros [|d t] [|e u]; simpl; try done.
  destruct (Nat.ltb_spec (nat_of_ascii c) (nat_of_ascii d));
    destruct (Nat.ltb_spec (nat_of_ascii d) (nat_of_ascii e));
    destruct (Nat.ltb_spec (nat_of_ascii c) (nat_of_ascii e)); try done;
    repeat case_decide; subst; try done; try lia; eauto.
Qed.

Lemma str_leb_antisym s t : str_leb s t = true → str_leb t s = true → s = t.
Proof.
  revert t. induction s as [|c s IH]; intros [|d t]; simpl; try done.
  destruct (Nat.ltb_spec (nat_of_ascii c) (nat_of_ascii d));
    destruct (Nat.ltb_spec (nat_of_ascii d) (nat_of_ascii c)); try lia;
    repeat case_decide; subst; try done; try lia.
  intros. f_equal. eauto.
Qed.

(** A separator cuts the string in two: the pieces of each side. *)
Lemma split_on_sep_app sep x y :
  split_on sep (x ++ sep :: y) = split_on sep x ++ split_on sep y.
Proof.
  induction x as [|c x IH]; simpl.
  - by rewrite bool_decide_eq_true_2.
  - rewrite IH. pose proof (split_on_ne sep x) as Hne.
    case_bool_decide; [done|]. by destruct (split_on sep x).
Qed.
