(* ===== verification/PyNum.v ===== *)
(** * Python number conversions used by [src/pdf-2-excel.py]

    [int(s)] on a [str] (lines 96-98), [str(n)] on an [int] (lines
    102-106), and [float(s)] on the money tokens of the parser (lines
    129-130).  Integers are [Z]; a money amount is kept as an exact number
    of hundredths (see the note on [cents_of]). *)

From S2P Require Import Prelude PyStr.

(** ** Digits *)

Definition digit_val (c : ascii) : N := N.of_nat (nat_of_ascii c - 48).
Definition digit_char (d : N) : ascii := ascii_of_nat (48 + N.to_nat d).

(** The value of a digit string read left to right from [acc]. *)
Definition dec_val (acc : N) (l : pystr) : N := foldl (λ a c, a * 10 + digit_val c)%N acc l.

Lemma dec_val_app acc l1 l2 : dec_val acc (l1 ++ l2) = dec_val (dec_val acc l1) l2.
Proof. unfold dec_val. by rewrite foldl_app. Qed.

Lemma digit_val_char d : (d < 10)%N → digit_val (digit_char d) = d.
Proof.
  intros Hd. unfold digit_val, digit_char.
  rewrite nat_ascii_embedding by lia. lia.
Qed.

Lemma is_digit_char d : (d < 10)%N → is_digit (digit_char d) = true.
Proof.
  intros Hd. unfold is_digit, digit_char.
  rewrite nat_ascii_embedding by lia. apply andb_true_iff. split; apply Nat.leb_le; lia.
Qed.

Lemma digit_val_lt c : is_digit c = true → (digit_val c < 10)%N.
Proof.
  unfold is_digit, digit_val. intros H. apply andb_true_iff in H as [H1 H2].
  apply Nat.leb_le in H1, H2. lia.
Qed.

(** ** [int(s)] *)

(** The digits of a base-10 literal: at least one digit, underscores only
    singly between digits.  [after_digit] records that the previous
    character was a digit. *)
Fixpoint parse_digits (s : pystr) (acc : N) (after_digit : bool) : option N :=
  match s with
  | [] => if after_digit then Some acc else None
  | c :: s' =>
      if is_digit c then parse_digits s' (acc * 10 + digit_val c)%N true
      else if bool_decide (c = "_"%char) && after_digit then parse_digits s' acc false
      else None
  end.

(** The optional sign of a literal: [true] for a minus. *)
Definition split_sign (s : pystr) : bool * pystr :=
  match s with
  | "-"%char :: r => (true, r)
  | "+"%char :: r => (false, r)
  | _ => (false, s)
  end.

(** [int(s)]: surrounding whitespace, an optional sign, base-10 digits. *)
Definition py_int (s : pystr) : pyres Z :=
  let '(neg, r) := split_sign (strip s) in
  match parse_digits r 0 false with
  | Some n => Ok (if neg then (- Z.of_N n)%Z else Z.of_N n)
  | None => Raise ValueError
  end.

Lemma split_sign_digit c r : is_digit c = true → split_sign (c :: r) = (false, c :: r).
Proof. destruct c as [[] [] [] [] [] [] [] []]; done. Qed.

Lemma parse_digits_all l acc b :
  Forall (λ c, is_digit c = true) l → l ≠ [] → parse_digits l acc b = Some (dec_val acc l).
Proof.
  intros Hl. revert acc b. induction Hl as [|c l Hc Hl IH]; intros acc b Hne; [done|].
  simpl. rewrite Hc. destruct l as [|d l]; [done|]. apply IH. done.
Qed.

(** [int()] of a non-empty string of ASCII digits is its decimal value. *)
Lemma py_int_digits l :
  Forall (λ c, is_digit c = true) l → l ≠ [] → py_int l = Ok (Z.of_N (dec_val 0 l)).
Proof.
  intros Hl Hne. unfold py_int.
  rewrite strip_no_space by
    (intros c Hc; apply is_digit_not_space; by eapply Forall_forall in Hl).
  destruct l as [|c l]; [done|].
  rewrite split_sign_digit by (by inversion Hl).
  by rewrite parse_digits_all.
Qed.

(** ** [str(n)] *)

(** Decimal digits of [n], most significant first; [fuel] bounds their number. *)
Fixpoint digits_of_N (fuel : nat) (n : N) : pystr :=
  match fuel with
  | O => []
  | S f => if (n <? 10)%N then [digit_char n]
           else digits_of_N f (n / 10) ++ [digit_char (n mod 10)]
  end.

(** [str(z)]: a minus sign for negative numbers, then the digits.  The
    number of bits of [|z|], plus one, bounds its number of digits. *)
Definition py_str_int (z : Z) : pystr :=
  (if (z <? 0)%Z then ["-"%char] else []) ++
  digits_of_N (S (N.to_nat (N.size (Z.abs_N z)))) (Z.abs_N z).

Lemma digits_of_N_S f n :
  digits_of_N (S f) n =
  if (n <? 10)%N then [digit_char n] else digits_of_N f (n / 10) ++ [digit_char (n mod 10)].
Proof. reflexivity. Qed.

Lemma digits_of_N_spec f n :
  (n < 10 ^ N.of_nat f)%N →
  digits_of_N (S f) n ≠ [] ∧ Forall (λ c, is_digit c = true) (digits_of_N (S f) n) ∧
  dec_val 0 (digits_of_N (S f) n) = n.
Proof.
  revert n. induction f as [|f IH]; intros n Hn; rewrite digits_of_N_S.
  - assert (n < 10)%N as Hlt by (simpl in Hn; lia).
    destruct (N.ltb_spec n 10); [|lia].
    split; [done|]. split; [constructor; [by apply is_digit_char|constructor]|].
    unfold dec_val; simpl. rewrite digit_val_char; lia.
  - destruct (N.ltb_spec n 10) as [Hlt|Hge].
    + split; [done|]. split; [constructor; [by apply is_digit_char|constructor]|].
      unfold dec_val; simpl. rewrite digit_val_char; lia.
    + assert (Hq : (n / 10 < 10 ^ N.of_nat f)%N).
      { apply N.Div0.div_lt_upper_bound.
        rewrite Nat2N.inj_succ, N.pow_succ_r' in Hn. lia. }
      destruct (IH _ Hq) as (Hne & Hd & Hv).
      assert (Hm : (n mod 10 < 10)%N) by (apply N.mod_lt; lia).
      split; [by intros [_ ?]%app_eq_nil|].
      split; [apply Forall_app; split; [done|repeat constructor; by apply is_digit_char]|].
      rewrite dec_val_app, Hv. unfold dec_val; simpl.
      rewrite digit_val_char by done. pose proof (N.div_mod n 10). lia.
Qed.

Lemma size_bound n : (n < 10 ^ N.of_nat (N.to_nat (N.size n)))%N.
Proof.
  rewrite N2Nat.id. eapply N.lt_le_trans; [apply N.size_gt|].
  apply N.pow_le_mono_l. lia.
Qed.

(** The number of digits of [str(n)] for [n < 10 ^ k]. *)
Lemma digits_of_N_length f n k :
  (0 < k)%nat → (n < 10 ^ N.of_nat k)%N → length (digits_of_N (S f) n) ≤ k.
Proof.
  revert n k. induction f as [|f IH]; intros n k Hk Hn; rewrite digits_of_N_S.
  - destruct (n <? 10)%N; simpl; lia.
  - destruct (N.ltb_spec n 10) as [|Hge]; [simpl; lia|].
    destruct k as [|k]; [lia|]. rewrite length_app. cbn [length].
    assert (0 < k)%nat.
    { destruct k; [|lia]. simpl in Hn. lia. }
    enough (length (digits_of_N (S f) (n / 10)) ≤ k) by lia.
    apply IH; [done|]. apply N.Div0.div_lt_upper_bound.
    rewrite Nat2N.inj_succ, N.pow_succ_r' in Hn. lia.
Qed.

(** [int(str(z)) == z] for every integer. *)
Lemma py_int_str_int z : py_int (py_str_int z) = Ok z.
Proof.
  destruct (digits_of_N_spec _ _ (size_bound (Z.abs_N z))) as (Hne & Hd & Hv).
  unfold py_str_int. set (ds := digits_of_N _ _) in *.
  assert (Hns : ∀ c, c ∈ ds → is_space c = false).
  { intros c Hc. apply is_digit_not_space. by eapply Forall_forall in Hd. }
  destruct (Z.ltb_spec z 0).
  - unfold py_int. rewrite strip_no_space.
    + simpl. rewrite parse_digits_all by done. simpl. f_equal. lia.
    + intros c [->|Hc]%elem_of_cons; [done|]. by apply Hns.
  - simpl. rewrite py_int_digits by done. f_equal. rewrite Hv. lia.
Qed.

(** A string of decimal digits. *)
Abbreviation digits l := (Forall (λ c, is_digit c = true) l).

(** [str] of a number, with zeros on the left to [w] characters, as
    [strftime] and the [.2f] format print fields of fixed width. *)
Definition zpad (w : nat) (s : pystr) : pystr := replicate (w - length s) "0"%char ++ s.

Lemma dec_val_zeros k l : dec_val 0 (replicate k "0"%char ++ l) = dec_val 0 l.
Proof. rewrite dec_val_app. f_equal. induction k as [|k IH]; [done|]. simpl. exact IH. Qed.

(** [zpad w (str z)] of a number [z ≥ 0] is a string of digits whose
    value is [z]. *)
Lemma zpad_str_int w z :
  (0 ≤ z)%Z →
  digits (zpad w (py_str_int z)) ∧ zpad w (py_str_int z) ≠ [] ∧
  Z.of_N (dec_val 0 (zpad w (py_str_int z))) = z.
Proof.
  intros Hz. unfold zpad, py_str_int.
  destruct (Z.ltb_spec z 0); [lia|]. rewrite app_nil_l.
  destruct (digits_of_N_spec _ _ (size_bound (Z.abs_N z))) as (Hne & Hd & Hv).
  split; [|split].
  - apply Forall_app. split; [|done]. apply Forall_replicate. reflexivity.
  - by intros [_ ?]%app_eq_nil.
  - rewrite dec_val_zeros, Hv. lia.
Qed.

(** A field of width [w] holds every number below [10 ^ w] exactly. *)
Lemma zpad_length w z :
  (0 < w)%nat → (0 ≤ z < 10 ^ Z.of_nat w)%Z → length (zpad w (py_str_int z)) = w.
Proof.
  intros Hw Hz. unfold zpad, py_str_int.
  destruct (Z.ltb_spec z 0); [lia|]. rewrite app_nil_l, length_app, length_replicate.
  enough (length (digits_of_N (S (N.to_nat (N.size (Z.abs_N z)))) (Z.abs_N z)) ≤ w) by lia.
  apply digits_of_N_length; [done|]. apply N2Z.inj_lt.
  rewrite N2Z.inj_pow, nat_N_Z, N2Z.inj_abs_N, Z.abs_eq; lia.
Qed.

(** ** [float(s)] on a money token *)

(** [float(s)] for the strings the parser hands it: an optional minus
    sign, digits, a point and two digits.  The value is kept exactly, as
    a number of hundredths; CPython holds the nearest binary double, which
    is the same number up to the double's rounding.  [None] stands for any
    other shape, which the parser never passes (see [Parser]). *)
(** The optional leading minus sign of an amount token. *)
Definition split_minus (s : pystr) : bool * pystr :=
  match s with
  | "-"%char :: r => (true, r)
  | _ => (false, s)
  end.

Definition cents_of (s : pystr) : option Z :=
  let '(neg, body) := split_minus s in
  match split_on "."%char body with
  | [ip; [d1; d2]] =>
      if forallb is_digit ip && is_digit d1 && is_digit d2 then
        let v := (Z.of_N (dec_val 0 ip) * 100 + Z.of_N (digit_val d1) * 10
                  + Z.of_N (digit_val d2))%Z in
        Some (if neg then (- v)%Z else v)
      else None
  | _ => None
  end.

Lemma split_minus_other s : head s ≠ Some "-"%char → split_minus s = (false, s).
Proof. destruct s as [|c r]; [done|]. intros Hc. destruct c as [[] [] [] [] [] [] [] []]; done. Qed.
