(* ===== verification/Sorting.v ===== *)
(** * Stable sorting

    The program sorts twice: [pdf_files.sort(key=lambda x: x[0])] (Python's
    TimSort, line 160) and [df.sort_values(['Sort_Date',
    'Statement_Sequence'])] (pandas' lexsort on two keys, line 195).  Both
    are stable sorts by a total preorder.  This file models a stable sort
    as an insertion sort [sort_by] and proves that it is sorted, a
    permutation and stable, and that these three properties determine the
    result: every stable sort of a list is [sort_by] of it
    ([sort_by_unique]), so the choice of algorithm does not matter. *)

From Stdlib Require Import Sorted.
From S2P Require Import Prelude.

Section StableSort.
Context {A : Type} (leb : A → A → bool).

(** [x] goes before the first element it is not above. *)
Fixpoint insert_by (x : A) (l : list A) : list A :=
  match l with
  | [] => [x]
  | y :: l' => if leb x y then x :: y :: l' else y :: insert_by x l'
  end.

Fixpoint sort_by (l : list A) : list A :=
  match l with
  | [] => []
  | x :: l' => insert_by x (sort_by l')
  end.

(** Two elements with the same key. *)
Definition key_eq (x y : A) : bool := leb x y && leb y x.

Abbreviation R := (λ x y, leb x y = true).

Context (leb_total : ∀ x y, leb x y = true ∨ leb y x = true).
Context (leb_trans : ∀ x y z, leb x y = true → leb y z = true → leb x z = true).

Lemma leb_refl x : leb x x = true.
Proof. by destruct (leb_total x x). Qed.

Lemma leb_false x y : leb x y = false → leb y x = true.
Proof. intros H. destruct (leb_total x y); congruence. Qed.

Lemma insert_by_split x l :
  ∃ l1 l2, l = l1 ++ l2 ∧ insert_by x l = l1 ++ x :: l2 ∧ Forall (λ y, leb x y = false) l1.
Proof.
  induction l as [|y l IH]; simpl.
  - by exists [], [].
  - destruct (leb x y) eqn:Hxy; [by exists [], (y :: l)|].
    destruct IH as (l1 & l2 & -> & -> & Hl1). exists (y :: l1), l2. auto.
Qed.

Lemma insert_by_perm x l : insert_by x l ≡ₚ x :: l.
Proof.
  destruct (insert_by_split x l) as (l1 & l2 & -> & -> & _).
  by rewrite Permutation_middle.
Qed.

Lemma sort_by_perm l : sort_by l ≡ₚ l.
Proof. induction l as [|x l IH]; simpl; [done|]. by rewrite insert_by_perm, IH. Qed.

Lemma insert_by_sorted x l : Sorted R l → Sorted R (insert_by x l).
Proof.
  induction 1 as [|y l Hl IH Hhd]; simpl; [by repeat constructor|].
  destruct (leb x y) eqn:Hxy; [by repeat constructor|].
  constructor; [done|]. destruct l as [|z l]; simpl; [constructor; by apply leb_false|].
  inversion Hhd; subst. destruct (leb x z); constructor; [by apply leb_false|done].
Qed.

Lemma sort_by_sorted l : StronglySorted R (sort_by l).
Proof.
  apply Sorted_StronglySorted; [intros x y z; apply leb_trans|].
  induction l as [|x l IH]; simpl; [constructor|]. by apply insert_by_sorted.
Qed.

(** Stability: the elements of one key keep their order. *)
Lemma sort_by_stable l k :
  filter (λ y, key_eq k y = true) (sort_by l) = filter (λ y, key_eq k y = true) l.
Proof.
  induction l as [|x l IH]; simpl; [done|].
  destruct (insert_by_split x (sort_by l)) as (l1 & l2 & Hs & -> & Hl1).
  rewrite filter_app, filter_cons. rewrite Hs, filter_app in IH.
  unfold key_eq in *. destruct (leb k x && leb x k) eqn:Hkx.
  - rewrite (decide_True _ _ eq_refl), filter_cons_True by done. rewrite <- IH.
    assert (Hnil : filter (λ y, leb k y && leb y k = true) l1 = []).
    { clear IH Hs. induction Hl1 as [|y l1' Hy _ IHl]; [done|].
      rewrite filter_cons_False; [done|]. intros Hky.
      apply andb_true_iff in Hkx as [_ Hxk]. apply andb_true_iff in Hky as [Hky _].
      pose proof (leb_trans _ _ _ Hxk Hky). congruence. }
    by rewrite Hnil.
  - rewrite decide_False by done. rewrite filter_cons_False by (by rewrite Hkx). done.
Qed.

(** Two sorted lists with the same elements of each key, in the same
    order, are equal. *)
Lemma sorted_stable_unique l1 l2 :
  StronglySorted R l1 → StronglySorted R l2 →
  (∀ k, filter (λ y, key_eq k y = true) l1 = filter (λ y, key_eq k y = true) l2) →
  l1 = l2.
Proof.
  assert (Hkk : ∀ a, key_eq a a = true) by (intros a; unfold key_eq; by rewrite leb_refl).
  intros H1. revert l2. induction H1 as [|a r1 Hr1 IH Ha]; intros l2 H2 Hf.
  - destruct l2 as [|b r2]; [done|]. specialize (Hf b).
    rewrite filter_cons_True in Hf by apply Hkk. done.
  - destruct l2 as [|b r2].
    { specialize (Hf a). rewrite filter_cons_True in Hf by apply Hkk. done. }
    apply StronglySorted_inv in H2 as [Hr2 Hb].
    assert (Hab : leb a b = true).
    { specialize (Hf b). rewrite (filter_cons_True _ b) in Hf by apply Hkk.
      assert (Hbl : b ∈ a :: r1).
      { eapply (list_elem_of_filter (λ y, key_eq b y = true)). rewrite Hf. by left. }
      apply elem_of_cons in Hbl as [->|Hbl]; [apply leb_refl|].
      by eapply Forall_forall in Ha. }
    assert (Hba : leb b a = true).
    { specialize (Hf a). rewrite (filter_cons_True _ a) in Hf by apply Hkk.
      assert (Hal : a ∈ b :: r2).
      { eapply (list_elem_of_filter (λ y, key_eq a y = true)). rewrite <- Hf. by left. }
      apply elem_of_cons in Hal as [->|Hal]; [apply leb_refl|].
      by eapply Forall_forall in Hb. }
    assert (a = b) as <-.
    { specialize (Hf a). rewrite !filter_cons_True in Hf; [by injection Hf| |apply Hkk].
      unfold key_eq. by rewrite Hab, Hba. }
    f_equal. apply IH; [done|]. intros k. specialize (Hf k).
    destruct (key_eq k a) eqn:Hka.
    + rewrite !filter_cons_True in Hf by done. by injection Hf.
    + rewrite !filter_cons_False in Hf by (by rewrite Hka). done.
Qed.

(** C19: Every stable sort of [l], whatever its algorithm, is [sort_by l]. *)
Lemma sort_by_unique l l' :
  StronglySorted R l' →
  (∀ k, filter (λ y, key_eq k y = true) l' = filter (λ y, key_eq k y = true) l) →
  l' = sort_by l.
Proof.
  intros Hs Hf. apply sorted_stable_unique; [done|apply sort_by_sorted|].
  intros k. by rewrite Hf, sort_by_stable.
Qed.

End StableSort.

(** ** An instance: sorting pairs by their first component *)

Definition by_fst (x y : nat * nat) : bool := (x.1 <=? y.1)%nat.

(** A list sorted by first component, ties in their original order, is
    [sort_by] of the original list. *)
Lemma sort_by_unique_witness :
  [(1, 1); (2, 0); (2, 2)] = sort_by by_fst [(2, 0); (1, 1); (2, 2)].
Proof.
  apply sort_by_unique.
  - intros x y. unfold by_fst. rewrite !Nat.leb_le. lia.
  - intros x y z. unfold by_fst. rewrite !Nat.leb_le. lia.
  - repeat constructor; simpl; lia.
  - intros [k1 k2]. unfold key_eq, by_fst. simpl.
    destruct (Nat.eq_dec k1 1) as [->|H1]; [reflexivity|].
    destruct (Nat.eq_dec k1 2) as [->|H2]; [reflexivity|].
    rewrite !filter_cons_False, filter_nil; [reflexivity|..];
      cbn [fst]; rewrite andb_true_iff, !Nat.leb_le; lia.
Defined.
