(* ===== verification/Regex.v ===== *)
(** * The [re] module on the program's three patterns

    [src/pdf-2-excel.py] calls [re.search(r'(\d{4})(\d{2})(\d{2})', ..)]
    (line 84), [re.match(r'^(\d{2}/\d{2})', ..)] (line 122) and
    [re.findall(r'-?[\d,]+\.\d{2}', ..)] (line 125).  This file models the
    backtracking matcher of CPython's [sre] for the fragment these patterns
    use: character classes, a single class repeated [?], [+] (both
    greedy) or [{n}] times, and the anchor [^].  A greedy repeat first
    takes as many characters as it can and gives them back one at a time,
    which is what [sre]'s [REPEAT_ONE] does; the first way to match the
    rest wins.  [findall] continues after the end of each match. *)

From S2P Require Import Prelude PyStr.

(** ** Syntax *)

Inductive cls : Type :=
  | CDigit                   (** [\d] *)
  | CChar (c : ascii)        (** a literal character *)
  | CUnion (a b : cls).      (** [[ab]] *)

Fixpoint in_cls (k : cls) (c : ascii) : bool :=
  match k with
  | CDigit => is_digit c
  | CChar d => bool_decide (c = d)
  | CUnion a b => in_cls a c || in_cls b c
  end.

Inductive piece : Type :=
  | PBol                     (** [^] *)
  | POne (k : cls)           (** one character of [k] *)
  | POpt (k : cls)           (** [k?] *)
  | PPlus (k : cls)          (** [k+] *)
  | PRep (k : cls) (n : nat). (** [k{n}] *)

Definition regex := list piece.

(** ** The matcher *)

(** Length of the longest prefix of [s] in class [k]. *)
Fixpoint run_len (k : cls) (s : pystr) : nat :=
  match s with
  | c :: s' => if in_cls k c then S (run_len k s') else 0
  | [] => 0
  end.

(** A greedy repeat gives characters back one at a time: [backoff try j]
    tries the rest of the pattern after [j], [j-1], ..., [1] characters. *)
Fixpoint backoff (try : nat → option nat) (j : nat) : option nat :=
  match j with
  | O => None
  | S j' =>
      match try (S j') with
      | Some n => Some (S j' + n)
      | None => backoff try j'
      end
  end.

(** [mt r bol s]: the length of the match of [r] at the start of [s], if
    any; [bol] tells whether [s] starts at the beginning of the subject. *)
Fixpoint mt (r : regex) (bol : bool) (s : pystr) : option nat :=
  match r with
  | [] => Some 0
  | PBol :: r' => if bol then mt r' bol s else None
  | POne k :: r' =>
      match s with
      | c :: s' => if in_cls k c then S <$> mt r' false s' else None
      | [] => None
      end
  | POpt k :: r' =>
      match s with
      | c :: s' =>
          if in_cls k c then
            match mt r' false s' with
            | Some n => Some (S n)
            | None => mt r' bol s
            end
          else mt r' bol s
      | [] => mt r' bol s
      end
  | PPlus k :: r' => backoff (λ j, mt r' false (drop j s)) (run_len k s)
  | PRep k n :: r' =>
      if bool_decide (n ≤ length s) && forallb (in_cls k) (take n s) then
        Nat.add n <$> mt r' (bol && (n =? 0)) (drop n s)
      else None
  end.

(** [re.match(r, s)]: the length of the match at position 0. *)
Definition re_match (r : regex) (s : pystr) : option nat := mt r true s.

(** [re.search(r, s)] from a position: the first position with a match,
    and the match's length. *)
Fixpoint search_go (r : regex) (bol : bool) (s : pystr) : option (nat * nat) :=
  match mt r bol s with
  | Some n => Some (0, n)
  | None =>
      match s with
      | [] => None
      | _ :: s' => (λ p : nat * nat, (S p.1, p.2)) <$> search_go r false s'
      end
  end.

Definition re_search (r : regex) (s : pystr) : option (nat * nat) := search_go r true s.

(** [re.findall(r, s)] for a pattern without groups: the text of every
    match, scanning left to right and resuming after each match.  An empty
    match moves the scan one character on; the program's patterns never
    match the empty string ([amount_re_nonempty]).  Every step consumes at
    least one character, so [length s + 1] steps are enough ([findall_fuel]). *)
Fixpoint findall_go (fuel : nat) (r : regex) (bol : bool) (s : pystr) : list pystr :=
  match fuel with
  | O => []
  | S f =>
      match mt r bol s with
      | Some (S n) => take (S n) s :: findall_go f r false (drop (S n) s)
      | Some O => [] :: match s with [] => [] | _ :: s' => findall_go f r false s' end
      | None => match s with [] => [] | _ :: s' => findall_go f r false s' end
      end
  end.

Definition re_findall (r : regex) (s : pystr) : list pystr :=
  findall_go (S (length s)) r true s.

(** ** The program's patterns *)

(** [(\d{4})(\d{2})(\d{2})] (line 84) *)
Definition date8_re : regex := [PRep CDigit 4; PRep CDigit 2; PRep CDigit 2].

(** [^(\d{2}/\d{2})] (line 122) *)
Definition mmdd_re : regex := [PBol; PRep CDigit 2; POne (CChar "/"%char); PRep CDigit 2].

(** [-?[\d,]+\.\d{2}] (line 125) *)
Definition amount_re : regex :=
  [POpt (CChar "-"%char); PPlus (CUnion CDigit (CChar ","%char));
   POne (CChar "."%char); PRep CDigit 2].

(** ** The matcher's lemmas *)

Lemma backoff_Some try m n :
  backoff try m = Some n ↔
    ∃ j, 1 ≤ j ≤ m ∧ j ≤ n ∧ try j = Some (n - j) ∧ ∀ j', j < j' ≤ m → try j' = None.
Proof.
  induction m as [|m IH]; simpl.
  - split; [done|]. intros (j & ? & _). lia.
  - destruct (try (S m)) as [k|] eqn:Ht.
    + split.
      * intros [= <-]. exists (S m). split; [lia|]. split; [lia|].
        split; [by rewrite Ht; f_equal; lia|]. intros; lia.
      * intros (j & Hj & Hjn & Htj & Hmax). destruct (decide (j = S m)) as [->|Hne].
        -- rewrite Ht in Htj. injection Htj. intros. f_equal. lia.
        -- rewrite Hmax in Ht; [done|lia].
    + rewrite IH. split.
      * intros (j & Hj & Hjn & Htj & Hmax). exists j. do 3 (split; [done || lia|]).
        intros j' Hj'. destruct (decide (j' = S m)) as [->|]; [done|]. apply Hmax. lia.
      * intros (j & Hj & Hjn & Htj & Hmax). destruct (decide (j = S m)) as [->|].
        -- congruence.
        -- exists j. do 3 (split; [done || lia|]). intros j' Hj'. apply Hmax. lia.
Qed.

Lemma run_len_le k s : run_len k s ≤ length s.
Proof. induction s as [|c s IH]; simpl; [lia|]. case_match; lia. Qed.

Lemma run_len_spec k s j : j ≤ run_len k s → Forall (λ c, in_cls k c = true) (take j s).
Proof.
  revert j. induction s as [|c s IH]; intros j Hj; simpl in *.
  - by rewrite take_nil.
  - destruct j as [|j]; [constructor|]. destruct (in_cls k c) eqn:Hc; [|lia].
    constructor; [done|]. apply IH. lia.
Qed.

Lemma mt_plus k r b s n :
  mt (PPlus k :: r) b s = Some n ↔
    ∃ j, 1 ≤ j ≤ run_len k s ∧ j ≤ n ∧ mt r false (drop j s) = Some (n - j) ∧
         ∀ j', j < j' ≤ run_len k s → mt r false (drop j' s) = None.
Proof. apply backoff_Some. Qed.

Lemma mt_rep k m r b s n :
  mt (PRep k m :: r) b s = Some n ↔
    m ≤ length s ∧ Forall (λ c, in_cls k c = true) (take m s) ∧ m ≤ n ∧
    mt r (b && (m =? 0)) (drop m s) = Some (n - m).
Proof.
  simpl. destruct (bool_decide (m ≤ length s) && forallb (in_cls k) (take m s)) eqn:Hc.
  - apply andb_true_iff in Hc as [Hm Hf]. apply bool_decide_eq_true in Hm.
    apply forallb_Forall in Hf.
    destruct (mt r (b && (m =? 0)) (drop m s)) as [n'|]; simpl.
    + split; [intros [= <-]; do 3 (split; [done || lia|]); f_equal; lia|].
      intros (_ & _ & Hmn & [= Hn']). f_equal. lia.
    + split; [done|]. by intros (_ & _ & _ & ?).
  - split; [done|]. intros (Hm & Hf & _).
    rewrite bool_decide_eq_true_2 in Hc by done. apply forallb_Forall in Hf.
    by rewrite Hf in Hc.
Qed.

Lemma mt_one k r b s n :
  mt (POne k :: r) b s = Some n ↔
    ∃ c s', s = c :: s' ∧ in_cls k c = true ∧ 1 ≤ n ∧ mt r false s' = Some (n - 1).
Proof.
  simpl. destruct s as [|c s']; [split; [done|]; by intros (? & ? & ? & _)|].
  destruct (in_cls k c) eqn:Hc.
  - destruct (mt r false s') as [n'|] eqn:Hm; simpl.
    + split.
      * intros [= <-]. exists c, s'. do 3 (split; [done || lia|]). rewrite Hm. f_equal. lia.
      * intros (? & ? & [= <- <-] & _ & Hn & Hm'). rewrite Hm in Hm'.
        injection Hm'. intros. f_equal. lia.
    + split; [done|]. intros (? & ? & [= <- <-] & _ & _ & ?). congruence.
  - split; [done|]. intros (? & ? & [= <- <-] & ? & _). congruence.
Qed.

Lemma mt_opt k r b s n :
  mt (POpt k :: r) b s = Some n ↔
    (∃ c s', s = c :: s' ∧ in_cls k c = true ∧ 1 ≤ n ∧ mt r false s' = Some (n - 1)) ∨
    ((∀ c s', s = c :: s' → in_cls k c = true → mt r false s' = None) ∧ mt r b s = Some n).
Proof.
  simpl. destruct s as [|c s'].
  - split; [intros; by right|]. intros [(? & ? & ? & _)|[_ ?]]; done.
  - destruct (in_cls k c) eqn:Hc.
    + destruct (mt r false s') as [n'|] eqn:Hm.
      * split.
        -- intros [= <-]. left. exists c, s'. split; [done|]. split; [done|].
           split; [lia|]. rewrite Hm. f_equal. lia.
        -- intros [(? & ? & [= <- <-] & _ & Hn & Hm')|[Hno _]].
           ++ rewrite Hm in Hm'. injection Hm'. intros. f_equal. lia.
           ++ by rewrite (Hno c s') in Hm.
      * split.
        -- intros H. right. split; [|done]. by intros ? ? [= <- <-].
        -- intros [(? & ? & [= <- <-] & _ & _ & ?)|[_ ?]]; congruence.
    + split.
      * intros H. right. split; [|done]. intros ? ? [= <- <-]. congruence.
      * intros [(? & ? & [= <- <-] & ? & _)|[_ ?]]; congruence.
Qed.

Lemma mt_le r b s n : mt r b s = Some n → n ≤ length s.
Proof.
  revert b s n. induction r as [|p r IH]; intros b s n Hm.
  - simpl in Hm. injection Hm. lia.
  - destruct p as [|k|k|k|k m].
    + simpl in Hm. destruct b; [by eapply IH|done].
    + apply mt_one in Hm as (c & s' & -> & _ & Hn & Hm). apply IH in Hm. simpl. lia.
    + apply mt_opt in Hm as [(c & s' & -> & _ & Hn & Hm)|[_ Hm]]; apply IH in Hm;
        simpl in *; lia.
    + apply mt_plus in Hm as (j & Hj & Hjn & Hm & _). apply IH in Hm.
      rewrite length_drop in Hm. pose proof (run_len_le k s). lia.
    + apply mt_rep in Hm as (Hm & _ & Hmn & Hr). apply IH in Hr.
      rewrite length_drop in Hr. lia.
Qed.

(** ** [findall] and [search] *)

(** Any fuel above the subject's length gives the same scan. *)
Lemma findall_go_fuel f1 f2 r b s :
  length s < f1 → length s < f2 → findall_go f1 r b s = findall_go f2 r b s.
Proof.
  revert f2 b s. induction f1 as [|f1 IH]; intros [|f2] b s H1 H2; try lia.
  simpl. destruct (mt r b s) as [[|n]|] eqn:Hm.
  - destruct s as [|c s]; [done|]. f_equal. simpl in *. apply IH; lia.
  - apply mt_le in Hm. f_equal. apply IH; rewrite length_drop; lia.
  - destruct s as [|c s]; [done|]. simpl in *. apply IH; lia.
Qed.

(** [re.findall] with any sufficient fuel. *)
Lemma findall_fuel f r s : length s < f → findall_go f r true s = re_findall r s.
Proof. intros H. apply findall_go_fuel; lia. Qed.

(** Every string [findall] returns is a piece of the subject on which the
    pattern matches exactly. *)
Lemma findall_go_token f r b s t :
  t ∈ findall_go f r b s →
  ∃ pre post bol, s = pre ++ t ++ post ∧ mt r bol (t ++ post) = Some (length t).
Proof.
  revert b s. induction f as [|f IH]; intros b s Ht; simpl in Ht; [set_solver|].
  destruct (mt r b s) as [[|n]|] eqn:Hm.
  - apply elem_of_cons in Ht as [->|Ht].
    + exists [], s, b. simpl. by rewrite Hm.
    + destruct s as [|c s]; [set_solver|].
      destruct (IH _ _ Ht) as (pre & post & bol & -> & Hp). by exists (c :: pre), post, bol.
  - apply elem_of_cons in Ht as [->|Ht].
    + pose proof (mt_le _ _ _ _ Hm). exists [], (drop (S n) s), b. simpl.
      rewrite take_drop, Hm, length_take. split; [done|]. f_equal. lia.
    + destruct (IH _ _ Ht) as (pre & post & bol & Hs & Hp).
      exists (take (S n) s ++ pre), post, bol. split; [|done].
      by rewrite <- app_assoc, <- Hs, take_drop.
  - destruct s as [|c s]; [set_solver|].
    destruct (IH _ _ Ht) as (pre & post & bol & -> & Hp). by exists (c :: pre), post, bol.
Qed.

Lemma search_go_Some r b s i n :
  search_go r b s = Some (i, n) ↔
    i ≤ length s ∧ mt r (b && (i =? 0)) (drop i s) = Some n ∧
    ∀ j, j < i → mt r (b && (j =? 0)) (drop j s) = None.
Proof.
  revert b i. induction s as [|c s IH]; intros b i; simpl.
  - destruct (mt r b []) as [m|] eqn:Hm.
    + split.
      * intros [= <- <-]. rewrite andb_true_r. split; [lia|]. split; [done|]. lia.
      * intros (Hi & Hmi & _). assert (i = 0) as -> by lia.
        simpl in Hmi; rewrite andb_true_r, ?drop_0, Hm in Hmi. congruence.
    + split; [done|]. intros (Hi & Hmi & _). assert (i = 0) as -> by lia.
      simpl in Hmi; rewrite andb_true_r, ?drop_0, Hm in Hmi. done.
  - destruct (mt r b (c :: s)) as [m|] eqn:Hm.
    + split.
      * intros [= <- <-]. rewrite andb_true_r. split; [lia|]. split; [done|]. lia.
      * intros (Hi & Hmi & Hj). destruct i as [|i].
        -- simpl in Hmi; rewrite andb_true_r, ?drop_0, Hm in Hmi. congruence.
        -- specialize (Hj 0 ltac:(lia)). simpl in Hj; rewrite andb_true_r, ?drop_0, Hm in Hj. done.
    + destruct i as [|i].
      * split; [by destruct (search_go r false s) as [[]|]|].
        intros (_ & Hmi & _). simpl in Hmi; rewrite andb_true_r, ?drop_0, Hm in Hmi. done.
      * rewrite andb_false_r. simpl.
        transitivity (search_go r false s = Some (i, n)).
        { destruct (search_go r false s) as [[i' n']|]; simpl; split; intros; simplify_eq; done. }
        rewrite IH. simpl. split.
        -- intros (Hi & Hmi & Hj). split; [lia|]. split; [done|].
           intros [|j] Hji; [by rewrite andb_true_r|]. rewrite andb_false_r. apply Hj. lia.
        -- intros (Hi & Hmi & Hj). split; [lia|]. split; [done|].
           intros j Hji. specialize (Hj (S j) ltac:(lia)). by rewrite andb_false_r in Hj.
Qed.

Lemma search_go_None r b s :
  search_go r b s = None ↔ ∀ j, j ≤ length s → mt r (b && (j =? 0)) (drop j s) = None.
Proof.
  revert b. induction s as [|c s IH]; intros b; simpl.
  - destruct (mt r b []) as [m|] eqn:Hm.
    + split; [done|]. intros H. specialize (H 0 ltac:(lia)).
      simpl in H; rewrite andb_true_r, ?drop_0, Hm in H. done.
    + split; [|done]. intros _ j Hj. assert (j = 0) as -> by lia.
      by rewrite andb_true_r, drop_0.
  - destruct (mt r b (c :: s)) as [m|] eqn:Hm.
    + split; [done|]. intros H. specialize (H 0 ltac:(lia)).
      simpl in H; rewrite andb_true_r, ?drop_0, Hm in H. done.
    + transitivity (search_go r false s = None).
      { destruct (search_go r false s); simpl; split; done. }
      rewrite IH. split.
      * intros H [|j] Hj; [by rewrite andb_true_r|]. rewrite andb_false_r.
        apply (H j). simpl in Hj. lia.
      * intros H j Hj. specialize (H (S j) ltac:(simpl; lia)).
        rewrite andb_false_r in H. done.
Qed.

(** ** The three patterns *)

(** [^(\d{2}/\d{2})] matches exactly five characters: two digits, a slash
    and two digits. *)
Lemma re_match_mmdd s n :
  re_match mmdd_re s = Some n ↔
    n = 5 ∧ ∃ a b c d w, s = a :: b :: "/"%char :: c :: d :: w ∧
      is_digit a = true ∧ is_digit b = true ∧ is_digit c = true ∧ is_digit d = true.
Proof.
  unfold re_match, mmdd_re.
  destruct s as [|a [|b [|sl [|c [|d w]]]]]; simpl.
  all: try (split; [done|]; intros (_ & ? & ? & ? & ? & ? & [=] & _)).
  all: repeat case_match; simplify_eq; simpl;
    rewrite ?andb_true_iff, ?bool_decide_eq_true, ?andb_false_iff, ?bool_decide_eq_false in *;
    try naive_solver.
  all: split; [done|]; intros (_ & a0 & b0 & c0 & d0 & w0 & Heq & Ha & Hb & Hc & Hd);
    injection Heq; intros; subst; destruct_and?; destruct_or?; congruence.
Qed.

(** Eight digits at the start of the subject. *)
Definition digits8_at (s : pystr) : bool :=
  bool_decide (8 ≤ length s) && forallb is_digit (take 8 s).

(** [(\d{4})(\d{2})(\d{2})] matches eight digits, wherever it is tried. *)
Lemma mt_date8 b s : mt date8_re b s = if digits8_at s then Some 8 else None.
Proof.
  unfold digits8_at.
  destruct s as [|c1 [|c2 [|c3 [|c4 [|c5 [|c6 [|c7 [|c8 w]]]]]]]]; simpl;
    repeat match goal with |- context [is_digit ?c] => destruct (is_digit c) end; done.
Qed.

(** [re.search] with the date pattern finds the first run of eight digits. *)
Lemma re_search_date8 s i n :
  re_search date8_re s = Some (i, n) ↔
    n = 8 ∧ i ≤ length s ∧ digits8_at (drop i s) = true ∧
    ∀ j, j < i → digits8_at (drop j s) = false.
Proof.
  unfold re_search. rewrite search_go_Some. setoid_rewrite mt_date8.
  split.
  - intros (Hi & Hm & Hj). destruct (digits8_at (drop i s)) eqn:Hd; [|done].
    injection Hm as <-. split; [done|]. split; [done|]. split; [done|].
    intros j Hji. specialize (Hj j Hji). by destruct (digits8_at (drop j s)).
  - intros (-> & Hi & Hd & Hj). rewrite Hd. split; [done|]. split; [done|].
    intros j Hji. by rewrite Hj.
Qed.

Lemma re_search_date8_None s :
  re_search date8_re s = None ↔ ∀ j, j ≤ length s → digits8_at (drop j s) = false.
Proof.
  unfold re_search. rewrite search_go_None. setoid_rewrite mt_date8.
  split; intros H j Hj; specialize (H j Hj); by destruct (digits8_at (drop j s)).
Qed.

(** The text [findall] returns for [-?[\d,]+\.\d{2}]: an optional minus,
    a non-empty run of digits and commas, a point and two digits. *)
Definition amount_token (t : pystr) : Prop :=
  ∃ sg body d1 d2, t = sg ++ body ++ ["."%char; d1; d2] ∧
    (sg = [] ∨ sg = ["-"%char]) ∧ body ≠ [] ∧
    Forall (λ c, is_digit c = true ∨ c = ","%char) body ∧
    is_digit d1 = true ∧ is_digit d2 = true.

Lemma in_cls_digit_comma c :
  in_cls (CUnion CDigit (CChar ","%char)) c = true ↔ is_digit c = true ∨ c = ","%char.
Proof. simpl. by rewrite orb_true_iff, bool_decide_eq_true. Qed.

Lemma mt_amount_rest u m :
  mt (PPlus (CUnion CDigit (CChar ","%char)) ::
        [POne (CChar "."%char); PRep CDigit 2]) false u = Some m →
  ∃ body d1 d2 w, u = body ++ "."%char :: d1 :: d2 :: w ∧ m = length body + 3 ∧
    body ≠ [] ∧ Forall (λ c, is_digit c = true ∨ c = ","%char) body ∧
    is_digit d1 = true ∧ is_digit d2 = true.
Proof.
  intros Hm. apply mt_plus in Hm as (j & Hj & Hjm & Hm & _).
  apply mt_one in Hm as (c & s' & Hs' & Hc & H1 & Hm).
  apply mt_rep in Hm as (H2 & Hd & H3 & Hm). simpl in Hm. injection Hm as Hm.
  simpl in Hc. apply bool_decide_eq_true in Hc. subst c.
  destruct s' as [|d1 [|d2 w]]; simpl in H2; try lia.
  apply Forall_cons in Hd as [Hd1 Hd]. apply Forall_cons in Hd as [Hd2 _].
  pose proof (run_len_le (CUnion CDigit (CChar ","%char)) u).
  exists (take j u), d1, d2, w. split; [by rewrite <- Hs', take_drop|].
  rewrite length_take. split; [lia|]. split.
  - intros Hnil. apply (f_equal length) in Hnil. rewrite length_take in Hnil. simpl in Hnil. lia.
  - split; [|done]. eapply Forall_impl; [apply (run_len_spec (CUnion CDigit (CChar ","%char))); lia|].
    intros x Hx. by apply in_cls_digit_comma.
Qed.

Lemma mt_amount b u n :
  mt amount_re b u = Some n → ∃ t w, u = t ++ w ∧ n = length t ∧ amount_token t.
Proof.
  unfold amount_re. intros Hm. apply mt_opt in Hm as [(c & u' & -> & Hc & Hn & Hm)|[_ Hm]].
  - simpl in Hc. apply bool_decide_eq_true in Hc. subst c.
    apply mt_amount_rest in Hm as (body & d1 & d2 & w & -> & Hlen & Hne & Hb & Hd1 & Hd2).
    exists ("-"%char :: body ++ ["."%char; d1; d2]), w. split; [simpl; by rewrite <- app_assoc|].
    split; [rewrite length_cons, length_app; simpl; lia|].
    exists ["-"%char], body, d1, d2. split; [done|]. naive_solver.
  - change (mt (PPlus (CUnion CDigit (CChar ","%char)) ::
              [POne (CChar "."%char); PRep CDigit 2]) false u = Some n) in Hm.
    apply mt_amount_rest in Hm as (body & d1 & d2 & w & -> & Hlen & Hne & Hb & Hd1 & Hd2).
    exists (body ++ ["."%char; d1; d2]), w. split; [by rewrite <- app_assoc|].
    split; [rewrite length_app; simpl; lia|].
    exists [], body, d1, d2. split; [done|]. naive_solver.
Qed.

(** The amount pattern never matches the empty string. *)
Lemma amount_re_nonempty b u n : mt amount_re b u = Some n → 4 ≤ n.
Proof.
  intros Hm. apply mt_amount in Hm as (t & w & _ & -> & sg & body & d1 & d2 & -> & _ & Hne & _).
  rewrite !length_app. destruct body; [done|]. simpl. lia.
Qed.

(** Every string [re.findall] returns for the amount pattern is an amount
    token and a piece of the subject. *)
Lemma findall_amount_piece s t :
  t ∈ re_findall amount_re s → amount_token t ∧ ∃ pre post, s = pre ++ t ++ post.
Proof.
  intros Ht. apply findall_go_token in Ht as (pre & post & bol & Hs & Hm).
  split; [|eauto].
  apply mt_amount in Hm as (t' & w & Heq & Hlen & Htok).
  assert (t = t') as ->; [|done].
  apply (f_equal (take (length t))) in Heq.
  rewrite take_app_length, Hlen, take_app_length in Heq. done.
Qed.

(** Every string [re.findall] returns for the amount pattern is an amount
    token and a piece of the subject. *)
Lemma findall_amount_token s t :
  t ∈ re_findall amount_re s → amount_token t ∧ ∃ pre post, s = pre ++ t ++ post.
Proof. apply findall_amount_piece. Qed.

(** ** Instances on a statement line *)

Definition sample_line : pystr := ⟪"03/14 COFFEE SHOP PURCHASE 4.50 1,200.00"⟫.

Lemma findall_fuel_witness :
  length sample_line < 64 ∧
  findall_go 64 amount_re true sample_line = re_findall amount_re sample_line.
Proof.
  assert (H : length sample_line < 64) by (vm_compute; lia).
  split; [exact H|]. exact (findall_fuel 64 amount_re sample_line H).
Defined.

Lemma findall_amount_token_witness :
  ⟪"1,200.00"⟫ ∈ re_findall amount_re sample_line ∧
  (amount_token ⟪"1,200.00"⟫ ∧ ∃ pre post, sample_line = pre ++ ⟪"1,200.00"⟫ ++ post).
Proof.
  assert (H : ⟪"1,200.00"⟫ ∈ re_findall amount_re sample_line)
    by (apply (bool_decide_eq_true_1 _); vm_compute; reflexivity).
  split; [exact H|]. exact (findall_amount_token sample_line _ H).
Defined.
