(* ===== verification/RegexSpec.v ===== *)
(** * What the matcher of [Regex] computes

    [Regex] follows the algorithm of CPython's [sre]: a backtracking
    search in a fixed order.  This file gives the patterns the meaning
    Python's documentation of [re] gives them, as a language: [lang r bol w]
    holds when the string [w] is a match of [r] ([bol] tells whether [w]
    starts at the beginning of the subject, which [^] asks for).  The
    matcher refines it: what [re.match] returns is a match, and it returns
    one whenever the subject has a prefix in the language
    ([re_match_lang]); [re.search] returns the leftmost position where a
    match starts ([re_search_leftmost]); [re.findall] is repeated [re.search], each
    match taken after the end of the previous one
    ([findall_iterated_search]). *)

From S2P Require Import Prelude PyStr Regex.

(** ** The language of a pattern *)

(** Every character of [u] is in class [k]. *)
Definition in_class (k : cls) (u : pystr) : Prop := Forall (λ c, in_cls k c = true) u.

Fixpoint lang (r : regex) (bol : bool) (w : pystr) : Prop :=
  match r with
  | [] => w = []
  | PBol :: r' => bol = true ∧ lang r' bol w
  | POne k :: r' => ∃ c w', w = c :: w' ∧ in_cls k c = true ∧ lang r' false w'
  | POpt k :: r' =>
      lang r' bol w ∨ ∃ c w', w = c :: w' ∧ in_cls k c = true ∧ lang r' false w'
  | PPlus k :: r' =>
      ∃ u v, w = u ++ v ∧ u ≠ [] ∧ in_class k u ∧ lang r' false v
  | PRep k n :: r' =>
      ∃ u v, w = u ++ v ∧ length u = n ∧ in_class k u ∧ lang r' (bol && (n =? 0)) v
  end.

(** ** Soundness and completeness of the backtracking matcher *)

Lemma take_split {A} (l : list A) j n : j ≤ n → take n l = take j l ++ take (n - j) (drop j l).
Proof. intros ?. rewrite take_take_drop. f_equal. lia. Qed.

Lemma run_len_app k u t : in_class k u → length u ≤ run_len k (u ++ t).
Proof. induction 1 as [|c u Hc _ IH]; simpl; [lia|]. rewrite Hc. lia. Qed.

Lemma backoff_complete (try : nat → option nat) m :
  (∃ j, 1 ≤ j ≤ m ∧ is_Some (try j)) → is_Some (backoff try m).
Proof.
  induction m as [|m IH]; intros (j & Hj & Ht); [lia|]. simpl.
  destruct (try (S m)) eqn:Hm; [by eexists|].
  apply IH. exists j. split; [|done]. destruct (decide (j = S m)) as [->|]; [|lia].
  by rewrite Hm in Ht; destruct Ht.
Qed.

(** What [mt] returns is a match. *)
Lemma mt_sound r : ∀ b s n, mt r b s = Some n → lang r b (take n s).
Proof.
  induction r as [|p r IH]; intros b s n Hm.
  { simpl in Hm. injection Hm as <-. by rewrite take_0. }
  destruct p as [|k|k|k|k m]; simpl.
  - simpl in Hm. destruct b; [|done]. split; [done|]. by apply IH.
  - apply mt_one in Hm as (c & s' & -> & Hc & Hn & Hm).
    destruct n as [|n]; [lia|]. rewrite Nat.sub_1_r in Hm. simpl in Hm.
    exists c, (take n s'). split_and!; [done|done|by apply IH].
  - apply mt_opt in Hm as [(c & s' & -> & Hc & Hn & Hm)|[_ Hm]]; [right|left; by apply IH].
    destruct n as [|n]; [lia|]. rewrite Nat.sub_1_r in Hm. simpl in Hm.
    exists c, (take n s'). split_and!; [done|done|by apply IH].
  - apply mt_plus in Hm as (j & Hj & Hjn & Hm & _). pose proof (run_len_le k s).
    exists (take j s), (take (n - j) (drop j s)). split_and!.
    + by apply take_split.
    + intros Ht%(f_equal length). rewrite length_take in Ht. simpl in Ht. lia.
    + apply run_len_spec. lia.
    + by apply IH.
  - apply mt_rep in Hm as (Hm & Hk & Hmn & Hr).
    exists (take m s), (take (n - m) (drop m s)). split_and!.
    + by apply take_split.
    + rewrite length_take. lia.
    + done.
    + by apply IH.
Qed.

(** The search is exhaustive: when some prefix of the subject is a match,
    [mt] finds one. *)
Lemma mt_complete r : ∀ b w s, lang r b w → w `prefix_of` s → is_Some (mt r b s).
Proof.
  induction r as [|p r IH]; intros b w s Hw Hp; [done|].
  destruct p as [|k|k|k|k m]; simpl in Hw |- *.
  - destruct Hw as [-> Hw]. by eapply IH.
  - destruct Hw as (c & w' & -> & Hc & Hw). destruct Hp as [t ->]. simpl. rewrite Hc.
    destruct (IH false w' (w' ++ t)) as [n ->]; [done|by exists t|by eexists].
  - destruct Hw as [Hw|(c & w' & -> & Hc & Hw)].
    + destruct s as [|c s']; [by eapply IH|]. destruct (in_cls k c); [|by eapply IH].
      destruct (mt r false s'); [by eexists|by eapply IH].
    + destruct Hp as [t ->]. simpl. rewrite Hc.
      destruct (IH false w' (w' ++ t)) as [n ->]; [done|by exists t|by eexists].
  - destruct Hw as (u & v & -> & Hu & Hk & Hv). destruct Hp as [t ->].
    apply backoff_complete. exists (length u). rewrite <- app_assoc. split_and!.
    + destruct u; [done|simpl; lia].
    + by apply run_len_app.
    + rewrite drop_app_length. apply (IH _ v); [done|by exists t].
  - destruct Hw as (u & v & -> & <- & Hk & Hv). destruct Hp as [t ->].
    rewrite <- app_assoc, length_app, take_app_length, drop_app_length.
    rewrite bool_decide_eq_true_2 by lia. rewrite (proj2 (forallb_Forall _ _) Hk). simpl.
    destruct (IH _ v (v ++ t) Hv) as [n ->]; [by exists t|by eexists].
Qed.

(** [mt] succeeds exactly when a prefix of the subject is a match. *)
Lemma mt_lang r b s : is_Some (mt r b s) ↔ ∃ w, w `prefix_of` s ∧ lang r b w.
Proof.
  split.
  - intros [n Hn]. exists (take n s). split; [apply prefix_take|by apply mt_sound].
  - intros (w & Hp & Hw). by eapply mt_complete.
Qed.

Lemma mt_None_lang r b s : mt r b s = None ↔ ∀ w, w `prefix_of` s → ¬ lang r b w.
Proof.
  rewrite eq_None_not_Some, mt_lang. split.
  - intros Hn w Hp Hw. apply Hn. by exists w.
  - intros Hn (w & Hp & Hw). by apply (Hn w).
Qed.

(** ** [re.findall] as repeated [re.search]

    The reference reading of [findall] for a pattern that never matches
    the empty string: search from the current position, take the match,
    continue after it. *)
Fixpoint findall_search (fuel : nat) (r : regex) (bol : bool) (s : pystr) : list pystr :=
  match fuel with
  | O => []
  | S f =>
      match search_go r bol s with
      | Some (i, n) => take n (drop i s) :: findall_search f r false (drop (i + n) s)
      | None => []
      end
  end.

Lemma findall_search_skip f r b c s :
  mt r b (c :: s) = None → findall_search f r b (c :: s) = findall_search f r false s.
Proof.
  intros Hm. destruct f as [|f]; [done|]. simpl. rewrite Hm.
  by destruct (search_go r false s) as [[i n]|].
Qed.

Lemma findall_go_search r f g b s :
  (∀ b u, mt r b u ≠ Some 0) → length s < f → length s < g →
  findall_go f r b s = findall_search g r b s.
Proof.
  intros Hne. revert g b s. induction f as [|f IH]; intros g b s Hf Hg; [lia|].
  simpl. destruct (mt r b s) as [[|n]|] eqn:Hm.
  - by destruct (Hne b s).
  - destruct g as [|g]; [lia|]. pose proof (mt_le _ _ _ _ Hm).
    simpl. destruct s as [|c s']; [simpl in *; lia|]. simpl search_go. rewrite Hm. simpl.
    f_equal. apply IH; rewrite length_drop; simpl in *; lia.
  - destruct s as [|c s].
    + destruct g as [|g]; [done|]. simpl. by rewrite Hm.
    + rewrite findall_search_skip by done. apply IH; simpl in *; lia.
Qed.

(** ** The refinement theorems *)

(** C17: [re.match] refines the language: the length it returns is that of a
    match at the start of the subject, and it returns one exactly when
    some prefix of the subject is a match. *)
Theorem re_match_lang r s :
  (∀ n, re_match r s = Some n → n ≤ length s ∧ lang r true (take n s)) ∧
  (is_Some (re_match r s) ↔ ∃ w, w `prefix_of` s ∧ lang r true w).
Proof.
  split; [|apply mt_lang]. intros n Hn. split; [by eapply mt_le|by apply mt_sound].
Qed.

(** C32: [re.search] returns the leftmost position at which a match starts,
    with a match there; it returns nothing exactly when no position of
    the subject starts a match. *)
Theorem re_search_leftmost r s :
  (∀ i n, re_search r s = Some (i, n) →
     i + n ≤ length s ∧ lang r (i =? 0) (take n (drop i s)) ∧
     ∀ j w, j < i → w `prefix_of` drop j s → ¬ lang r (j =? 0) w) ∧
  (re_search r s = None ↔
     ∀ j w, j ≤ length s → w `prefix_of` drop j s → ¬ lang r (j =? 0) w).
Proof.
  unfold re_search. split.
  - intros i n (Hi & Hm & Hj)%search_go_Some. pose proof (mt_le _ _ _ _ Hm) as Hn.
    rewrite length_drop in Hn. split_and!; [lia|by apply mt_sound|].
    intros j w Hji. by apply mt_None_lang, Hj.
  - rewrite search_go_None. split.
    + intros H j w Hj. by apply mt_None_lang, H.
    + intros H j Hj. apply mt_None_lang. intros w. by apply H.
Qed.

(** C21: For a pattern that never matches the empty string (the amount pattern
    is one, [amount_re_nonempty]), [re.findall] is repeated [re.search]:
    each string it returns is the leftmost match after the previous one. *)
Theorem findall_iterated_search r s :
  (∀ b, ¬ lang r b []) → re_findall r s = findall_search (S (length s)) r true s.
Proof.
  intros Hne. apply findall_go_search; [|lia|lia].
  intros b u Hm%mt_sound. apply (Hne b). by rewrite take_0 in Hm.
Qed.

(** ** Instances *)

Lemma re_match_lang_witness : lang mmdd_re true ⟪"03/14"⟫.
Proof. exact (proj2 (proj1 (re_match_lang mmdd_re sample_line) 5 eq_refl)). Defined.

Lemma re_search_leftmost_witness :
  lang date8_re false ⟪"20240301"⟫ ∧ ¬ lang date8_re false ⟪"se_20240"⟫.
Proof.
  destruct (proj1 (re_search_leftmost date8_re ⟪"chase_20240301.pdf"⟫) 6 8 eq_refl)
    as (_ & Hl & Hj).
  split; [exact Hl|]. exact (Hj 3 ⟪"se_20240"⟫ ltac:(lia) ltac:(by exists ⟪"301.pdf"⟫)).
Defined.

Lemma findall_iterated_search_witness :
  re_findall amount_re sample_line =
  findall_search (S (length sample_line)) amount_re true sample_line.
Proof.
  apply findall_iterated_search. intros b.
  apply (proj1 (mt_None_lang amount_re b [])); [by destruct b|done].
Defined.
