(* ===== verification/Dates.v ===== *)
(** * Statement dates and transaction years

    [extract_statement_date] (src/pdf-2-excel.py, lines 82-88) and
    [determine_transaction_year] (lines 90-106), with the abstract rule the
    latter implements ([year_rule]) and the calendar that [pd.to_datetime]
    applies to the composed [MM/DD/YYYY] dates (line 194). *)

From S2P Require Import Prelude PyStr PyNum Regex.

Module StatementDate.

(** [extract_statement_date(filename)]: the first run of eight digits,
    read as the groups [YYYY], [MM], [DD], joined with '-'; the filename
    itself when there is no such run. *)
Definition extract_statement_date (filename : pystr) : pystr :=
  match re_search date8_re filename with
  | Some (i, n) =>
      let m := take n (drop i filename) in
      take 4 m ++ "-"%char :: take 2 (drop 4 m) ++ "-"%char :: take 2 (drop 6 m)
  | None => filename
  end.

(** The [YYYY-MM-DD] string of eight digits. *)
Definition ymd_of_digits (d : pystr) : pystr :=
  take 4 d ++ "-"%char :: take 2 (drop 4 d) ++ "-"%char :: take 2 (drop 6 d).

End StatementDate.

Module TransactionYear.

(** [determine_transaction_year(transaction_date, statement_date)]: each
    [int(...)] and each subscript may raise, in the order of the source. *)
Definition determine_transaction_year (transaction_date statement_date : pystr) : pyres pystr :=
  tm ← py_index (split_on "/"%char transaction_date) 0;
  trans_month ← py_int tm;
  sy ← py_index (split_on "-"%char statement_date) 0;
  statement_year ← py_int sy;
  sm ← py_index (split_on "-"%char statement_date) 1;
  statement_month ← py_int sm;
  if (statement_month =? 1)%Z && (trans_month =? 12)%Z then
    Ok (py_str_int (statement_year - 1))
  else if (statement_month =? 12)%Z && (trans_month =? 1)%Z then
    Ok (py_str_int (statement_year + 1))
  else Ok (py_str_int statement_year).

(** The rule, on numbers: a December transaction on a January statement
    belongs to the year before, a January transaction on a December
    statement to the year after. *)
Definition year_rule (statement_year statement_month trans_month : Z) : Z :=
  if (statement_month =? 1)%Z && (trans_month =? 12)%Z then (statement_year - 1)%Z
  else if (statement_month =? 12)%Z && (trans_month =? 1)%Z then (statement_year + 1)%Z
  else statement_year.

(** Months counted from year 0: [12 * y + m]. *)
Definition month_index (y m : Z) : Z := (12 * y + m)%Z.

(** Two months in 1..12 are at most one apart around the year. *)
Definition adjacent_months (m1 m2 : Z) : Prop :=
  (1 ≤ m1 ≤ 12)%Z ∧ (1 ≤ m2 ≤ 12)%Z ∧
  (Z.abs (m1 - m2) ≤ 1 ∨ (m1 = 1 ∧ m2 = 12) ∨ (m1 = 12 ∧ m2 = 1))%Z.

End TransactionYear.

Module Calendar.

(** The calendar date [pd.to_datetime] builds. *)
Record date := mk_date { d_year : Z; d_month : Z; d_day : Z }.

#[export] Instance date_eq_dec : EqDecision date.
Proof. solve_decision. Defined.

Definition leap (y : Z) : bool :=
  ((y mod 4 =? 0) && negb (y mod 100 =? 0) || (y mod 400 =? 0))%Z.

Definition days_in_month (y m : Z) : Z :=
  if (m =? 2)%Z then (if leap y then 29 else 28)
  else if (m =? 4)%Z || (m =? 6)%Z || (m =? 9)%Z || (m =? 11)%Z then 30 else 31.

(** The order of dates, as a number [yyyymmdd]. *)
Definition date_key (d : date) : Z := (d_year d * 10000 + d_month d * 100 + d_day d)%Z.

(** A [Timestamp] holds nanoseconds since 1970 in 64 bits: the whole days
    it can hold run from 1677-09-22 to 2262-04-11. *)
Definition in_timestamp_range (d : date) : bool :=
  (16770922 <=? date_key d)%Z && (date_key d <=? 22620411)%Z.

Definition valid_date (d : date) : bool :=
  (1 <=? d_month d)%Z && (d_month d <=? 12)%Z &&
  (1 <=? d_day d)%Z && (d_day d <=? days_in_month (d_year d) (d_month d))%Z.

Definition all_digits (s : pystr) : bool := bool_decide (s ≠ []) && forallb is_digit s.

(** [pd.to_datetime] on a [MM/DD/YYYY] column: the format [%m/%d/%Y] that
    pandas (2.x) infers from the first element, applied to each element:
    one or two digits of month, one or two of day, exactly four of year;
    an impossible date or one outside the [Timestamp] range raises.  (When
    the first element cannot be month first, e.g. [13/05/2024], pandas
    infers [%d/%m/%Y] instead; the model keeps [%m/%d/%Y].) *)
Definition to_datetime (s : pystr) : pyres date :=
  match split_on "/"%char s with
  | [ms; ds; ys] =>
      if all_digits ms && (length ms <=? 2) && all_digits ds && (length ds <=? 2) &&
         all_digits ys && (length ys =? 4) then
        let d := mk_date (Z.of_N (dec_val 0 ys)) (Z.of_N (dec_val 0 ms)) (Z.of_N (dec_val 0 ds)) in
        if valid_date d && in_timestamp_range d then Ok d else Raise DateParseError
      else Raise DateParseError
  | _ => Raise DateParseError
  end.

End Calendar.

(** ** Properties *)

Lemma non_digit_not_in c x : is_digit c = false → digits x → c ∉ x.
Proof. intros Hc Hx Hin. eapply Forall_forall in Hx; [|done]. congruence. Qed.

Section StatementDateProps.
Import StatementDate.

(** A filename whose first run of eight digits starts at [i] gives that
    run as [YYYY-MM-DD]. *)
Lemma extract_statement_date_digits8 f i :
  digits8_at (drop i f) = true → (∀ j, j < i → digits8_at (drop j f) = false) →
  extract_statement_date f = ymd_of_digits (take 8 (drop i f)).
Proof.
  intros Hi Hj. unfold extract_statement_date.
  assert (Hle : i ≤ length f).
  { unfold digits8_at in Hi. apply andb_true_iff in Hi as [Hi _].
    apply bool_decide_eq_true in Hi. rewrite length_drop in Hi. lia. }
  by rewrite (proj2 (re_search_date8 f i 8) (conj eq_refl (conj Hle (conj Hi Hj)))).
Qed.

(** C16: A filename whose first run of eight digits starts at [i] gives that
    run as [YYYY-MM-DD]. *)
Lemma extract_statement_date_found f i :
  digits8_at (drop i f) = true → (∀ j, j < i → digits8_at (drop j f) = false) →
  extract_statement_date f = ymd_of_digits (take 8 (drop i f)).
Proof. apply extract_statement_date_digits8. Qed.

(** A filename with no run of eight digits is returned unchanged. *)
Lemma extract_statement_date_fallback f :
  (∀ j, j ≤ length f → digits8_at (drop j f) = false) → extract_statement_date f = f.
Proof.
  intros H. unfold extract_statement_date. by rewrite (proj2 (re_search_date8_None f) H).
Qed.

End StatementDateProps.

Section TransactionYearProps.
Import TransactionYear.

Lemma py_index_0_cons {A} (x : A) l : py_index (x :: l) 0 = Ok x.
Proof. exact (py_index_lookup (x :: l) 0 x eq_refl). Qed.

Lemma py_index_1_cons {A} (x y : A) l : py_index (x :: y :: l) 1 = Ok y.
Proof. exact (py_index_lookup (x :: y :: l) 1 y eq_refl). Qed.

(** On a transaction date [MM/...] and a statement date [YYYY-MM-...] made
    of digits, [determine_transaction_year] returns [str] of [year_rule]. *)
Lemma determine_transaction_year_digits (mm dd ys ms ds : pystr) :
  digits mm → mm ≠ [] → digits ys → ys ≠ [] → digits ms → ms ≠ [] →
  determine_transaction_year (mm ++ "/"%char :: dd) (ys ++ "-"%char :: ms ++ "-"%char :: ds) =
  Ok (py_str_int (year_rule (Z.of_N (dec_val 0 ys)) (Z.of_N (dec_val 0 ms))
                            (Z.of_N (dec_val 0 mm)))).
Proof.
  intros Hmm Hmm' Hys Hys' Hms Hms'. unfold determine_transaction_year.
  rewrite (split_on_app_sep _ mm) by (by apply non_digit_not_in).
  rewrite (split_on_app_sep _ ys) by (by apply non_digit_not_in).
  rewrite (split_on_app_sep _ ms) by (by apply non_digit_not_in).
  rewrite !py_index_0_cons, py_index_1_cons. simpl.
  rewrite (py_int_digits mm), (py_int_digits ys), (py_int_digits ms) by done. simpl.
  unfold year_rule. by repeat case_match.
Qed.

(** A statement date whose text before its first '-' is not an integer
    (a filename without a date, say) makes [determine_transaction_year]
    raise on every transaction date [MM/...]. *)
Lemma determine_transaction_year_no_year mm dd sd :
  digits mm → mm ≠ [] → is_ok (py_int (default [] (head (split_on "-"%char sd)))) = false →
  is_ok (determine_transaction_year (mm ++ "/"%char :: dd) sd) = false.
Proof.
  intros Hmm Hne Hy. unfold determine_transaction_year.
  rewrite (split_on_app_sep _ mm) by (by apply non_digit_not_in).
  rewrite py_index_0_cons. py_simp. rewrite (py_int_digits mm) by done. py_simp.
  destruct (split_on "-"%char sd) as [|sy rest]; [reflexivity|].
  rewrite py_index_0_cons. py_simp. simpl in Hy. by destruct (py_int sy).
Qed.

(** C4: On a transaction date [MM/...] and a statement date [YYYY-MM-...] made
    of digits, [determine_transaction_year] returns [str] of [year_rule]. *)
Lemma determine_transaction_year_spec (mm dd ys ms ds : pystr) :
  digits mm → mm ≠ [] → digits ys → ys ≠ [] → digits ms → ms ≠ [] →
  determine_transaction_year (mm ++ "/"%char :: dd) (ys ++ "-"%char :: ms ++ "-"%char :: ds) =
  Ok (py_str_int (year_rule (Z.of_N (dec_val 0 ys)) (Z.of_N (dec_val 0 ms))
                            (Z.of_N (dec_val 0 mm)))).
Proof. apply determine_transaction_year_digits. Qed.

(** The year [year_rule] picks is never more than one away from the
    statement's. *)
Lemma year_rule_bounds y m tm : (y - 1 ≤ year_rule y m tm ≤ y + 1)%Z.
Proof. unfold year_rule. repeat case_match; lia. Qed.

(** C5: [year_rule] places a transaction whose month is next to the
    statement's month in the calendar month nearest the statement month,
    and it is the only year that does. *)
Lemma year_rule_nearest y m tm :
  adjacent_months m tm →
  (Z.abs (month_index (year_rule y m tm) tm - month_index y m) ≤ 1)%Z ∧
  ∀ y', (Z.abs (month_index y' tm - month_index y m) ≤ 1)%Z → y' = year_rule y m tm.
Proof.
  unfold adjacent_months, month_index, year_rule. intros (Hm & Htm & Hadj).
  destruct (Z.eqb_spec m 1), (Z.eqb_spec tm 12), (Z.eqb_spec m 12), (Z.eqb_spec tm 1);
    simpl; split; intros; lia.
Qed.

End TransactionYearProps.

Section Composition.
Import StatementDate TransactionYear.

Lemma digits8_at_spec s :
  digits8_at s = true → length (take 8 s) = 8 ∧ digits (take 8 s).
Proof.
  unfold digits8_at. intros [Hl Hd]%andb_true_iff.
  apply bool_decide_eq_true in Hl. apply forallb_Forall in Hd.
  rewrite length_take. split; [lia|done].
Qed.

(** The statement date of a filename with a run of eight digits
    [YYYYMMDD] never makes [determine_transaction_year] raise: it gives
    [year_rule] of the run's year and month and the transaction month. *)
(** A statement date of the shape [YYYY-MM-...] with digit fields, the
    shape [determine_transaction_year] reads without raising. *)
Definition ymd_shaped (sd : pystr) : Prop :=
  ∃ ys ms ds, sd = ys ++ "-"%char :: ms ++ "-"%char :: ds ∧
    digits ys ∧ ys ≠ [] ∧ digits ms ∧ ms ≠ [].

Lemma ymd_fields d :
  length d = 8 → digits d →
  digits (take 4 d) ∧ take 4 d ≠ [] ∧ digits (take 2 (drop 4 d)) ∧ take 2 (drop 4 d) ≠ [].
Proof.
  intros Hlen Hd. split; [by apply Forall_take|]. split.
  { intros Hn. apply (f_equal length) in Hn. rewrite length_take, Hlen in Hn. simpl in Hn. lia. }
  split; [by apply Forall_take, Forall_drop|].
  intros Hn. apply (f_equal length) in Hn. rewrite length_take, length_drop, Hlen in Hn.
  simpl in Hn. lia.
Qed.

Lemma ymd_of_digits_shaped d :
  length d = 8 → digits d → ymd_shaped (ymd_of_digits d).
Proof. intros Hlen Hd. unfold ymd_of_digits. eexists _, _, _. split; [done|]. by apply ymd_fields. Qed.

(** A filename in which [re.search] finds eight digits gives a statement
    date of that shape. *)
Lemma extract_statement_date_shaped f i n :
  re_search date8_re f = Some (i, n) → ymd_shaped (extract_statement_date f).
Proof.
  intros Hs. pose proof Hs as Hs'. apply re_search_date8 in Hs' as (-> & _ & Hd & _).
  unfold extract_statement_date. rewrite Hs. destruct (digits8_at_spec _ Hd) as [Hlen Hdig].
  by apply ymd_of_digits_shaped.
Qed.

Lemma determine_transaction_year_shaped mm dd sd :
  digits mm → mm ≠ [] → ymd_shaped sd →
  ∃ ys ms, determine_transaction_year (mm ++ "/"%char :: dd) sd =
    Ok (py_str_int (year_rule (Z.of_N (dec_val 0 ys)) (Z.of_N (dec_val 0 ms))
                              (Z.of_N (dec_val 0 mm)))).
Proof.
  intros Hmm Hmm' (ys & ms & ds & -> & Hys & Hys' & Hms & Hms').
  exists ys, ms. by apply determine_transaction_year_digits.
Qed.

(** The statement date of a filename with a run of eight digits
    [YYYYMMDD] never makes [determine_transaction_year] raise: it gives
    [year_rule] of the run's year and month and the transaction month. *)
Lemma determine_transaction_year_dated f i mm dd :
  digits8_at (drop i f) = true → (∀ j, j < i → digits8_at (drop j f) = false) →
  digits mm → mm ≠ [] →
  let d8 := take 8 (drop i f) in
  determine_transaction_year (mm ++ "/"%char :: dd) (extract_statement_date f) =
  Ok (py_str_int (year_rule (Z.of_N (dec_val 0 (take 4 d8)))
                            (Z.of_N (dec_val 0 (take 2 (drop 4 d8))))
                            (Z.of_N (dec_val 0 mm)))).
Proof.
  intros Hi Hj Hmm Hmm' d8. rewrite (extract_statement_date_digits8 f i Hi Hj).
  destruct (digits8_at_spec _ Hi) as [Hlen Hd].
  destruct (ymd_fields _ Hlen Hd) as (? & ? & ? & ?).
  by apply determine_transaction_year_digits.
Qed.

End Composition.

(** ** The dates [pd.to_datetime] returns *)

Section Range.
Import Calendar.

(** [pd.to_datetime] raises nothing but its parse error. *)
Lemma to_datetime_raise s e : to_datetime s = Raise e → e = DateParseError.
Proof. unfold to_datetime. repeat case_match; congruence. Qed.

Lemma days_in_month_bounds y m : (28 ≤ days_in_month y m ≤ 31)%Z.
Proof. unfold days_in_month. repeat case_match; lia. Qed.

(** A date read by [pd.to_datetime] exists in the calendar and lies in
    the range of a [Timestamp]: its year is between 1677 and 2262, so it
    is printed with four digits. *)
Lemma to_datetime_bounds s d :
  to_datetime s = Ok d →
  valid_date d = true ∧ (1677 ≤ d_year d ≤ 2262)%Z ∧ (1 ≤ d_month d ≤ 12)%Z ∧
  (1 ≤ d_day d ≤ days_in_month (d_year d) (d_month d))%Z.
Proof.
  unfold to_datetime. repeat case_match; try done. intros [= <-].
  match goal with H : valid_date ?d && in_timestamp_range ?d = true |- _ =>
    apply andb_true_iff in H as [Hv Hr] end.
  split; [done|].
  unfold valid_date, in_timestamp_range, date_key in *. cbn [d_year d_month d_day] in *.
  repeat match goal with
  | H : _ && _ = true |- _ => apply andb_true_iff in H as [? ?]
  | H : (_ <=? _)%Z = true |- _ => apply Z.leb_le in H
  end.
  match goal with |- context [days_in_month ?y ?m] => pose proof (days_in_month_bounds y m) end.
  lia.
Qed.

End Range.

(** ** Instances from the specification *)

Section Instances.
Import StatementDate TransactionYear.

Ltac digits_tac := apply forallb_Forall; reflexivity.

(** [resolve("12/15", "2024-01-10")] is ["2023"]. *)
Lemma determine_transaction_year_spec_witness :
  determine_transaction_year ⟪"12/15"⟫ ⟪"2024-01-10"⟫ = Ok ⟪"2023"⟫.
Proof.
  refine (eq_trans (determine_transaction_year_spec ⟪"12"⟫ ⟪"15"⟫ ⟪"2024"⟫ ⟪"01"⟫ ⟪"10"⟫
                      _ _ _ _ _ _) _);
    [digits_tac|done|digits_tac|done|digits_tac|done|vm_compute; reflexivity].
Defined.

Lemma year_rule_nearest_witness :
  (Z.abs (month_index (year_rule 2024 1 12) 12 - month_index 2024 1) ≤ 1)%Z ∧
  ∀ y', (Z.abs (month_index y' 12 - month_index 2024 1) ≤ 1)%Z → y' = year_rule 2024 1 12.
Proof. apply year_rule_nearest. unfold adjacent_months. lia. Defined.

Lemma extract_statement_date_found_witness :
  extract_statement_date ⟪"Chase_20240315.pdf"⟫ =
  ymd_of_digits (take 8 (drop 6 ⟪"Chase_20240315.pdf"⟫)).
Proof.
  apply extract_statement_date_found; [vm_compute; reflexivity|].
  intros j Hj. do 6 (destruct j as [|j]; [reflexivity|]). lia.
Defined.

Lemma extract_statement_date_fallback_witness :
  extract_statement_date ⟪"statement.pdf"⟫ = ⟪"statement.pdf"⟫.
Proof.
  apply extract_statement_date_fallback.
  intros j Hj. simpl in Hj. do 14 (destruct j as [|j]; [reflexivity|]). lia.
Defined.

Lemma determine_transaction_year_dated_witness :
  determine_transaction_year ⟪"12/28"⟫ (extract_statement_date ⟪"Chase_20240115.pdf"⟫) =
  Ok (py_str_int (year_rule 2024 1 12)).
Proof.
  refine (eq_trans (determine_transaction_year_dated ⟪"Chase_20240115.pdf"⟫ 6 ⟪"12"⟫ ⟪"28"⟫
                      _ _ _ _) _).
  - vm_compute. reflexivity.
  - intros j Hj. do 6 (destruct j as [|j]; [reflexivity|]). lia.
  - digits_tac.
  - done.
  - vm_compute. reflexivity.
Defined.

End Instances.
