(* ===== verification/Clock.v ===== *)
(** * The timestamp of the workbook's name

    Line 199 of src/pdf-2-excel.py reads the clock with [datetime.now()]
    and prints it with [strftime("%Y%m%d_%H%M%S")]; lines 200-201 build the
    workbook's name from it, "to create a unique filename" (line 197).
    This file models a [datetime] as its fields and the format as the six
    fields with zeros on the left to their widths.  [strptime_stamp] reads
    the six fields back; the round trip ([strptime_strftime]) shows that
    the stamp determines the date and the time to the second, and nothing
    finer: two clock readings give the same stamp exactly when they fall
    in the same second ([strftime_stamp_eq]). *)

From S2P Require Import Prelude PyStr PyNum Dates.
Import Calendar.

Module Clock.

(** A [datetime.datetime]: a date, a time of day and the microseconds. *)
Record datetime := mk_datetime {
  dt_date : date; dt_hour : Z; dt_minute : Z; dt_second : Z; dt_microsecond : Z
}.

#[export] Instance datetime_eq_dec : EqDecision datetime.
Proof. solve_decision. Defined.

(** The values [datetime] accepts: a year from [MINYEAR] to [MAXYEAR], a
    day of the month, and a time of day to the microsecond. *)
Definition valid_datetime (t : datetime) : bool :=
  (1 <=? d_year (dt_date t))%Z && (d_year (dt_date t) <=? 9999)%Z && valid_date (dt_date t) &&
  (0 <=? dt_hour t)%Z && (dt_hour t <? 24)%Z && (0 <=? dt_minute t)%Z && (dt_minute t <? 60)%Z &&
  (0 <=? dt_second t)%Z && (dt_second t <? 60)%Z &&
  (0 <=? dt_microsecond t)%Z && (dt_microsecond t <? 1000000)%Z.

(** [t.strftime("%Y%m%d_%H%M%S")]: each field in decimal with zeros on the
    left to its width; the microseconds are not printed.  ([%Y] of a year
    below 1000 depends on the C library; [datetime.now()] is past it.) *)
Definition strftime_stamp (t : datetime) : pystr :=
  zpad 4 (py_str_int (d_year (dt_date t))) ++ zpad 2 (py_str_int (d_month (dt_date t))) ++
  zpad 2 (py_str_int (d_day (dt_date t))) ++ "_"%char ::
  zpad 2 (py_str_int (dt_hour t)) ++ zpad 2 (py_str_int (dt_minute t)) ++
  zpad 2 (py_str_int (dt_second t)).

End Clock.

(** ** Reading a stamp back *)

Section Stamp.
Import Clock.

(** A field of digits, read as a number. *)
Definition read_field (s : pystr) : option Z :=
  if all_digits s then Some (Z.of_N (dec_val 0 s)) else None.

(** [datetime.strptime(s, "%Y%m%d_%H%M%S")] on stamps of fixed width:
    the six fields. *)
Definition strptime_stamp (s : pystr) : option (Z * Z * Z * Z * Z * Z) :=
  match split_on "_"%char s with
  | [ymd; hms] =>
      if (length ymd =? 8) && (length hms =? 6) then
        y ← read_field (take 4 ymd); mo ← read_field (take 2 (drop 4 ymd));
        d ← read_field (drop 2 (drop 4 ymd));
        h ← read_field (take 2 hms); mi ← read_field (take 2 (drop 2 hms));
        se ← read_field (drop 2 (drop 2 hms));
        Some (y, mo, d, h, mi, se)
      else None
  | _ => None
  end.

(** The fields the stamp prints. *)
Definition stamp_fields (t : datetime) : Z * Z * Z * Z * Z * Z :=
  (d_year (dt_date t), d_month (dt_date t), d_day (dt_date t),
   dt_hour t, dt_minute t, dt_second t).

Lemma days_in_month_le y m : (days_in_month y m ≤ 31)%Z.
Proof. unfold days_in_month. repeat case_match; lia. Qed.

Lemma valid_datetime_spec t :
  valid_datetime t = true ↔
    (1 ≤ d_year (dt_date t) ≤ 9999 ∧ 1 ≤ d_month (dt_date t) ≤ 12 ∧
     1 ≤ d_day (dt_date t) ≤ days_in_month (d_year (dt_date t)) (d_month (dt_date t)) ∧
     0 ≤ dt_hour t < 24 ∧ 0 ≤ dt_minute t < 60 ∧ 0 ≤ dt_second t < 60 ∧
     0 ≤ dt_microsecond t < 1000000)%Z.
Proof.
  unfold valid_datetime, valid_date.
  rewrite !andb_true_iff, !Z.leb_le, !Z.ltb_lt. tauto.
Qed.

(** A field of width [w]: [w] digits, read back as the number. *)
Lemma zpad_field w z :
  (0 < w)%nat → (0 ≤ z < 10 ^ Z.of_nat w)%Z →
  length (zpad w (py_str_int z)) = w ∧ digits (zpad w (py_str_int z)) ∧
  read_field (zpad w (py_str_int z)) = Some z.
Proof.
  intros Hw Hz. destruct (zpad_str_int w z) as (Hd & Hne & Hv); [lia|].
  split; [by apply zpad_length|]. split; [done|].
  unfold read_field, all_digits. rewrite bool_decide_eq_true_2 by done.
  rewrite (proj2 (forallb_Forall _ _) Hd). simpl. by rewrite Hv.
Qed.

Lemma strptime_fields Y M D H N S y m d h n s :
  length Y = 4 → length M = 2 → length D = 2 → length H = 2 → length N = 2 → length S = 2 →
  digits (Y ++ M ++ D) → digits (H ++ N ++ S) →
  read_field Y = Some y → read_field M = Some m → read_field D = Some d →
  read_field H = Some h → read_field N = Some n → read_field S = Some s →
  strptime_stamp (Y ++ M ++ D ++ "_"%char :: H ++ N ++ S) = Some (y, m, d, h, n, s).
Proof.
  intros HY HM HD HH HN HS Hd Ht RY RM RD RH RN RS. unfold strptime_stamp.
  replace (Y ++ M ++ D ++ "_"%char :: H ++ N ++ S) with ((Y ++ M ++ D) ++ "_"%char :: H ++ N ++ S)
    by by rewrite <- !app_assoc.
  rewrite split_on_app_sep by (by apply non_digit_not_in).
  rewrite split_on_no_sep_id by (by apply non_digit_not_in). rewrite !length_app, HY, HM, HD, HH, HN, HS. simpl.
  rewrite !drop_app_length', !take_app_length' by done. by rewrite RY, RM, RD, RH, RN, RS.
Qed.

(** Reading the stamp back gives its six fields. *)
Lemma strptime_strftime t :
  valid_datetime t = true → strptime_stamp (strftime_stamp t) = Some (stamp_fields t).
Proof.
  intros (Hy & Hm & Hd & Hh & Hn & Hs & _)%valid_datetime_spec.
  pose proof (days_in_month_le (d_year (dt_date t)) (d_month (dt_date t))).
  unfold strftime_stamp, stamp_fields. apply strptime_fields; rewrite ?Forall_app; repeat split.
  all: match goal with
       | |- context [zpad ?w (py_str_int ?z)] =>
           destruct (zpad_field w z) as (? & ? & ?); [lia|simpl; lia|done]
       end.
Qed.

(** Two valid clock readings give the same stamp exactly when they have
    the same date, hour, minute and second. *)
Lemma strftime_stamp_eq t1 t2 :
  valid_datetime t1 = true → valid_datetime t2 = true →
  strftime_stamp t1 = strftime_stamp t2 ↔ stamp_fields t1 = stamp_fields t2.
Proof.
  intros H1 H2. split.
  - intros Heq. apply (inj Some). by rewrite <- (strptime_strftime t1), <- (strptime_strftime t2), Heq.
  - unfold stamp_fields, strftime_stamp. intros [= -> -> -> -> -> ->]. done.
Qed.

End Stamp.
