(* ===== verification/Parser.v ===== *)
(** * The transaction line parser

    [extract_chase_transactions] (src/pdf-2-excel.py, lines 108-148): the
    loop over the lines of a statement's text with the flag
    [in_transaction_section], and the body that turns one line into a
    record (lines 122-147), here [parse_line]. *)

From S2P Require Import Prelude PyStr PyNum Regex Dates.
Import StatementDate TransactionYear.

Module Parser.

(** The dictionary appended at lines 139-147, with its keys as fields.
    Amounts are hundredths (see [PyNum.cents_of]). *)
Record transaction := mk_txn {
  Statement_Date : pystr;
  Date : pystr;
  Description : pystr;
  Amount : Z;
  Balance : Z;
  Original_Line : pystr;
  Source_File : pystr
}.

Definition TRANSACTION_DETAIL : pystr := ⟪"TRANSACTION DETAIL"⟫.
Definition BEGINNING_BALANCE : pystr := ⟪"Beginning Balance"⟫.
Definition newline : ascii := "010"%char.

(** [float(s.replace(',', ''))] *)
Definition parse_money (tok : pystr) : pyres Z :=
  match cents_of (py_remove ","%char tok) with
  | Some v => Ok v
  | None => Raise ValueError
  end.

(** Lines 122-147 on one line inside the section: [None] when the line is
    skipped, an exception when one of its calls raises. *)
Definition parse_line (filename statement_date line : pystr) : pyres (option transaction) :=
  let sl := strip line in
  match re_match mmdd_re sl with
  | None => Ok None
  | Some n =>
      let current_date := take n sl in
      let amounts := re_findall amount_re line in
      if 2 <=? length amounts then
        amount_str ← py_index amounts (-2);
        balance_str ← py_index amounts (-1);
        amount ← parse_money amount_str;
        balance ← parse_money balance_str;
        let desc_start := (py_find current_date line + Z.of_nat (length current_date))%Z in
        let desc_end := py_rfind amount_str line in
        let description := strip (py_slice line desc_start desc_end) in
        transaction_year ← determine_transaction_year current_date statement_date;
        let full_date := current_date ++ "/"%char :: transaction_year in
        Ok (Some (mk_txn statement_date full_date description amount balance sl filename))
      else Ok None
  end.

(** The loop's state: the flag and the list [transactions]. *)
Record parser_state := mk_pstate {
  in_transaction_section : bool;
  transactions : list transaction
}.

Definition init_pstate : parser_state := mk_pstate false [].

(** One iteration of [for line in lines] (lines 114-147). *)
Definition step (filename statement_date : pystr) (st : parser_state) (line : pystr)
    : pyres parser_state :=
  if contains TRANSACTION_DETAIL line then Ok (mk_pstate true (transactions st))
  else if negb (in_transaction_section st) then Ok st
  else if contains BEGINNING_BALANCE line then Ok st
  else r ← parse_line filename statement_date line;
       match r with
       | None => Ok st
       | Some t => Ok (mk_pstate (in_transaction_section st) (transactions st ++ [t]))
       end.

(** [extract_chase_transactions(text, filename, statement_date)] *)
Definition extract_chase_transactions (text filename statement_date : pystr)
    : pyres (list transaction) :=
  st ← py_for (step filename statement_date) init_pstate (split_on newline text);
  Ok (transactions st).

(** ** The specification of the loop

    The lines after the first line holding the marker, without the lines
    that hold the marker or "Beginning Balance": the lines the parser
    reads. *)
Definition keep_line (line : pystr) : bool :=
  negb (contains TRANSACTION_DETAIL line) && negb (contains BEGINNING_BALANCE line).

Fixpoint section_lines (lines : list pystr) : list pystr :=
  match lines with
  | [] => []
  | l :: ls =>
      if contains TRANSACTION_DETAIL l then filter (λ x, keep_line x = true) ls
      else section_lines ls
  end.

End Parser.

(** ** The loop implements its specification *)

Section Loop.
Import Parser.
Context (filename statement_date : pystr).

Abbreviation pl := (parse_line filename statement_date).
Abbreviation stp := (step filename statement_date).

Lemma step_marker st l :
  contains TRANSACTION_DETAIL l = true → stp st l = Ok (mk_pstate true (transactions st)).
Proof. unfold step. by intros ->. Qed.

Lemma step_outside ts l :
  contains TRANSACTION_DETAIL l = false → stp (mk_pstate false ts) l = Ok (mk_pstate false ts).
Proof. unfold step. by intros ->. Qed.

Lemma step_skip ts l :
  keep_line l = false → stp (mk_pstate true ts) l = Ok (mk_pstate true ts).
Proof.
  unfold step, keep_line. destruct (contains TRANSACTION_DETAIL l); simpl; [done|].
  by destruct (contains BEGINNING_BALANCE l).
Qed.

Lemma step_parse ts l :
  keep_line l = true →
  stp (mk_pstate true ts) l =
  (r ← pl l; Ok (mk_pstate true (match r with Some t => ts ++ [t] | None => ts end))).
Proof.
  unfold step, keep_line. intros [H1 H2]%andb_true_iff.
  apply negb_true_iff in H1, H2. rewrite H1, H2. simpl.
  by destruct (pl l) as [[]|].
Qed.

(** Inside the section, the loop parses exactly the kept lines. *)
Lemma py_for_in_section ts ls :
  py_for stp (mk_pstate true ts) ls =
  (r ← py_filter_map pl (filter (λ x, keep_line x = true) ls); Ok (mk_pstate true (ts ++ r))).
Proof.
  revert ts. induction ls as [|l ls IH]; intros ts; simpl.
  - by rewrite app_nil_r.
  - destruct (keep_line l) eqn:Hk.
    + rewrite filter_cons_True by done. rewrite step_parse by done. simpl.
      destruct (pl l) as [[t|]|e]; simpl; [|rewrite IH|done].
      * rewrite IH. destruct (py_filter_map pl _); simpl; [|done].
        by rewrite <- app_assoc.
      * destruct (py_filter_map pl _); done.
    + rewrite filter_cons_False by (by rewrite Hk). rewrite step_skip by done.
      simpl. apply IH.
Qed.

(** Before the section, the loop skips to the first marker. *)
Lemma py_for_before_section ts ls :
  py_for stp (mk_pstate false ts) ls =
  (r ← py_filter_map pl (section_lines ls);
   Ok (mk_pstate (existsb (contains TRANSACTION_DETAIL) ls) (ts ++ r))).
Proof.
  revert ts. induction ls as [|l ls IH]; intros ts; simpl.
  - by rewrite app_nil_r.
  - destruct (contains TRANSACTION_DETAIL l) eqn:Htd; simpl.
    + rewrite step_marker by done. apply py_for_in_section.
    + rewrite step_outside by done. apply IH.
Qed.

(** [extract_chase_transactions] is the parse of the section's lines, in
    order, stopping at the first exception. *)
Lemma extract_chase_transactions_filter_map text :
  extract_chase_transactions text filename statement_date =
  py_filter_map pl (section_lines (split_on newline text)).
Proof.
  unfold extract_chase_transactions, init_pstate. rewrite py_for_before_section.
  by destruct (py_filter_map pl _).
Qed.

(** C1: [extract_chase_transactions] is the parse of the section's lines, in
    order, stopping at the first exception. *)
Lemma extract_chase_transactions_spec text :
  extract_chase_transactions text filename statement_date =
  py_filter_map pl (section_lines (split_on newline text)).
Proof. apply extract_chase_transactions_filter_map. Qed.

End Loop.

(** ** Money tokens *)

Section Money.
Import Parser.

Lemma py_remove_digits (body : pystr) :
  Forall (λ c, is_digit c = true ∨ c = ","%char) body →
  digits (py_remove ","%char body).
Proof.
  intros Hb. unfold py_remove. apply Forall_forall. intros c Hc.
  apply list_elem_of_filter in Hc as [Hne Hin]. eapply Forall_forall in Hb; [|done].
  by destruct Hb.
Qed.

Lemma is_digit_comma : is_digit ","%char = false.
Proof. reflexivity. Qed.

Lemma is_digit_point : is_digit "."%char = false.
Proof. reflexivity. Qed.

(** [float(tok.replace(',', ''))] never raises on an amount token: it is
    the token's value with the thousands separators ignored. *)
Lemma parse_money_token sg body d1 d2 :
  (sg = [] ∨ sg = ["-"%char]) →
  Forall (λ c, is_digit c = true ∨ c = ","%char) body →
  is_digit d1 = true → is_digit d2 = true →
  parse_money (sg ++ body ++ ["."%char; d1; d2]) =
  Ok (let v := (Z.of_N (dec_val 0 (py_remove ","%char body)) * 100 +
                Z.of_N (digit_val d1) * 10 + Z.of_N (digit_val d2))%Z in
      if bool_decide (sg = []) then v else (- v)%Z).
Proof.
  intros Hsg Hb Hd1 Hd2. unfold parse_money.
  assert (Hrem : py_remove ","%char (sg ++ body ++ ["."%char; d1; d2]) =
                 sg ++ py_remove ","%char body ++ ["."%char; d1; d2]).
  { rewrite !py_remove_app, (py_remove_id _ sg), (py_remove_id _ ["."%char; d1; d2]); [done|..].
    - intros [Hc|[Hc|Hc]%elem_of_cons]%elem_of_cons; [done| |].
      + rewrite <- Hc in Hd1. done.
      + apply list_elem_of_singleton in Hc. rewrite <- Hc in Hd2. done.
    - destruct Hsg as [->| ->]; set_solver. }
  rewrite Hrem. pose proof (py_remove_digits body Hb) as Hdig.
  set (rb := py_remove ","%char body) in *.
  assert (Hsplit : split_on "."%char (rb ++ ["."%char; d1; d2]) = [rb; [d1; d2]]).
  { rewrite split_on_app_sep by (by apply non_digit_not_in).
    rewrite split_on_no_sep_id; [done|].
    intros [Hc|Hin]%elem_of_cons; [by rewrite <- Hc in Hd1|].
    apply list_elem_of_singleton in Hin. by rewrite <- Hin in Hd2. }
  assert (Hf : forallb is_digit rb = true) by (by apply forallb_Forall).
  destruct Hsg as [->| ->]; simpl app; unfold cents_of.
  - rewrite split_minus_other.
    + cbv iota. rewrite Hsplit, Hf. simpl. rewrite Hd1, Hd2. done.
    + destruct rb as [|c rb']; [done|]. simpl. intros [= ->]. by inversion Hdig.
  - simpl split_minus. cbv iota. rewrite Hsplit, Hf. simpl. rewrite Hd1, Hd2. done.
Qed.

End Money.

(** ** One line *)

Section Line.
Import Parser.
Context (filename statement_date : pystr).
Abbreviation pl := (parse_line filename statement_date).

Lemma parse_money_amount t : amount_token t → ∃ v, parse_money t = Ok v.
Proof.
  intros (sg & body & d1 & d2 & -> & Hsg & _ & Hb & Hd1 & Hd2).
  eexists. by apply parse_money_token.
Qed.

Lemma parse_money_found line t : t ∈ re_findall amount_re line → ∃ v, parse_money t = Ok v.
Proof. intros Ht. apply parse_money_amount. by apply (findall_amount_piece line t). Qed.

(** A line whose stripped text starts with a date and which holds at least
    two amount tokens: the record, once the year is resolved. *)
Lemma parse_line_spec line n pre a b :
  re_match mmdd_re (strip line) = Some n →
  re_findall amount_re line = pre ++ [a; b] →
  ∃ va vb, parse_money a = Ok va ∧ parse_money b = Ok vb ∧
  pl line =
    (y ← determine_transaction_year (take n (strip line)) statement_date;
     Ok (Some (mk_txn statement_date (take n (strip line) ++ "/"%char :: y)
       (strip (py_slice line (py_find (take n (strip line)) line + Z.of_nat n)%Z
                             (py_rfind a line)))
       va vb (strip line) filename))).
Proof.
  intros Hm Hf.
  assert (Ha : a ∈ re_findall amount_re line) by (rewrite Hf; set_solver).
  assert (Hb : b ∈ re_findall amount_re line) by (rewrite Hf; set_solver).
  destruct (parse_money_found _ _ Ha) as [va Hva], (parse_money_found _ _ Hb) as [vb Hvb].
  exists va, vb. split; [done|]. split; [done|].
  pose proof (mt_le _ _ _ _ Hm) as Hn.
  unfold parse_line. rewrite Hm, Hf.
  rewrite (proj2 (Nat.leb_le _ _)) by (rewrite length_app; simpl; lia).
  destruct (py_index_last2 pre a b) as [-> ->]. py_simp.
  rewrite Hva, Hvb. py_simp. rewrite length_take_le by done. done.
Qed.

(** C23: The description is the stripped text between the end of the first
    occurrence of the date and the last occurrence of the amount's text. *)
Lemma parse_line_description line n pre a b i j t :
  re_match mmdd_re (strip line) = Some n →
  re_findall amount_re line = pre ++ [a; b] →
  find_nat (take n (strip line)) line = Some i →
  rfind_nat a line = Some j →
  pl line = Ok (Some t) →
  Description t = strip (take (j - (i + n)) (drop (i + n) line)).
Proof.
  intros Hm Hf Hi Hj Ht.
  destruct (parse_line_spec line n pre a b Hm Hf) as (va & vb & _ & _ & Heq).
  rewrite Heq in Ht.
  destruct (determine_transaction_year (take n (strip line)) statement_date); [|done].
  injection Ht as <-. simpl. unfold py_find, py_rfind. rewrite Hi, Hj.
  apply find_nat_Some in Hi as [[w Hw] _]. apply rfind_nat_Some in Hj as [Hjl _].
  pose proof (mt_le _ _ _ _ Hm) as Hn. pose proof (proj1 (proj1 (re_match_mmdd _ _) Hm)) as Hn5.
  assert (Hin : i + n ≤ length line).
  { apply (f_equal length) in Hw. rewrite length_drop, length_app, length_take_le in Hw by done. lia. }
  rewrite <- Nat2Z.inj_add, py_slice_nat.
  replace (j `min` length line) with j by lia. by replace ((i + n) `min` length line) with (i + n) by lia.
Qed.

(** A line that does not start with [MM/DD] once stripped gives no record. *)
Lemma parse_line_no_date line : re_match mmdd_re (strip line) = None → pl line = Ok None.
Proof. unfold parse_line. by intros ->. Qed.

(** A line with fewer than two amount tokens gives no record. *)
Lemma parse_line_short line :
  length (re_findall amount_re line) < 2 → pl line = Ok None.
Proof.
  unfold parse_line. intros H. destruct (re_match _ _); [|done].
  by rewrite (proj2 (Nat.leb_gt _ _)) by lia.
Qed.

(** C7: A line with fewer than two amount tokens gives no record. *)
Lemma parse_line_few_amounts line :
  length (re_findall amount_re line) < 2 → pl line = Ok None.
Proof. apply parse_line_short. Qed.

Lemma mmdd_take s n :
  re_match mmdd_re s = Some n →
  ∃ m1 m2 d1 d2 w, s = [m1; m2; "/"%char; d1; d2] ++ w ∧ n = 5 ∧
    digits [m1; m2] ∧ digits [d1; d2].
Proof.
  intros (-> & m1 & m2 & d1 & d2 & w & -> & ? & ? & ? & ?)%re_match_mmdd.
  exists m1, m2, d1, d2, w. repeat split; repeat constructor; done.
Qed.

(** C2: The normal case: a line [MM/DD ... amount balance] under a statement
    date [YYYY-MM-...] is the record with the date completed by
    [year_rule], the last two amount tokens as amount and balance, and the
    stripped line as [Original_Line]. *)
Lemma parse_line_dated line m1 m2 d1 d2 w pre a b ys ms ds :
  strip line = [m1; m2; "/"%char; d1; d2] ++ w →
  digits [m1; m2] → digits [d1; d2] →
  statement_date = ys ++ "-"%char :: ms ++ "-"%char :: ds →
  digits ys → ys ≠ [] → digits ms → ms ≠ [] →
  re_findall amount_re line = pre ++ [a; b] →
  ∃ va vb, parse_money a = Ok va ∧ parse_money b = Ok vb ∧
  pl line = Ok (Some (mk_txn statement_date
     ([m1; m2; "/"%char; d1; d2; "/"%char] ++
        py_str_int (year_rule (Z.of_N (dec_val 0 ys)) (Z.of_N (dec_val 0 ms))
                              (Z.of_N (dec_val 0 [m1; m2]))))
     (strip (py_slice line (py_find [m1; m2; "/"%char; d1; d2] line + 5)%Z (py_rfind a line)))
     va vb (strip line) filename)).
Proof.
  intros Hsl Hm Hd Hsd Hys Hys' Hms Hms' Hf.
  assert (Hmatch : re_match mmdd_re (strip line) = Some 5).
  { apply re_match_mmdd. split; [done|]. rewrite Hsl.
    apply Forall_cons in Hm as [? [? _]%Forall_cons]. apply Forall_cons in Hd as [? [? _]%Forall_cons].
    by exists m1, m2, d1, d2, w. }
  destruct (parse_line_spec line 5 pre a b Hmatch Hf) as (va & vb & Hva & Hvb & ->).
  exists va, vb. split; [done|]. split; [done|].
  assert (Ht : take 5 (strip line) = [m1; m2] ++ "/"%char :: [d1; d2])
    by (rewrite Hsl; simpl; by rewrite take_0).
  rewrite Ht, Hsd, determine_transaction_year_digits by done. done.
Qed.

(** The two outcomes of a line: no record, or the record once the year
    is resolved. *)
Lemma parse_line_cases line :
  pl line = Ok None ∨
  ∃ n pre a b va vb, re_match mmdd_re (strip line) = Some n ∧
    re_findall amount_re line = pre ++ [a; b] ∧
    parse_money a = Ok va ∧ parse_money b = Ok vb ∧
    pl line =
      (y ← determine_transaction_year (take n (strip line)) statement_date;
       Ok (Some (mk_txn statement_date (take n (strip line) ++ "/"%char :: y)
         (strip (py_slice line (py_find (take n (strip line)) line + Z.of_nat n)%Z
                               (py_rfind a line)))
         va vb (strip line) filename))).
Proof.
  destruct (re_match mmdd_re (strip line)) as [n|] eqn:Hm; [|left; by apply parse_line_no_date].
  destruct (Nat.lt_ge_cases (length (re_findall amount_re line)) 2) as [Hl|Hl];
    [left; by apply parse_line_short|right].
  destruct (last2_decomp _ Hl) as (pre & a & b & Hf).
  destruct (parse_line_spec line n pre a b Hm Hf) as (va & vb & ? & ? & ?).
  by exists n, pre, a, b, va, vb.
Qed.

(** Under a statement date of the shape [YYYY-MM-...], parsing a line
    never raises. *)
Lemma parse_line_no_raise line : ymd_shaped statement_date → is_ok (pl line) = true.
Proof.
  intros Hsd. destruct (parse_line_cases line) as [->|(n & pre & a & b & va & vb & Hm & _ & _ & _ & ->)];
    [done|].
  destruct (mmdd_take _ _ Hm) as (m1 & m2 & d1 & d2 & w & Hsl & -> & Hmd & Hdd).
  assert (Ht : take 5 (strip line) = [m1; m2] ++ "/"%char :: [d1; d2])
    by (rewrite Hsl; simpl; by rewrite take_0).
  rewrite Ht. by destruct (determine_transaction_year_shaped [m1; m2] [d1; d2] statement_date)
    as (ys & ms & ->).
Qed.

(** C8: Under a statement date of the shape [YYYY-MM-...], parsing a line
    never raises. *)
Lemma parse_line_ok line : ymd_shaped statement_date → is_ok (pl line) = true.
Proof. apply parse_line_no_raise. Qed.

(** The only exception a line can raise is the one of
    [determine_transaction_year] on its date. *)
Lemma parse_line_raise line e :
  pl line = Raise e →
  ∃ n, re_match mmdd_re (strip line) = Some n ∧
       determine_transaction_year (take n (strip line)) statement_date = Raise e.
Proof.
  destruct (parse_line_cases line) as [->|(n & pre & a & b & va & vb & Hm & _ & _ & _ & ->)];
    [done|].
  intros H. exists n. split; [done|].
  destruct (determine_transaction_year (take n (strip line)) statement_date);
    simpl in H; congruence.
Qed.

(** A dated line with two amount tokens raises under a statement date
    whose year field is not an integer. *)
Lemma parse_line_no_year line :
  is_Some (re_match mmdd_re (strip line)) → 2 ≤ length (re_findall amount_re line) →
  is_ok (py_int (default [] (head (split_on "-"%char statement_date)))) = false →
  is_ok (pl line) = false.
Proof.
  intros [n Hm] Hl Hy. destruct (last2_decomp _ Hl) as (pre & a & b & Hf).
  destruct (parse_line_spec line n pre a b Hm Hf) as (va & vb & _ & _ & ->).
  destruct (mmdd_take _ _ Hm) as (m1 & m2 & d1 & d2 & w & Hsl & -> & Hmd & Hdd).
  assert (Ht : take 5 (strip line) = [m1; m2] ++ "/"%char :: [d1; d2])
    by (rewrite Hsl; simpl; by rewrite take_0).
  rewrite Ht. pose proof (determine_transaction_year_no_year [m1; m2] [d1; d2] _ Hmd
                            ltac:(done) Hy) as Hd.
  by destruct (determine_transaction_year _ _).
Qed.

(** A record carries the statement date, the file and the stripped line. *)
Lemma parse_line_stamp line t :
  pl line = Ok (Some t) →
  Statement_Date t = statement_date ∧ Source_File t = filename ∧ Original_Line t = strip line.
Proof.
  destruct (parse_line_cases line) as [->|(n & pre & a & b & va & vb & _ & _ & _ & _ & ->)];
    [done|].
  by destruct (determine_transaction_year _ _); intros [= <-].
Qed.

(** C3: Every record comes from a dated line with two amount tokens: its
    fields are the statement date, the file, the stripped line, the last
    two tokens' values and the date completed with the resolved year. *)
Lemma parse_line_record line t :
  pl line = Ok (Some t) →
  Statement_Date t = statement_date ∧ Source_File t = filename ∧
  Original_Line t = strip line ∧
  ∃ n pre a b y, re_match mmdd_re (strip line) = Some n ∧
    re_findall amount_re line = pre ++ [a; b] ∧
    parse_money a = Ok (Amount t) ∧ parse_money b = Ok (Balance t) ∧
    determine_transaction_year (take n (strip line)) statement_date = Ok y ∧
    Date t = take n (strip line) ++ "/"%char :: y.
Proof.
  destruct (parse_line_cases line) as [->|(n & pre & a & b & va & vb & Hm & Hf & Hva & Hvb & ->)];
    [done|].
  destruct (determine_transaction_year (take n (strip line)) statement_date) as [y|] eqn:Hy;
    simpl; [|done].
  intros [= <-]. simpl. split; [done|]. split; [done|]. split; [done|].
  by exists n, pre, a, b, y.
Qed.

End Line.


(** ** The whole text *)

Section Extract.
Import Parser.
Context (filename statement_date : pystr).
Abbreviation ext text := (extract_chase_transactions text filename statement_date).
Abbreviation pl := (parse_line filename statement_date).

Lemma section_lines_elem lines line :
  line ∈ section_lines lines → keep_line line = true.
Proof.
  induction lines as [|l ls IH]; simpl; [set_solver|].
  destruct (contains TRANSACTION_DETAIL l); [|apply IH].
  by intros [? _]%list_elem_of_filter.
Qed.

Lemma section_lines_none lines :
  existsb (contains TRANSACTION_DETAIL) lines = false → section_lines lines = [].
Proof.
  induction lines as [|l ls IH]; simpl; [done|].
  intros [-> H]%orb_false_iff. by apply IH.
Qed.

(** C9: Under a statement date [YYYY-MM-...], extraction never raises. *)
Lemma extract_chase_transactions_ok text :
  ymd_shaped statement_date → is_ok (ext text) = true.
Proof.
  intros Hsd. rewrite extract_chase_transactions_filter_map.
  apply py_filter_map_ok. intros line _. by apply parse_line_no_raise.
Qed.

(** Each record is the parse of one line of the section, a line that
    holds neither the marker nor "Beginning Balance". *)
Lemma extract_chase_transactions_origin text ts t :
  ext text = Ok ts → t ∈ ts →
  ∃ line, line ∈ section_lines (split_on newline text) ∧ pl line = Ok (Some t).
Proof.
  rewrite extract_chase_transactions_filter_map. apply py_filter_map_elem.
Qed.

(** C10: An exception of the extraction is one of [determine_transaction_year]
    on the date of a line of the section. *)
Lemma extract_chase_transactions_raise text e :
  ext text = Raise e →
  ∃ line n, line ∈ section_lines (split_on newline text) ∧
    re_match mmdd_re (strip line) = Some n ∧
    determine_transaction_year (take n (strip line)) statement_date = Raise e.
Proof.
  rewrite extract_chase_transactions_filter_map. intros (line & Hin & Hr)%py_filter_map_raise.
  apply parse_line_raise in Hr as (n & ? & ?). by exists line, n.
Qed.

(** A text without the marker gives no record. *)
(** Under such a statement date, one dated section line with two amount
    tokens makes the whole extraction raise. *)
Lemma extract_chase_transactions_no_year text line :
  line ∈ section_lines (split_on newline text) →
  is_Some (re_match mmdd_re (strip line)) → 2 ≤ length (re_findall amount_re line) →
  is_ok (py_int (default [] (head (split_on "-"%char statement_date)))) = false →
  is_ok (ext text) = false.
Proof.
  rewrite extract_chase_transactions_filter_map. intros Hl Hm H2 Hy.
  apply (py_filter_map_not_ok _ _ line Hl). by apply parse_line_no_year.
Qed.

Lemma extract_chase_transactions_no_marker text :
  existsb (contains TRANSACTION_DETAIL) (split_on newline text) = false → ext text = Ok [].
Proof.
  intros H. rewrite extract_chase_transactions_filter_map, section_lines_none by done. done.
Qed.

(** C6: No record's [Original_Line] holds the marker or "Beginning Balance". *)
Lemma extract_chase_transactions_excludes text ts t :
  ext text = Ok ts → t ∈ ts →
  contains TRANSACTION_DETAIL (Original_Line t) = false ∧
  contains BEGINNING_BALANCE (Original_Line t) = false.
Proof.
  intros Hts Ht. destruct (extract_chase_transactions_origin text ts t Hts Ht) as (line & Hin & Hp).
  apply section_lines_elem in Hin. unfold keep_line in Hin.
  apply andb_true_iff in Hin as [H1 H2]. apply negb_true_iff in H1, H2.
  destruct (parse_line_stamp _ _ line t Hp) as (_ & _ & ->).
  split; apply not_true_iff_false; intros Hc%contains_strip; congruence.
Qed.

End Extract.


(** ** The examples of the specification, computed *)

Section Examples.
Import Parser StatementDate.

Definition coffee_text : pystr :=
  TRANSACTION_DETAIL ++ newline :: ⟪"03/14 COFFEE SHOP PURCHASE 4.50 1,200.00"⟫.

(** The section [TRANSACTION DETAIL] / [03/14 COFFEE SHOP PURCHASE 4.50
    1,200.00] under the statement date [2024-03-01] gives one record:
    [03/14/2024], [COFFEE SHOP PURCHASE], 4.50 and 1200.00. *)
Example coffee_example :
  extract_chase_transactions coffee_text ⟪"Statement_20240301.pdf"⟫ ⟪"2024-03-01"⟫ =
  Ok [mk_txn ⟪"2024-03-01"⟫ ⟪"03/14/2024"⟫ ⟪"COFFEE SHOP PURCHASE"⟫ 450 120000
             ⟪"03/14 COFFEE SHOP PURCHASE 4.50 1,200.00"⟫ ⟪"Statement_20240301.pdf"⟫].
Proof. vm_compute. reflexivity. Qed.

(** The description ends at the last occurrence of the amount's text in
    the line; when the balance [105.00] ends with the amount [5.00], the
    description runs into the amount and the balance. *)
Example description_overlap :
  parse_line ⟪"s_20240315.pdf"⟫ ⟪"2024-03-15"⟫ ⟪"03/14 COFFEE 5.00 105.00"⟫ =
  Ok (Some (mk_txn ⟪"2024-03-15"⟫ ⟪"03/14/2024"⟫ ⟪"COFFEE 5.00 10"⟫ 500 10500
                   ⟪"03/14 COFFEE 5.00 105.00"⟫ ⟪"s_20240315.pdf"⟫)).
Proof. vm_compute. reflexivity. Qed.

(** A filename without eight digits: its statement date is the filename,
    which [determine_transaction_year] cannot read, and the first dated
    line of the section raises [ValueError]. *)
Example undated_statement_raises :
  extract_chase_transactions coffee_text ⟪"statement.pdf"⟫
    (extract_statement_date ⟪"statement.pdf"⟫) = Raise ValueError.
Proof. vm_compute. reflexivity. Qed.

End Examples.


(** ** Instances of the line and text theorems *)

Section Instances.
Import Parser StatementDate.

Definition coffee_line : pystr := ⟪"03/14 COFFEE SHOP PURCHASE 4.50 1,200.00"⟫.
Definition coffee_txn : transaction :=
  mk_txn ⟪"2024-03-01"⟫ ⟪"03/14/2024"⟫ ⟪"COFFEE SHOP PURCHASE"⟫ 450 120000 coffee_line ⟪"s.pdf"⟫.

Lemma sd_shaped : ymd_shaped ⟪"2024-03-01"⟫.
Proof.
  exists ⟪"2024"⟫, ⟪"03"⟫, ⟪"01"⟫. split; [done|].
  repeat split; try (apply forallb_Forall; reflexivity); done.
Qed.

Lemma parse_line_dated_witness :
  parse_line ⟪"s.pdf"⟫ ⟪"2024-03-01"⟫ coffee_line = Ok (Some coffee_txn).
Proof.
  destruct (parse_line_dated ⟪"s.pdf"⟫ ⟪"2024-03-01"⟫ coffee_line "0" "3" "1" "4"
              ⟪" COFFEE SHOP PURCHASE 4.50 1,200.00"⟫ [] ⟪"4.50"⟫ ⟪"1,200.00"⟫
              ⟪"2024"⟫ ⟪"03"⟫ ⟪"01"⟫)
    as (va & vb & Hva & Hvb & ->);
    try (vm_compute; reflexivity); try (apply forallb_Forall; reflexivity); try done.
  vm_compute in Hva, Hvb. injection Hva as <-. injection Hvb as <-.
  vm_compute. reflexivity.
Defined.

Lemma parse_line_description_witness :
  Description coffee_txn = strip (take (27 - (0 + 5)) (drop (0 + 5) coffee_line)).
Proof.
  apply (parse_line_description ⟪"s.pdf"⟫ ⟪"2024-03-01"⟫ coffee_line 5 [] ⟪"4.50"⟫ ⟪"1,200.00"⟫);
    vm_compute; reflexivity.
Defined.

Lemma parse_line_record_witness :
  Statement_Date coffee_txn = ⟪"2024-03-01"⟫ ∧ Source_File coffee_txn = ⟪"s.pdf"⟫ ∧
  Original_Line coffee_txn = strip coffee_line ∧
  ∃ n pre a b y, re_match mmdd_re (strip coffee_line) = Some n ∧
    re_findall amount_re coffee_line = pre ++ [a; b] ∧
    parse_money a = Ok (Amount coffee_txn) ∧ parse_money b = Ok (Balance coffee_txn) ∧
    determine_transaction_year (take n (strip coffee_line)) ⟪"2024-03-01"⟫ = Ok y ∧
    Date coffee_txn = take n (strip coffee_line) ++ "/"%char :: y.
Proof. apply (parse_line_record ⟪"s.pdf"⟫ ⟪"2024-03-01"⟫ coffee_line). vm_compute. reflexivity. Defined.

Lemma parse_line_ok_witness :
  is_ok (parse_line ⟪"s.pdf"⟫ ⟪"2024-03-01"⟫ ⟪"03/14 TRANSFER 10.00"⟫) = true.
Proof. apply parse_line_ok. exact sd_shaped. Defined.

Lemma parse_line_few_amounts_witness :
  parse_line ⟪"s.pdf"⟫ ⟪"2024-03-01"⟫ ⟪"03/14 TRANSFER 10.00"⟫ = Ok None.
Proof. apply parse_line_few_amounts. vm_compute. lia. Defined.

Lemma parse_money_token_witness :
  parse_money ⟪"-1,234.56"⟫ = Ok (-123456)%Z.
Proof.
  refine (eq_trans (parse_money_token ["-"%char] ⟪"1,234"⟫ "5" "6" _ _ _ _) _).
  - by right.
  - repeat constructor; (left; reflexivity) || (right; reflexivity).
  - reflexivity.
  - reflexivity.
  - vm_compute. reflexivity.
Defined.

Lemma extract_chase_transactions_ok_witness :
  is_ok (extract_chase_transactions coffee_text ⟪"s.pdf"⟫ ⟪"2024-03-01"⟫) = true.
Proof. apply extract_chase_transactions_ok. exact sd_shaped. Defined.

Lemma extract_chase_transactions_excludes_witness :
  contains TRANSACTION_DETAIL (Original_Line coffee_txn) = false ∧
  contains BEGINNING_BALANCE (Original_Line coffee_txn) = false.
Proof.
  apply (extract_chase_transactions_excludes ⟪"s.pdf"⟫ ⟪"2024-03-01"⟫ coffee_text [coffee_txn]).
  - vm_compute. reflexivity.
  - by left.
Defined.

Lemma extract_chase_transactions_raise_witness :
  ∃ line n, line ∈ section_lines (split_on newline coffee_text) ∧
    re_match mmdd_re (strip line) = Some n ∧
    determine_transaction_year (take n (strip line)) ⟪"statement.pdf"⟫ = Raise ValueError.
Proof. apply (extract_chase_transactions_raise ⟪"s.pdf"⟫). vm_compute. reflexivity. Defined.

End Instances.
