(* ===== verification/ParserMachine.v ===== *)
(** * The parser loop as a state machine

    [extract_chase_transactions] (src/pdf-2-excel.py, lines 108-148) runs
    a [for] loop over the lines of the text with two variables,
    [in_transaction_section] and [transactions].  [Parser.step] models one
    iteration as a function; this file presents the same loop as a
    small-step relation [pstep] on configurations: the loop's state and
    the lines still to read, the value returned (line 148), or the
    exception that leaves the function.  Each rule is one path through the
    loop body: the marker line (lines 114-116), a line before the section
    (117-118), a "Beginning Balance" line (119-120), a line that gives no
    record, one that gives a record (122-147), and one whose parse raises.

    The machine is deterministic and never stuck, and it reaches the
    result of the loop of [extract_chase_transactions]
    ([machine_py_for_final]); the interpreter [run_steps] needs one step
    per line and one for the return ([run_steps_enough]).  The properties
    of the loop are proved by induction on the steps: the section flag,
    once set, is never reset, and the list of records only grows
    ([loop_monotone]), and every reachable configuration satisfies the
    loop invariant [loop_inv] ([reachable_inv]). *)

From S2P Require Import Prelude PyStr PyNum Regex Dates Parser.
Import Parser.

Module Machine.

Inductive config :=
  | Running (st : parser_state) (lines : list pystr)
  | Done (ts : list transaction)     (** [return transactions] (line 148) *)
  | Raised (e : py_exn).             (** an exception leaves the function *)

Section Step.
Context (filename statement_date : pystr).

Inductive pstep : config → config → Prop :=
  | ps_marker st l ls :
      contains TRANSACTION_DETAIL l = true →
      pstep (Running st (l :: ls)) (Running (mk_pstate true (transactions st)) ls)
  | ps_outside st l ls :
      contains TRANSACTION_DETAIL l = false → in_transaction_section st = false →
      pstep (Running st (l :: ls)) (Running st ls)
  | ps_balance st l ls :
      contains TRANSACTION_DETAIL l = false → in_transaction_section st = true →
      contains BEGINNING_BALANCE l = true →
      pstep (Running st (l :: ls)) (Running st ls)
  | ps_skip st l ls :
      contains TRANSACTION_DETAIL l = false → in_transaction_section st = true →
      contains BEGINNING_BALANCE l = false →
      parse_line filename statement_date l = Ok None →
      pstep (Running st (l :: ls)) (Running st ls)
  | ps_record st l ls t :
      contains TRANSACTION_DETAIL l = false → in_transaction_section st = true →
      contains BEGINNING_BALANCE l = false →
      parse_line filename statement_date l = Ok (Some t) →
      pstep (Running st (l :: ls))
            (Running (mk_pstate (in_transaction_section st) (transactions st ++ [t])) ls)
  | ps_raise st l ls e :
      contains TRANSACTION_DETAIL l = false → in_transaction_section st = true →
      contains BEGINNING_BALANCE l = false →
      parse_line filename statement_date l = Raise e →
      pstep (Running st (l :: ls)) (Raised e)
  | ps_return st :
      pstep (Running st []) (Done (transactions st)).

(** The final configurations. *)
Definition final (c : config) : bool :=
  match c with Running _ _ => false | _ => true end.

(** Runs the machine for at most [fuel] steps. *)
Fixpoint run_steps (fuel : nat) (c : config) : config :=
  match fuel, c with
  | S fuel', Running st (l :: ls) =>
      run_steps fuel' (match step filename statement_date st l with
                       | Ok st' => Running st' ls
                       | Raise e => Raised e
                       end)
  | S fuel', Running st [] => run_steps fuel' (Done (transactions st))
  | _, _ => c
  end.

(** The configuration a call of [extract_chase_transactions] ends in. *)
Definition outcome_config (r : pyres (list transaction)) : config :=
  match r with Ok ts => Done ts | Raise e => Raised e end.

End Step.

End Machine.

(** ** The machine and the loop body *)

Section Props.
Import Machine.
Context (filename statement_date : pystr).
Abbreviation mstep := (pstep filename statement_date).
Abbreviation body := (step filename statement_date).

#[local] Hint Constructors pstep rtc nsteps : core.

(** One step from a line is one iteration of the loop body. *)
Lemma pstep_step st l ls c :
  mstep (Running st (l :: ls)) c ↔
  c = match body st l with Ok st' => Running st' ls | Raise e => Raised e end.
Proof.
  destruct st as [flag ts]. unfold step. cbn [in_transaction_section transactions].
  split.
  - inversion 1; subst; cbn [in_transaction_section transactions] in *;
      repeat match goal with H : _ = _ |- _ => rewrite H end; py_simp; done.
  - intros ->. destruct (contains TRANSACTION_DETAIL l) eqn:Htd; [by constructor|].
    destruct flag; simpl; [|by apply ps_outside].
    destruct (contains BEGINNING_BALANCE l) eqn:Hbb; simpl; [by apply ps_balance|].
    destruct (parse_line filename statement_date l) as [[t|]|e] eqn:Hp; simpl;
      [apply (ps_record _ _ (mk_pstate true ts))|apply ps_skip|apply ps_raise]; done.
Qed.

(** The machine is deterministic. *)
Lemma pstep_determ c c1 c2 : mstep c c1 → mstep c c2 → c1 = c2.
Proof.
  destruct c as [st [|l ls]| |]; intros H1 H2.
  - inversion H1; inversion H2; congruence.
  - apply pstep_step in H1, H2. congruence.
  - inversion H1.
  - inversion H1.
Qed.

(** A configuration that is not final always steps. *)
Lemma pstep_progress c : final c = false → ∃ c', mstep c c'.
Proof.
  destruct c as [st [|l ls]| |]; try done; intros _; [by eexists|].
  eexists. by apply pstep_step.
Qed.

(** A final configuration does not step. *)
Lemma final_nf c : final c = true → nf mstep c.
Proof. destruct c; [done| |]; intros _ [c' Hs]; inversion Hs. Qed.

Lemma rtc_final c c' : final c = true → rtc mstep c c' → c' = c.
Proof. intros Hf Hr. symmetry. by apply (rtc_nf _ _ Hr), final_nf. Qed.

(** The loop over [ls] from the state [st], run to its end. *)
Lemma machine_py_for st ls :
  rtc mstep (Running st ls) (outcome_config (s ← py_for body st ls; Ok (transactions s))).
Proof.
  revert st. induction ls as [|l ls IH]; intros st; simpl.
  - by apply rtc_once.
  - destruct (body st l) as [st'|e] eqn:Hb; simpl.
    + eapply rtc_l; [by apply pstep_step; rewrite Hb|]. apply IH.
    + apply rtc_once. apply pstep_step. by rewrite Hb.
Qed.

Lemma outcome_config_final r : final (outcome_config r) = true.
Proof. by destruct r. Qed.

(** The only final configuration the loop reaches is that result. *)
Lemma machine_py_for_final st ls c :
  final c = true →
  rtc mstep (Running st ls) c ↔ c = outcome_config (s ← py_for body st ls; Ok (transactions s)).
Proof.
  intros Hf. split; [|intros ->; apply machine_py_for].
  intros Hr. apply (rtc_deterministic_nf mstep pstep_determ _ _ _ Hr (machine_py_for st ls));
    apply final_nf; [done|apply outcome_config_final].
Qed.

(** The interpreter [run_steps] follows the machine. *)
Lemma run_steps_sound n c : rtc mstep c (run_steps filename statement_date n c).
Proof.
  revert c. induction n as [|n IH]; intros [st [|l ls]| |]; simpl; try done.
  - eapply rtc_l; [constructor|apply IH].
  - eapply rtc_l; [by apply pstep_step|apply IH].
Qed.

(** [length ls + 1] steps of fuel are enough for the interpreter to
    reach the loop's result. *)
Lemma run_steps_enough st ls :
  run_steps filename statement_date (S (length ls)) (Running st ls) =
  outcome_config (s ← py_for body st ls; Ok (transactions s)).
Proof.
  revert st. induction ls as [|l ls IH]; intros st; simpl; [done|].
  destruct (body st l) as [st'|e]; simpl; [apply IH|done].
Qed.

(** ** Invariants of the loop *)

(** What every record of the list satisfies. *)
Definition record_ok (t : transaction) : Prop :=
  Statement_Date t = statement_date ∧ Source_File t = filename ∧
  contains TRANSACTION_DETAIL (Original_Line t) = false ∧
  contains BEGINNING_BALANCE (Original_Line t) = false.

(** The loop invariant: no record before the section starts, and every
    record is stamped with the call's statement date and file and holds
    neither marker. *)
Definition loop_inv (c : config) : Prop :=
  match c with
  | Running st _ =>
      (in_transaction_section st = false → transactions st = []) ∧
      Forall record_ok (transactions st)
  | Done ts => Forall record_ok ts
  | Raised _ => True
  end.

Lemma not_contains_strip sub l : contains sub l = false → contains sub (strip l) = false.
Proof. intros H. apply not_true_iff_false. intros Hs%contains_strip. congruence. Qed.

Lemma parse_line_record_ok l t :
  contains TRANSACTION_DETAIL l = false → contains BEGINNING_BALANCE l = false →
  parse_line filename statement_date l = Ok (Some t) → record_ok t.
Proof.
  intros Htd Hbb (? & ? & Hol)%parse_line_stamp. unfold record_ok. rewrite Hol.
  split_and!; [done|done|by apply not_contains_strip..].
Qed.

Lemma pstep_inv c c' : mstep c c' → loop_inv c → loop_inv c'.
Proof.
  destruct 1 as [st l ls|st l ls|st l ls|st l ls|st l ls t ? Hin ? ?|st l ls|st];
    simpl; try tauto; intros [Hf Hall]; (split; [intros ?; congruence|]); try done.
  apply Forall_app. split; [done|]. apply Forall_singleton. by eapply parse_line_record_ok.
Qed.

(** C20: Every configuration reachable from the start of the loop satisfies
    the loop invariant. *)
Lemma reachable_inv ls c : rtc mstep (Running init_pstate ls) c → loop_inv c.
Proof.
  apply (rtc_ind_r (λ c, loop_inv c)); [by split; [|constructor]|].
  intros y z _ Hyz Hy. by apply (pstep_inv y).
Qed.

(** What a later configuration keeps of an earlier state [st]: the flag
    if it was set, and the records as a prefix. *)
Definition keeps (st : parser_state) (c : config) : Prop :=
  match c with
  | Running st' _ =>
      (in_transaction_section st = true → in_transaction_section st' = true) ∧
      transactions st `prefix_of` transactions st'
  | Done ts => transactions st `prefix_of` ts
  | Raised _ => True
  end.

(** C24: The section flag, once set, is never reset, and records are only
    appended, never removed or reordered. *)
Lemma loop_monotone st ls c : rtc mstep (Running st ls) c → keeps st c.
Proof.
  apply (rtc_ind_r (λ c, keeps st c) (Running st ls)); [done|].
  intros y z _ Hyz Hy. destruct Hyz; simpl in *; try done; destruct Hy as [Hf Hp]; try done.
  split; [done|by apply prefix_app_r].
Qed.

End Props.

(** ** A run of the machine *)

Section Instances.
Import Machine.

(** A page with a summary line before the section, the marker, the
    opening balance, one purchase and a closing line. *)
Definition machine_text : pystr :=
  join newline [⟪"ACCOUNT SUMMARY 03/01 0.00 0.00"⟫; TRANSACTION_DETAIL;
                ⟪"03/01 Beginning Balance 100.00 100.00"⟫; ⟪"03/14 COFFEE 4.50 95.50"⟫;
                ⟪"TOTAL"⟫].

Definition machine_txn : transaction :=
  mk_txn ⟪"2024-03-01"⟫ ⟪"03/14/2024"⟫ ⟪"COFFEE"⟫ 450 9550 ⟪"03/14 COFFEE 4.50 95.50"⟫ ⟪"s.pdf"⟫.

Lemma reachable_inv_witness : loop_inv ⟪"s.pdf"⟫ ⟪"2024-03-01"⟫ (Done [machine_txn]).
Proof.
  pose proof (machine_py_for ⟪"s.pdf"⟫ ⟪"2024-03-01"⟫ init_pstate (split_on newline machine_text)) as Hr.
  vm_compute in Hr. exact (reachable_inv _ _ _ _ Hr).
Defined.

(** From the state after the marker, the record is appended. *)
Lemma loop_monotone_witness :
  keeps (mk_pstate true []) (Done [machine_txn]).
Proof.
  pose proof (machine_py_for ⟪"s.pdf"⟫ ⟪"2024-03-01"⟫ (mk_pstate true [])
                (drop 2 (split_on newline machine_text))) as Hr.
  vm_compute in Hr. exact (loop_monotone _ _ _ _ _ Hr).
Defined.

End Instances.
