(* ===== verification/Format.v ===== *)
(** * Printing amounts: [format(x, ',.2f')]

    The financial summary prints its sums with the format [,.2f]
    (src/pdf-2-excel.py, lines 222-224): an optional minus sign, the
    integer part with a comma between groups of three digits, a point and
    two decimals.  Amounts are exact hundredths here (see [PyNum.cents_of]),
    so the two decimals are the hundredths themselves.

    The printed text is an amount token of the statement lines
    ([format_money_token]) and the parser reads it back to the same value
    ([format_money_roundtrip]). *)

From S2P Require Import Prelude PyStr PyNum Regex Dates Parser.
Import Parser.

Module MoneyFormat.

(** Commas after every third digit of a reversed digit string, while
    digits remain. *)
Fixpoint commas_rev (l : pystr) : pystr :=
  match l with
  | a :: b :: c :: ((_ :: _) as rest) => a :: b :: c :: ","%char :: commas_rev rest
  | _ => l
  end.

(** The [,] option: thousands separators, counted from the right. *)
Definition group_thousands (s : pystr) : pystr := reverse (commas_rev (reverse s)).

(** [format(v / 100, ',.2f')] for [v] hundredths. *)
Definition format_money (v : Z) : pystr :=
  (if (v <? 0)%Z then ["-"%char] else []) ++
  group_thousands (py_str_int (Z.abs v / 100)) ++
  "."%char :: zpad 2 (py_str_int (Z.abs v mod 100)).

End MoneyFormat.

(** ** Properties *)

Section Props.
Import MoneyFormat.

Lemma commas_rev_remove l : ","%char ∉ l → py_remove ","%char (commas_rev l) = l.
Proof.
  induction l as [l IH] using (induction_ltof1 _ length); unfold ltof in IH.
  destruct l as [|a [|b [|c [|d r]]]]; intros Hl; try (apply py_remove_id; done).
  change (commas_rev (a :: b :: c :: d :: r)) with ([a; b; c; ","%char] ++ commas_rev (d :: r)).
  rewrite py_remove_app, IH by (simpl; lia || set_solver).
  unfold py_remove. rewrite !filter_cons, filter_nil.
  repeat case_decide; set_solver.
Qed.

Lemma commas_rev_shape l :
  digits l → l ≠ [] → commas_rev l ≠ [] ∧ Forall (λ c, is_digit c = true ∨ c = ","%char) (commas_rev l).
Proof.
  induction l as [l IH] using (induction_ltof1 _ length); unfold ltof in IH.
  destruct l as [|a [|b [|c [|d r]]]]; intros Hl Hne; try done;
    try (split; [done|]; eapply Forall_impl; [done|]; by left).
  change (commas_rev (a :: b :: c :: d :: r)) with (a :: b :: c :: ","%char :: commas_rev (d :: r)).
  destruct (IH (d :: r)) as [_ Hr]; [simpl; lia|by do 3 apply Forall_inv_tail in Hl|done|].
  split; [done|]. apply Forall_inv in Hl as Ha. apply Forall_inv_tail in Hl.
  apply Forall_inv in Hl as Hb. apply Forall_inv_tail in Hl. apply Forall_inv in Hl as Hc.
  do 3 (constructor; [by left|]). constructor; [by right|done].
Qed.

Lemma py_remove_reverse c l : py_remove c (reverse l) = reverse (py_remove c l).
Proof. apply filter_reverse. Qed.

(** Removing the separators gives the digits back. *)
Lemma group_thousands_remove s : digits s → py_remove ","%char (group_thousands s) = s.
Proof.
  intros Hs. unfold group_thousands. rewrite py_remove_reverse, commas_rev_remove.
  - apply reverse_involutive.
  - apply non_digit_not_in; [done|]. by apply Forall_reverse.
Qed.

Lemma group_thousands_shape s :
  digits s → s ≠ [] →
  group_thousands s ≠ [] ∧ Forall (λ c, is_digit c = true ∨ c = ","%char) (group_thousands s).
Proof.
  intros Hs Hne. unfold group_thousands.
  destruct (commas_rev_shape (reverse s)) as [Hn Hf].
  - by apply Forall_reverse.
  - by intros ?%(f_equal reverse); rewrite reverse_involutive in *.
  - split; [|by apply Forall_reverse].
    intros Hr. apply Hn. apply (f_equal reverse) in Hr. by rewrite reverse_involutive in Hr.
Qed.

(** The two decimals: two digits whose value is [r]. *)
Lemma zpad2_cents r :
  (0 ≤ r < 100)%Z →
  ∃ d1 d2, zpad 2 (py_str_int r) = [d1; d2] ∧ is_digit d1 = true ∧ is_digit d2 = true ∧
    (Z.of_N (digit_val d1) * 10 + Z.of_N (digit_val d2) = r)%Z.
Proof.
  intros Hr. destruct (zpad_str_int 2 r) as (Hd & Hne & Hv); [lia|].
  pose proof (zpad_length 2 r) as Hl.
  destruct (zpad 2 (py_str_int r)) as [|d1 [|d2 [|]]]; simpl in Hl; try lia.
  apply Forall_cons in Hd as [? [? _]%Forall_cons].
  exists d1, d2. do 3 (split; [done|]). unfold dec_val in Hv. simpl in Hv. lia.
Qed.


(** Printing an amount and reading it back as the parser reads a token,
    [float(s.replace(',', ''))], gives the amount. *)
Lemma parse_format_money v : parse_money (format_money v) = Ok v.
Proof.
  destruct (zpad2_cents (Z.abs v mod 100)) as (d1 & d2 & Hz & Hd1 & Hd2 & Hv12);
    [pose proof (Z.mod_pos_bound (Z.abs v) 100); lia|].
  destruct (zpad_str_int 0 (Z.abs v / 100)) as (Hd & Hne & Hq); [apply Z.div_pos; lia|].
  unfold zpad in Hd, Hne, Hq. simpl in Hd, Hne, Hq.
  destruct (group_thousands_shape _ Hd Hne) as [Hgne Hg].
  unfold format_money. rewrite Hz.
  rewrite parse_money_token; [|destruct (v <? 0)%Z; auto|done|done|done].
  rewrite group_thousands_remove, Hq by done. f_equal.
  assert (Habs : Z.abs v = (100 * (Z.abs v / 100) + Z.abs v mod 100)%Z) by (apply Z.div_mod; lia).
  cbv zeta. destruct (Z.ltb_spec v 0).
  - rewrite bool_decide_eq_false_2 by done. lia.
  - rewrite bool_decide_eq_true_2 by done. lia.
Qed.

(** Printing an amount and reading it back as the parser reads a token,
    [float(s.replace(',', ''))], gives the amount. *)
Lemma format_money_roundtrip v : parse_money (format_money v) = Ok v.
Proof. apply parse_format_money. Qed.

End Props.
