(* ===== verification/Batch.v ===== *)
(** * The batch orchestrator

    The body of [main] after the folder dialog (src/pdf-2-excel.py, lines
    47-79 and 151-195): the discovery of the PDF files, with the fallback
    to the first subfolder that has some; the statement files sorted by
    statement date; for each file in that order, the text of its pages,
    the parser and the numbering [Statement_Sequence], inside a
    [try]/[except] that skips a failing file; the outcome when no record
    was found; and the final sort by transaction date and sequence number.

    The two collaborators the code calls are interfaces: [FileSystem]
    ([os.listdir], [os.path.isdir]) and [PdfReader] ([pdfplumber.open],
    [pdf.pages], [page.extract_text()]).  The theorems hold for every
    instance. *)

From Stdlib Require Import Sorted.
From S2P Require Import Prelude PyStr PyNum Sorting Regex Dates Parser.
Import StatementDate Calendar Parser.

(** What the program asks of the file system. *)
Class FileSystem := {
  listdir : pystr → pyres (list pystr);
      (** [os.listdir(path)], in its order; it raises on a path that
          cannot be listed *)
  isdir : pystr → bool            (** [os.path.isdir(path)], which never raises *)
}.

(** What the program asks of [pdfplumber]: the pages of the PDF at a
    path, each [page.extract_text()], [None] for a page without text; an
    exception when the file cannot be read. *)
Class PdfReader := {
  pdf_pages : pystr → pyres (list (option pystr))
}.

Module Batch.

(** [os.path.join(a, b)] (POSIX) for two components. *)
Definition path_join (a b : pystr) : pystr :=
  if starts_with ⟪"/"⟫ b then b
  else if bool_decide (a = []) || ends_with ⟪"/"⟫ a then a ++ b
  else a ++ "/"%char :: b.

(** [f.lower().endswith('.pdf')] *)
Definition is_pdf (f : pystr) : bool := ends_with ⟪".pdf"⟫ (py_lower f).

Definition pdfs_in (names : list pystr) : list pystr := filter (λ f, is_pdf f = true) names.

Section Orchestrator.
Context `{FileSystem} `{PdfReader}.

(** Lines 58-70: the first subfolder, in listing order, that holds PDF
    files: its name (printed at line 68), the path that replaces
    [chase_pdf_folder], and its PDF files.  Listing a subfolder may raise
    (line 63). *)
Fixpoint find_subfolder (folder : pystr) (names : list pystr)
    : pyres (option (pystr * (pystr * list pystr))) :=
  match names with
  | [] => Ok None
  | sub :: rest =>
      let p := path_join folder sub in
      if isdir p then
        subfolder_names ← listdir p;
        match pdfs_in subfolder_names with
        | [] => find_subfolder folder rest
        | fs => Ok (Some (sub, (p, fs)))
        end
      else find_subfolder folder rest
  end.

(** Lines 55-79: the folder to process and its PDF files; [None] when
    neither the folder nor a subfolder has any.  The folder is listed
    again for the loop over subfolders (line 60).  These lines run before
    the [try] of line 151: an exception here leaves [main]. *)
Definition discover (folder : pystr) : pyres (option (pystr * list pystr)) :=
  names ← listdir folder;
  match pdfs_in names with
  | [] =>
      names' ← listdir folder;
      r ← find_subfolder folder names';
      Ok (snd <$> r)
  | fs => Ok (Some (folder, fs))
  end.

(** Lines 153-157: [(extract_statement_date(f), f)] for each PDF file of
    the new listing [names] of the folder (line 154). *)
Definition statement_files (names : list pystr) : list (pystr * pystr) :=
  map (λ f, (extract_statement_date f, f)) (pdfs_in names).

Definition by_statement_date (x y : pystr * pystr) : bool := str_leb x.1 y.1.

(** Line 160: sorted by statement date (stably). *)
Definition sorted_files (names : list pystr) : list (pystr * pystr) :=
  sort_by by_statement_date (statement_files names).

(** Lines 172-174: [text += page.extract_text() + "\n"] for each page;
    [None + "\n"] raises [TypeError]. *)
Definition page_text (pages : list (option pystr)) : pyres pystr :=
  py_for (λ text p, match p with
                    | Some t => Ok (text ++ t ++ [newline])
                    | None => Raise TypeError
                    end) [] pages.

(** A record with the key [Statement_Sequence] added (line 180). *)
Record numbered := mk_numbered {
  record : transaction;
  Statement_Sequence : nat
}.

(** Lines 179-180: [for i, t in enumerate(transactions): t['Statement_Sequence'] = i + 1],
    the numbering from [k]. *)
Fixpoint number_from (k : nat) (ts : list transaction) : list numbered :=
  match ts with
  | [] => []
  | t :: ts' => mk_numbered t k :: number_from (S k) ts'
  end.

(** Lines 168-181, the body of the [try] for one file. *)
Definition process_file (folder : pystr) (file : pystr * pystr) : pyres (list numbered) :=
  let '(statement_date, filename) := file in
  pages ← pdf_pages (path_join folder filename);
  text ← page_text pages;
  ts ← extract_chase_transactions text filename statement_date;
  Ok (number_from 1 ts).

(** Lines 167-184: the loop over the files; [except Exception: continue]
    drops a file that raises, with nothing of it appended. *)
Definition process_statements (folder : pystr) (files : list (pystr * pystr)) : list numbered :=
  foldl (λ acc file, match process_file folder file with
                     | Ok ns => acc ++ ns
                     | Raise _ => acc
                     end) [] files.

(** Lines 194-195: a row of the sorted frame, its [Sort_Date] and its record. *)
Definition row := (date * numbered)%type.

(** [sort_values(['Sort_Date', 'Statement_Sequence'])]: date, then
    sequence number. *)
Definition by_date_seq (x y : row) : bool :=
  (date_key x.1 <? date_key y.1)%Z ||
  ((date_key x.1 =? date_key y.1)%Z && (Statement_Sequence x.2 <=? Statement_Sequence y.2)).

(** Lines 191-195: [pd.to_datetime(df['Date'])], which raises on the first
    date it cannot read, then the stable sort. *)
Definition sort_rows (all : list numbered) : pyres (list row) :=
  dates ← py_map (λ n, to_datetime (Date (record n))) all;
  Ok (sort_by by_date_seq (zip dates all)).

(** How a run ends. *)
Inductive outcome :=
  | Cancelled                       (** no folder selected (line 47) *)
  | NoPdfs                          (** line 73 *)
  | NoTransactions                  (** line 186 *)
  | Failed (e : py_exn)             (** the outer [except] (line 244) *)
  | Completed (n_statements : nat) (rows : list row)
  | Crashed (e : py_exn)
      (** an exception of the discovery, before the [try], leaves [main]
          for the [__main__] wrapper (lines 251-256) *)
  | MissingDependencies (message : pystr).
      (** [import pandas] or [import pdfplumber] raised [ImportError]
          (lines 29-40); [run] starts after the check, [Console.main_io]
          makes it *)

(** [main] from the folder the dialog returned. *)
Definition run (folder : pystr) : outcome :=
  if bool_decide (folder = []) then Cancelled else
  match discover folder with
  | Raise e => Crashed e
  | Ok None => NoPdfs
  | Ok (Some (folder', _)) =>
      match listdir folder' with
      | Raise e => Failed e
      | Ok names =>
          let files := sorted_files names in
          match process_statements folder' files with
          | [] => NoTransactions
          | all =>
              match sort_rows all with
              | Ok rows => Completed (length files) rows
              | Raise e => Failed e
              end
          end
      end
  end.

End Orchestrator.

End Batch.

(** ** Discovery *)

Section Discovery.
Import Batch.
Context `{FileSystem}.

(** The subfolder found is a directory of the listing whose listing has
    PDF files. *)
Lemma find_subfolder_Some folder names sub p fs :
  find_subfolder folder names = Ok (Some (sub, (p, fs))) →
  sub ∈ names ∧ p = path_join folder sub ∧ isdir p = true ∧
  ∃ ls, listdir p = Ok ls ∧ fs = pdfs_in ls ∧ fs ≠ [].
Proof.
  induction names as [|n names IH]; simpl; [done|].
  destruct (isdir (path_join folder n)) eqn:Hd.
  - destruct (listdir (path_join folder n)) as [ls|e] eqn:Hl; simpl; [|done].
    destruct (pdfs_in ls) as [|f fs'] eqn:Hp.
    + intros (? & Hrest)%IH. split; [set_solver|done].
    + intros [= <- <- <-]. split; [set_solver|]. split_and!; [done..|]. by exists ls.
  - intros (? & Hrest)%IH. split; [set_solver|done].
Qed.

(** An exception of the loop over subfolders is that of listing a
    subfolder. *)
Lemma find_subfolder_Raise folder names e :
  find_subfolder folder names = Raise e →
  ∃ sub, sub ∈ names ∧ isdir (path_join folder sub) = true ∧
    listdir (path_join folder sub) = Raise e.
Proof.
  induction names as [|n names IH]; simpl; [done|].
  destruct (isdir (path_join folder n)) eqn:Hd.
  - destruct (listdir (path_join folder n)) as [ls|e'] eqn:Hl; simpl.
    + destruct (pdfs_in ls); [|done]. intros (sub & ? & ?)%IH. exists sub. split; [set_solver|done].
    + intros [= ->]. exists n. split; [set_solver|done].
  - intros (sub & ? & ?)%IH. exists sub. split; [set_solver|done].
Qed.

(** The folder [discover] settles on lists exactly the files it returns,
    so the second listing (line 154) processes the discovered files. *)
Lemma discover_files folder folder' fs :
  discover folder = Ok (Some (folder', fs)) →
  ∃ names, listdir folder' = Ok names ∧ fs = pdfs_in names ∧ fs ≠ [].
Proof.
  unfold discover. destruct (listdir folder) as [names|e] eqn:Hl; simpl; [|done].
  destruct (pdfs_in names) as [|f fs0] eqn:Hp; simpl.
  - destruct (find_subfolder folder names) as [[[sub [p fs1]]|]|e] eqn:Hsub;
      simpl; [|done|done].
    intros [= <- <-]. by apply find_subfolder_Some in Hsub as (_ & _ & _ & ?).
  - intros [= <- <-]. exists names. by rewrite Hp.
Qed.

(** The discovery raises only when listing the folder raises, or when
    the folder holds no PDF file and listing one of its subfolders
    raises. *)
Lemma discover_Raise folder e :
  discover folder = Raise e →
  listdir folder = Raise e ∨
  ∃ names sub, listdir folder = Ok names ∧ pdfs_in names = [] ∧ sub ∈ names ∧
    isdir (path_join folder sub) = true ∧ listdir (path_join folder sub) = Raise e.
Proof.
  unfold discover. destruct (listdir folder) as [names|e'] eqn:Hl; simpl; [|intros [= ->]; by left].
  destruct (pdfs_in names) as [|f fs0] eqn:Hp; simpl; [|done].
  destruct (find_subfolder folder names) as [r|e'] eqn:Hsub; simpl; [done|].
  intros [= ->]. apply find_subfolder_Raise in Hsub as (sub & ? & ? & ?).
  right. by exists names, sub.
Qed.

(** [NoPdfs] exactly when neither the folder nor any subfolder holds a
    PDF file, every listing succeeding. *)
Lemma discover_None folder :
  discover folder = Ok None ↔
  ∃ names, listdir folder = Ok names ∧ pdfs_in names = [] ∧
    ∀ s, s ∈ names → isdir (path_join folder s) = true →
         ∃ ls, listdir (path_join folder s) = Ok ls ∧ pdfs_in ls = [].
Proof.
  unfold discover. destruct (listdir folder) as [names|e] eqn:Hl; simpl;
    [|split; [done|by intros (? & ? & _)]].
  assert (Hgo : find_subfolder folder names = Ok None ↔
     ∀ s, s ∈ names → isdir (path_join folder s) = true →
          ∃ ls, listdir (path_join folder s) = Ok ls ∧ pdfs_in ls = []).
  { clear Hl. induction names as [|n names IH]; simpl; [split; [set_solver|done]|].
    destruct (isdir (path_join folder n)) eqn:Hd.
    - destruct (listdir (path_join folder n)) as [ls|e] eqn:Hls; simpl.
      + destruct (pdfs_in ls) eqn:Hp; rewrite ?IH; split.
        * intros Hall s [->|Hs]%elem_of_cons; [by exists ls|auto].
        * intros Hall. intros s Hs. apply Hall. set_solver.
        * done.
        * intros Hall. destruct (Hall n) as (ls' & Hls' & Hp'); [set_solver|done|congruence].
      + split; [done|]. intros Hall. destruct (Hall n) as (ls' & ? & _); [set_solver|done|congruence].
    - rewrite IH. split.
      + intros Hall s [->|Hs]%elem_of_cons; [congruence|auto].
      + intros Hall s Hs. apply Hall. set_solver. }
  destruct (pdfs_in names) as [|f fs] eqn:Hp; simpl.
  - split.
    + destruct (find_subfolder folder names) as [[[sub [p fs]]|]|e] eqn:Hs; simpl; try done.
      intros _. exists names. split_and!; [done..|]. by apply Hgo.
    + intros (names' & [= <-] & _ & Hall). by rewrite (proj2 Hgo Hall).
  - split; [done|]. intros (names' & [= <-] & ? & _). congruence.
Qed.

End Discovery.

(** ** Processing the statements *)

Section Processing.
Import Batch.
Context `{FileSystem} `{PdfReader}.

Lemma by_statement_date_total x y :
  by_statement_date x y = true ∨ by_statement_date y x = true.
Proof. apply str_leb_total. Qed.

Lemma by_statement_date_trans x y z :
  by_statement_date x y = true → by_statement_date y z = true → by_statement_date x z = true.
Proof. apply str_leb_trans. Qed.

Lemma key_eq_statement_date x y :
  key_eq by_statement_date x y = bool_decide (x.1 = y.1).
Proof.
  unfold key_eq, by_statement_date. case_bool_decide as Heq.
  - by rewrite Heq, str_leb_refl.
  - destruct (str_leb x.1 y.1) eqn:E1, (str_leb y.1 x.1) eqn:E2; try done.
    exfalso. by apply Heq, str_leb_antisym.
Qed.

(** C18: The files are processed in ascending order of statement date
    (Python's [str] order), all of them, and files with the same
    statement date in the order of the listing. *)
Lemma sorted_files_spec names :
  StronglySorted (λ x y, str_leb x.1 y.1 = true) (sorted_files names) ∧
  sorted_files names ≡ₚ statement_files names ∧
  ∀ sd, filter (λ x, x.1 = sd) (sorted_files names) = filter (λ x, x.1 = sd) (statement_files names).
Proof.
  unfold sorted_files. split; [|split].
  - apply (sort_by_sorted _ by_statement_date_total by_statement_date_trans).
  - apply sort_by_perm.
  - intros sd.
    assert (Hk : ∀ x : pystr * pystr,
               x.1 = sd ↔ key_eq by_statement_date (sd, []) x = true).
    { intros x. rewrite key_eq_statement_date, bool_decide_eq_true. simpl. naive_solver. }
    rewrite !(list_filter_iff _ _ _ Hk).
    apply (sort_by_stable _ by_statement_date_trans).
Qed.

(** [Statement_Sequence] numbers a statement's records [1, 2, ...] in
    their order, and the records are unchanged. *)
Lemma number_from_spec k ts :
  map Statement_Sequence (number_from k ts) = seq k (length ts) ∧
  map record (number_from k ts) = ts.
Proof.
  revert k. induction ts as [|t ts IH]; intros k; simpl; [done|].
  destruct (IH (S k)) as [-> ->]. done.
Qed.

Lemma process_statements_go folder acc files :
  foldl (λ acc file, match process_file folder file with
                     | Ok ns => acc ++ ns
                     | Raise _ => acc
                     end) acc files = acc ++ process_statements folder files.
Proof.
  unfold process_statements. revert acc. induction files as [|f files IH]; intros acc; simpl.
  - by rewrite app_nil_r.
  - rewrite IH, (IH (match process_file folder f with Ok ns => [] ++ ns | Raise _ => [] end)).
    destruct (process_file folder f); simpl; by rewrite ?app_assoc.
Qed.

(** The records of a run are the records of each file that did not
    raise, in the order of the files. *)
Lemma process_statements_app folder l1 l2 :
  process_statements folder (l1 ++ l2) =
  process_statements folder l1 ++ process_statements folder l2.
Proof.
  unfold process_statements at 1. rewrite foldl_app.
  fold (process_statements folder l1). by rewrite process_statements_go.
Qed.

Lemma process_statements_cons folder f files :
  process_statements folder (f :: files) =
  match process_file folder f with Ok ns => ns | Raise _ => [] end ++
  process_statements folder files.
Proof.
  change (f :: files) with ([f] ++ files). rewrite process_statements_app.
  unfold process_statements at 1. simpl. by destruct (process_file folder f).
Qed.

(** The number of records is the sum of the numbers of records of the
    files that did not raise. *)
Lemma process_statements_length folder files :
  length (process_statements folder files) =
  sum_list_with (λ file, match process_file folder file with Ok ns => length ns | Raise _ => 0 end) files.
Proof.
  induction files as [|f files IH]; [done|].
  rewrite process_statements_cons, length_app, IH. simpl. by destruct (process_file folder f).
Qed.

(** Failure isolation: a file that raises contributes nothing and
    changes nothing of the other files' records. *)
Lemma process_statements_isolation folder l1 f l2 e :
  process_file folder f = Raise e →
  process_statements folder (l1 ++ f :: l2) = process_statements folder (l1 ++ l2).
Proof.
  intros Hf. rewrite !process_statements_app, process_statements_cons, Hf. done.
Qed.

(** The text of pages that all have text: each page followed by a
    newline. *)
Lemma page_text_Some ps :
  page_text (map Some ps) = Ok (concat (map (λ p, p ++ [newline]) ps)).
Proof.
  unfold page_text. rewrite <- (app_nil_l (concat _)).
  enough (Hg : ∀ acc, py_for (λ text p, match p with
                                        | Some t => Ok (text ++ t ++ [newline])
                                        | None => Raise TypeError
                                        end) acc (map Some ps) =
                      Ok (acc ++ concat (map (λ p, p ++ [newline]) ps))) by apply Hg.
  induction ps as [|p ps IH]; intros acc; simpl; [by rewrite app_nil_r|].
  rewrite IH. by rewrite !app_assoc.
Qed.

(** A page without text makes the whole file raise [TypeError]. *)
Lemma page_text_None ps : None ∈ ps → page_text ps = Raise TypeError.
Proof.
  unfold page_text. intros Hin.
  enough (Hg : ∀ acc, py_for (λ text p, match p with
                                        | Some t => Ok (text ++ t ++ [newline])
                                        | None => Raise TypeError
                                        end) acc ps = Raise TypeError) by apply Hg.
  induction ps as [|p ps IH]; intros acc; simpl; [set_solver|].
  destruct p as [t|]; simpl; [|done]. apply IH. set_solver.
Qed.

(** The lines the parser reads from the pages: the lines of each page in
    turn, then an empty last line. *)
Lemma page_text_lines ps :
  split_on newline (concat (map (λ p, p ++ [newline]) ps)) =
  concat (map (split_on newline) ps) ++ [[]].
Proof.
  induction ps as [|p ps IH]; simpl; [done|].
  rewrite <- app_assoc. simpl. by rewrite split_on_sep_app, IH, app_assoc.
Qed.

End Processing.

(** ** The outcome of a run *)

Section Run.
Import Batch.
Context `{FileSystem} `{PdfReader}.

Lemma by_date_seq_total x y : by_date_seq x y = true ∨ by_date_seq y x = true.
Proof.
  unfold by_date_seq. rewrite !orb_true_iff, !andb_true_iff, !Z.ltb_lt, !Z.eqb_eq, !Nat.leb_le.
  lia.
Qed.

Lemma by_date_seq_trans x y z :
  by_date_seq x y = true → by_date_seq y z = true → by_date_seq x z = true.
Proof.
  unfold by_date_seq. rewrite !orb_true_iff, !andb_true_iff, !Z.ltb_lt, !Z.eqb_eq, !Nat.leb_le.
  lia.
Qed.

Lemma sort_rows_length all rows : sort_rows all = Ok rows → length rows = length all.
Proof.
  unfold sort_rows. destruct (py_map _ _) as [dates|e] eqn:Hd; simpl; [|done].
  intros [= <-]. rewrite (Permutation_length (sort_by_perm _ _)), length_zip_with.
  rewrite (py_map_Ok_length _ _ _ Hd). lia.
Qed.

(** The run past the discovery: the folder settled on, its PDF files, and
    its second listing, which succeeds and lists the same files. *)
Lemma run_discovered folder :
  run folder = Cancelled ∨ run folder = NoPdfs ∨ (∃ e, run folder = Crashed e) ∨
  ∃ folder' fs names, folder ≠ [] ∧ discover folder = Ok (Some (folder', fs)) ∧
    listdir folder' = Ok names ∧ fs = pdfs_in names ∧ fs ≠ [] ∧
    run folder =
      match process_statements folder' (sorted_files names) with
      | [] => NoTransactions
      | all => match sort_rows all with
               | Ok rows => Completed (length (sorted_files names)) rows
               | Raise e => Failed e
               end
      end.
Proof.
  unfold run. case_bool_decide as Hf; [by left|].
  destruct (discover folder) as [[[folder' fs]|]|e] eqn:Hd; [|by do 1 right; left|by do 2 right; left; exists e].
  do 3 right. destruct (discover_files _ _ _ Hd) as (names & Hl & -> & Hne).
  exists folder', (pdfs_in names), names. rewrite Hl. by split_and!.
Qed.

(** A completed run: the statements discovered, all of them counted; the
    rows are the records of the files that did not raise, each with the
    date [pd.to_datetime] read from its [Date], sorted by date and then
    sequence number. *)
Lemma run_completed_inv folder n rows :
  run folder = Completed n rows →
  ∃ folder' fs names, discover folder = Ok (Some (folder', fs)) ∧ listdir folder' = Ok names ∧
    n = length fs ∧
    let all := process_statements folder' (sorted_files names) in
    all ≠ [] ∧
    StronglySorted (λ x y, by_date_seq x y = true) rows ∧
    rows.*2 ≡ₚ all ∧
    Forall (λ r, to_datetime (Date (record r.2)) = Ok r.1) rows.
Proof.
  destruct (run_discovered folder) as [->|[->|[[? ->]|(folder' & fs & names & _ & Hd & Hl & -> & _ & ->)]]];
    [done..|].
  destruct (process_statements folder' (sorted_files names)) as [|n0 all0] eqn:Hall; [done|].
  unfold sort_rows. destruct (py_map _ _) as [dates|e] eqn:Hdates; simpl; [|done].
  intros [= <- <-]. exists folder', (pdfs_in names), names. do 2 (split; [done|]). split.
  { unfold sorted_files, statement_files. by rewrite (Permutation_length (sort_by_perm _ _)), length_map. }
  simpl. rewrite Hall. split; [done|].
  pose proof (sort_by_perm by_date_seq (zip dates (n0 :: all0))) as Hp.
  split; [apply (sort_by_sorted _ by_date_seq_total by_date_seq_trans)|]. split.
  - rewrite Hp, snd_zip; [done|]. by rewrite (py_map_Ok_length _ _ _ Hdates).
  - rewrite Hp. by apply py_map_zip in Hdates.
Qed.

(** C13: A completed run: the statements discovered, all of them counted; the
    rows are the records of the files that did not raise, each with the
    date [pd.to_datetime] read from its [Date], sorted by date and then
    sequence number. *)
Lemma run_completed folder n rows :
  run folder = Completed n rows →
  ∃ folder' fs names, discover folder = Ok (Some (folder', fs)) ∧ listdir folder' = Ok names ∧
    n = length fs ∧
    let all := process_statements folder' (sorted_files names) in
    all ≠ [] ∧
    StronglySorted (λ x y, by_date_seq x y = true) rows ∧
    rows.*2 ≡ₚ all ∧
    Forall (λ r, to_datetime (Date (record r.2)) = Ok r.1) rows.
Proof. apply run_completed_inv. Qed.

(** [NoTransactions] exactly when PDF files were found but no file gave a
    record. *)
Lemma run_no_transactions folder :
  run folder = NoTransactions ↔
  folder ≠ [] ∧ ∃ folder' fs names, discover folder = Ok (Some (folder', fs)) ∧
    listdir folder' = Ok names ∧ process_statements folder' (sorted_files names) = [].
Proof.
  split.
  - destruct (run_discovered folder)
      as [->|[->|[[? ->]|(folder' & fs & names & Hf & Hd & Hl & _ & _ & ->)]]]; [done..|].
    destruct (process_statements folder' (sorted_files names)) eqn:Hall;
      [|by destruct (sort_rows _)].
    intros _. split; [done|]. by exists folder', fs, names.
  - intros (Hf & folder' & fs & names & Hd & Hl & Hall).
    unfold run. rewrite bool_decide_eq_false_2, Hd, Hl, Hall by done. done.
Qed.

(** A run fails only on a record whose [Date] [pd.to_datetime]
    cannot read, and one such record fails the whole run, whatever file
    it comes from. *)
Lemma run_failed folder e :
  run folder = Failed e →
  ∃ folder' fs names n, discover folder = Ok (Some (folder', fs)) ∧ listdir folder' = Ok names ∧
    n ∈ process_statements folder' (sorted_files names) ∧
    to_datetime (Date (record n)) = Raise e.
Proof.
  destruct (run_discovered folder)
    as [->|[->|[[? ->]|(folder' & fs & names & _ & Hd & Hl & _ & _ & ->)]]]; [done..|].
  destruct (process_statements folder' (sorted_files names)) as [|n0 all0] eqn:Hall; [done|].
  unfold sort_rows. destruct (py_map _ _) as [dates|e'] eqn:Hdates; simpl; [done|].
  intros [= <-]. apply py_map_raise in Hdates as (n & Hn & He).
  exists folder', fs, names, n. rewrite Hall. done.
Qed.

(** A run crashes only in the discovery, which the [try] does not cover:
    listing the folder raises, or the folder holds no PDF file and
    listing one of its subfolders raises. *)
Lemma run_crashed_inv folder e :
  run folder = Crashed e →
  folder ≠ [] ∧ discover folder = Raise e ∧
  (listdir folder = Raise e ∨
   ∃ names sub, listdir folder = Ok names ∧ pdfs_in names = [] ∧ sub ∈ names ∧
     isdir (path_join folder sub) = true ∧ listdir (path_join folder sub) = Raise e).
Proof.
  unfold run. case_bool_decide as Hf; [done|].
  destruct (discover folder) as [[[folder' fs]|]|e'] eqn:Hd.
  - destruct (listdir folder'); [|done]. destruct (process_statements _ _); [done|].
    by destruct (sort_rows _).
  - done.
  - intros [= ->]. split_and!; [done..|]. by apply discover_Raise.
Qed.

(** C22: The exception of listing a subfolder during the discovery is
    not caught: when the folder has no PDF file and the subfolders before
    [sub] in the listing hold none either, a [sub] that cannot be listed
    crashes the run, whatever the subfolders after it hold. *)
Lemma run_subfolder_crash folder pre sub post e :
  folder ≠ [] → listdir folder = Ok (pre ++ sub :: post) → pdfs_in (pre ++ sub :: post) = [] →
  (∀ s, s ∈ pre → isdir (path_join folder s) = false ∨
                  ∃ ls, listdir (path_join folder s) = Ok ls ∧ pdfs_in ls = []) →
  isdir (path_join folder sub) = true → listdir (path_join folder sub) = Raise e →
  run folder = Crashed e.
Proof.
  intros Hf Hl Hp Hpre Hd Hs. unfold run, discover.
  rewrite bool_decide_eq_false_2 by done. rewrite Hl. simpl. rewrite Hp. simpl.
  enough (Hgo : find_subfolder folder (pre ++ sub :: post) = Raise e) by (rewrite Hgo; done).
  clear Hl Hp. induction pre as [|n pre IH]; simpl.
  - by rewrite Hd, Hs.
  - assert (IH' : find_subfolder folder (pre ++ sub :: post) = Raise e)
      by (apply IH; intros s Hs'; apply Hpre; set_solver).
    destruct (isdir (path_join folder n)) eqn:Hn; [|done].
    destruct (Hpre n) as [?|(ls & Hls & Hpn)]; [set_solver|congruence|].
    rewrite Hls. simpl. by rewrite Hpn.
Qed.

(** C31: A statement file one of whose pages has no text contributes no
    record at all: [None + "\n"] raises [TypeError] inside the [try], and
    the whole file is dropped, whatever its other pages hold. *)
Theorem textless_page_skipped folder l1 sd fn l2 pages :
  pdf_pages (path_join folder fn) = Ok pages → None ∈ pages →
  process_statements folder (l1 ++ (sd, fn) :: l2) = process_statements folder (l1 ++ l2).
Proof.
  intros Hp Hn. apply (process_statements_isolation _ _ _ _ TypeError).
  unfold process_file. rewrite Hp. py_simp. by rewrite page_text_None.
Qed.

(** C29: A statement file whose name holds no eight-digit date gets the
    name itself as its statement date (line 87); when the text before the
    name's first '-' is not an integer, the first dated line of its
    section with two amount tokens makes [determine_transaction_year]
    raise, and the whole file is dropped. *)
Theorem undated_statement_skipped folder l1 l2 fn pages text line :
  (∀ j, j ≤ length fn → digits8_at (drop j fn) = false) →
  is_ok (py_int (default [] (head (split_on "-"%char fn)))) = false →
  pdf_pages (path_join folder fn) = Ok pages → page_text pages = Ok text →
  line ∈ section_lines (split_on newline text) →
  is_Some (re_match mmdd_re (strip line)) → 2 ≤ length (re_findall amount_re line) →
  process_statements folder (l1 ++ (extract_statement_date fn, fn) :: l2) =
  process_statements folder (l1 ++ l2).
Proof.
  intros H8 Hy Hp Ht Hl Hm H2. rewrite extract_statement_date_fallback by done.
  pose proof (extract_chase_transactions_no_year fn fn text line Hl Hm H2 Hy) as He.
  destruct (extract_chase_transactions text fn fn) as [ts|e] eqn:Hx; [done|].
  apply (process_statements_isolation _ _ _ _ e).
  unfold process_file. rewrite Hp. py_simp. rewrite Ht. py_simp. by rewrite Hx.
Qed.

(** C28: [pd.to_datetime] runs once over all records, outside the per-file
    [try] (line 194): one record whose [Date] it cannot read (a February
    29 resolved into a common year, say) fails the whole run, the records
    of every other statement included. *)
Theorem run_bad_date_fails folder folder' fs names n e :
  folder ≠ [] → discover folder = Ok (Some (folder', fs)) → listdir folder' = Ok names →
  n ∈ process_statements folder' (sorted_files names) →
  to_datetime (Date (record n)) = Raise e →
  run folder = Failed DateParseError.
Proof.
  intros Hf Hd Hl Hn He. unfold run. rewrite bool_decide_eq_false_2, Hd, Hl by done.
  destruct (py_map_not_ok (λ n, to_datetime (Date (record n))) _ n Hn) as [e' He'];
    [by rewrite He|].
  destruct (process_statements folder' (sorted_files names)) as [|n0 all]; [set_solver|].
  unfold sort_rows. rewrite He'. py_simp.
  apply py_map_raise in He' as (m & _ & Hm). by rewrite (to_datetime_raise _ _ Hm).
Qed.

(** Every row of a completed run has a date of the calendar, of a year
    between 1677 and 2262. *)
Lemma run_rows_bounded folder n rows :
  run folder = Completed n rows →
  Forall (λ r : row, valid_date r.1 = true ∧ (1677 ≤ d_year r.1 ≤ 2262)%Z ∧
                     (1 ≤ d_month r.1 ≤ 12)%Z ∧ (1 ≤ d_day r.1 ≤ 31)%Z) rows.
Proof.
  intros (_ & _ & _ & _ & _ & _ & _ & _ & _ & Hdt)%run_completed_inv.
  eapply Forall_impl; [exact Hdt|]. intros r (Hv & Hy & Hm & Hd)%to_datetime_bounds.
  pose proof (days_in_month_bounds (d_year r.1) (d_month r.1)). auto with lia.
Qed.

End Run.

(** ** Runs on files held in memory *)

Section Fixtures.
Import Batch Parser.

(** A folder [/stmts] holding the given files, no subfolder. *)
Definition mem_fs (files : list (pystr * pyres (list (option pystr)))) : FileSystem := {|
  listdir := λ p, if bool_decide (p = ⟪"/stmts"⟫) then Ok files.*1 else Raise OSError;
  isdir := λ _, false
|}.

Definition mem_pdf (files : list (pystr * pyres (list (option pystr)))) : PdfReader := {|
  pdf_pages := λ p,
    match list_find (λ f, path_join ⟪"/stmts"⟫ f.1 = p) files with
    | Some (_, (_, r)) => r
    | None => Raise ExtractionError
    end
|}.

Definition mem_run (files : list (pystr * pyres (list (option pystr)))) : outcome :=
  @run (mem_fs files) (mem_pdf files) ⟪"/stmts"⟫.

Definition lines (ls : list pystr) : pystr := join newline ls.

(** January and February statements whose periods overlap, a file that
    cannot be read, and a file that is not a PDF. *)
Definition overlap_files : list (pystr * pyres (list (option pystr))) := [
  (⟪"b_20240215.pdf"⟫, Ok [Some (lines [TRANSACTION_DETAIL;
                                       ⟪"01/29 REFUND 3.00 503.00"⟫;
                                       ⟪"01/30 FEE 1.00 502.00"⟫])]);
  (⟪"broken_20240315.pdf"⟫, Raise ExtractionError);
  (⟪"a_20240131.pdf"⟫, Ok [Some (lines [⟪"ACCOUNT SUMMARY 01/01 0.00 0.00"⟫;
                                       TRANSACTION_DETAIL;
                                       ⟪"01/01 Beginning Balance 500.00 500.00"⟫;
                                       ⟪"01/28 GROCERY 12.00 488.00"⟫;
                                       ⟪"01/30 PHARMACY 5.00 483.00"⟫])]);
  (⟪"notes.txt"⟫, Raise ExtractionError)
].

(** The run on these files: three statements counted, the unreadable one
    skipped, the lines before the marker and the "Beginning Balance" line
    skipped, and the rows ordered by date then sequence number.  The rows
    of the two statements interleave, and two adjacent rows have the
    same date and the same sequence number. *)
Example overlap_run :
  match mem_run overlap_files with
  | Completed n rows =>
      n = 3 ∧
      map (λ r, (Statement_Date (record r.2), Date (record r.2), Statement_Sequence r.2)) rows =
      [(⟪"2024-01-31"⟫, ⟪"01/28/2024"⟫, 1); (⟪"2024-02-15"⟫, ⟪"01/29/2024"⟫, 1);
       (⟪"2024-01-31"⟫, ⟪"01/30/2024"⟫, 2); (⟪"2024-02-15"⟫, ⟪"01/30/2024"⟫, 2)]
  | _ => False
  end.
Proof. vm_compute. split; reflexivity. Qed.

(** A folder [/stmts] without PDF files whose first subfolder [locked]
    cannot be listed and whose second subfolder [2024] holds a statement. *)
Definition nested_fs : FileSystem := {|
  listdir := λ p,
    if bool_decide (p = ⟪"/stmts"⟫) then Ok [⟪"locked"⟫; ⟪"2024"⟫]
    else if bool_decide (p = ⟪"/stmts/2024"⟫) then Ok [⟪"s_20240315.pdf"⟫]
    else Raise OSError;
  isdir := λ p, bool_decide (p = ⟪"/stmts/locked"⟫) || bool_decide (p = ⟪"/stmts/2024"⟫)
|}.

End Fixtures.


(** ** Instances of the run theorems *)

Section OverlapInstances.
Import Batch.
#[local] Instance overlap_fs : FileSystem := mem_fs overlap_files.
#[local] Instance overlap_pdf : PdfReader := mem_pdf overlap_files.

Lemma run_completed_witness :
  ∃ n rows, run ⟪"/stmts"⟫ = Completed n rows ∧
  ∃ folder' fs names, discover ⟪"/stmts"⟫ = Ok (Some (folder', fs)) ∧
    listdir folder' = Ok names ∧ n = length fs ∧
    let all := process_statements folder' (sorted_files names) in
    all ≠ [] ∧
    StronglySorted (λ x y, by_date_seq x y = true) rows ∧
    rows.*2 ≡ₚ all ∧
    Forall (λ r, to_datetime (Date (record r.2)) = Ok r.1) rows.
Proof.
  destruct (run ⟪"/stmts"⟫) as [| | | |n rows| |] eqn:E; try (vm_compute in E; discriminate E).
  exists n, rows. split; [reflexivity|]. exact (run_completed _ _ _ E).
Defined.

(** The unreadable statement contributes nothing: dropping it from the
    list of files gives the same records. *)
Lemma process_statements_isolation_witness :
  process_statements ⟪"/stmts"⟫
    ([(⟪"2024-01-31"⟫, ⟪"a_20240131.pdf"⟫)] ++ (⟪"2024-03-15"⟫, ⟪"broken_20240315.pdf"⟫) ::
     [(⟪"2024-02-15"⟫, ⟪"b_20240215.pdf"⟫)]) =
  process_statements ⟪"/stmts"⟫
    ([(⟪"2024-01-31"⟫, ⟪"a_20240131.pdf"⟫)] ++ [(⟪"2024-02-15"⟫, ⟪"b_20240215.pdf"⟫)]).
Proof. apply (process_statements_isolation _ _ _ _ ExtractionError). vm_compute. reflexivity. Defined.

Lemma page_text_None_witness :
  page_text [Some ⟪"TRANSACTION DETAIL"⟫; None] = Raise TypeError.
Proof. apply page_text_None. right. left. Defined.

End OverlapInstances.

Section LeapInstances.
Import Batch.

Definition leap_files : list (pystr * pyres (list (option pystr))) := [
  (⟪"c_20230310.pdf"⟫, Ok [Some (lines [TRANSACTION_DETAIL; ⟪"02/29 ADJUSTMENT 1.00 2.00"⟫])]);
  (⟪"d_20230410.pdf"⟫, Ok [Some (lines [TRANSACTION_DETAIL; ⟪"04/02 BOOKS 20.00 80.00"⟫])])
].

#[local] Instance leap_fs : FileSystem := mem_fs leap_files.
#[local] Instance leap_pdf : PdfReader := mem_pdf leap_files.

Lemma run_failed_witness :
  ∃ folder' fs names n, discover ⟪"/stmts"⟫ = Ok (Some (folder', fs)) ∧
    listdir folder' = Ok names ∧
    n ∈ process_statements folder' (sorted_files names) ∧
    to_datetime (Date (record n)) = Raise DateParseError.
Proof. apply run_failed. vm_compute. reflexivity. Defined.

(** The February 29 of the March 2023 statement fails the run. *)
Lemma run_bad_date_fails_witness : run ⟪"/stmts"⟫ = Failed DateParseError.
Proof.
  eapply run_bad_date_fails; [discriminate|vm_compute; reflexivity|vm_compute; reflexivity| |].
  - vm_compute. constructor.
  - vm_compute. reflexivity.
Defined.

End LeapInstances.

Section SkipInstances.
Import Batch Parser.

(** A statement named without a date, one with a page without text, and
    a dated one. *)
Definition skip_files : list (pystr * pyres (list (option pystr))) := [
  (⟪"statement.pdf"⟫, Ok [Some (lines [TRANSACTION_DETAIL; ⟪"03/14 COFFEE 4.50 100.00"⟫])]);
  (⟪"scan_20240320.pdf"⟫, Ok [Some (lines [TRANSACTION_DETAIL; ⟪"03/18 GAS 30.00 70.00"⟫]); None]);
  (⟪"s_20240315.pdf"⟫, Ok [Some (lines [TRANSACTION_DETAIL; ⟪"03/10 BOOKS 20.00 80.00"⟫])])
].

#[local] Instance skip_fs : FileSystem := mem_fs skip_files.
#[local] Instance skip_pdf : PdfReader := mem_pdf skip_files.

Lemma undated_statement_skipped_witness :
  process_statements ⟪"/stmts"⟫
    ([] ++ (extract_statement_date ⟪"statement.pdf"⟫, ⟪"statement.pdf"⟫) ::
           [(⟪"2024-03-15"⟫, ⟪"s_20240315.pdf"⟫)]) =
  process_statements ⟪"/stmts"⟫ ([] ++ [(⟪"2024-03-15"⟫, ⟪"s_20240315.pdf"⟫)]).
Proof.
  apply (undated_statement_skipped _ _ _ _
           [Some (lines [TRANSACTION_DETAIL; ⟪"03/14 COFFEE 4.50 100.00"⟫])]
           (lines [TRANSACTION_DETAIL; ⟪"03/14 COFFEE 4.50 100.00"⟫] ++ [newline])
           ⟪"03/14 COFFEE 4.50 100.00"⟫).
  - intros j Hj. simpl in Hj. do 14 (destruct j as [|j]; [reflexivity|]). lia.
  - reflexivity.
  - reflexivity.
  - reflexivity.
  - vm_compute. constructor.
  - vm_compute. by eexists.
  - vm_compute. lia.
Defined.

Lemma textless_page_skipped_witness :
  process_statements ⟪"/stmts"⟫
    ([] ++ (⟪"2024-03-20"⟫, ⟪"scan_20240320.pdf"⟫) :: [(⟪"2024-03-15"⟫, ⟪"s_20240315.pdf"⟫)]) =
  process_statements ⟪"/stmts"⟫ ([] ++ [(⟪"2024-03-15"⟫, ⟪"s_20240315.pdf"⟫)]).
Proof.
  apply (textless_page_skipped _ _ _ _ _
           [Some (lines [TRANSACTION_DETAIL; ⟪"03/18 GAS 30.00 70.00"⟫]); None]).
  - reflexivity.
  - right. left.
Defined.

End SkipInstances.

Section NestedInstances.
Import Batch.
#[local] Instance nested_fs_inst : FileSystem := nested_fs.
#[local] Instance nested_pdf : PdfReader := {| pdf_pages := λ _, Ok [] |}.

(** The unlistable subfolder crashes the run before [2024] is looked at. *)
Lemma run_subfolder_crash_witness : run ⟪"/stmts"⟫ = Crashed OSError.
Proof.
  apply (run_subfolder_crash _ [] ⟪"locked"⟫ [⟪"2024"⟫]);
    [discriminate|reflexivity|reflexivity|intros s Hs; by apply elem_of_nil in Hs|reflexivity|reflexivity].
Defined.

End NestedInstances.
