(* ===== verification/Summary.v ===== *)
(** * The report and the summaries

    What [main] does with the sorted rows (src/pdf-2-excel.py, lines
    203-232): the two sheets written to the workbook, the financial
    summary (credits, debits, net change) and the monthly summary
    ([groupby('Month').agg({'Amount': ['count', 'sum']})]).  Amounts are
    hundredths (see [PyNum.cents_of]), so the sums here are exact. *)

From Stdlib Require Import Sorted.
From S2P Require Import Prelude PyStr PyNum Sorting Regex Dates Parser Batch.
Import Calendar Parser Batch.

Module Report.

(** Line 205: [df.drop(['Sort_Date', 'Statement_Sequence'], axis=1)],
    the record's seven columns. *)
Definition transactions_sheet (rows : list row) : list transaction :=
  map (λ r, record r.2) rows.

(** Line 209: the columns of the verification sheet. *)
Record verification_row := mk_vrow {
  v_Statement_Date : pystr;
  v_Date : pystr;
  v_Description : pystr;
  v_Amount : Z;
  v_Original_Line : pystr
}.

Definition verification_sheet (rows : list row) : list verification_row :=
  map (λ r, let t := record r.2 in
            mk_vrow (Statement_Date t) (Date t) (Description t) (Amount t) (Original_Line t)) rows.

Definition zsum (l : list Z) : Z := foldr Z.add 0%Z l.

Definition amounts (rows : list row) : list Z := map (λ r, Amount (record r.2)) rows.

(** Lines 220-221: [df[df['Amount'] > 0]['Amount'].sum()] and the same for
    [< 0]. *)
Definition credits (rows : list row) : Z := zsum (filter (λ a, (0 < a)%Z) (amounts rows)).
Definition debits (rows : list row) : Z := zsum (filter (λ a, (a < 0)%Z) (amounts rows)).

(** Line 224: [credits + debits]. *)
Definition net_change (rows : list row) : Z := (credits rows + debits rows)%Z.

(** Line 229: [.dt.strftime('%Y-%m')]. *)
Definition month_key (d : date) : pystr :=
  zpad 4 (py_str_int (d_year d)) ++ "-"%char :: zpad 2 (py_str_int (d_month d)).

(** One group of [groupby]: its key, the count and the sum. *)
Abbreviation group := (pystr * (nat * Z))%type.

(** Adds one amount to the groups, kept in ascending order of key, as
    [groupby] (with [sort=True]) presents them. *)
Fixpoint add_to_groups (k : pystr) (a : Z) (gs : list group) : list group :=
  match gs with
  | [] => [(k, (1, a))]
  | (k', (c, s)) :: gs' =>
      if decide (k = k') then (k', (S c, s + a)%Z) :: gs'
      else if str_leb k k' then (k, (1, a)) :: gs
      else (k', (c, s)) :: add_to_groups k a gs'
  end.

(** Lines 229-232: the monthly summary, each row added to the group of
    its month. *)
Definition month_step (gs : list group) (r : row) : list group :=
  add_to_groups (month_key r.1) (Amount (record r.2)) gs.

Definition monthly (rows : list row) : list group := foldl month_step [] rows.

End Report.

(** ** The financial summary *)

Section Financial.
Import Report.

Lemma zsum_app l1 l2 : zsum (l1 ++ l2) = (zsum l1 + zsum l2)%Z.
Proof. induction l1 as [|x l1 IH]; simpl; lia. Qed.

(** The net change is the sum of all amounts: an amount of zero counts in
    neither credits nor debits and changes nothing. *)
Lemma net_change_sum rows : net_change rows = zsum (amounts rows).
Proof.
  unfold net_change, credits, debits. induction (amounts rows) as [|a l IH]; simpl; [done|].
  rewrite !filter_cons. repeat case_decide; simpl; lia.
Qed.

Lemma credits_debits_sign rows : (0 ≤ credits rows)%Z ∧ (debits rows ≤ 0)%Z.
Proof.
  unfold credits, debits. induction (amounts rows) as [|a l IH]; simpl; [done|].
  rewrite !filter_cons. repeat case_decide; simpl; lia.
Qed.

End Financial.

(** ** The monthly summary *)

Section Monthly.
Import Report.

(** The keys of the groups, strictly ascending. *)
Definition key_lt (g h : group) : Prop := str_leb g.1 h.1 = true ∧ g.1 ≠ h.1.

(** The count and sum of the group of key [k], [(0, 0)] when there is
    none. *)
Definition group_of (k : pystr) (gs : list group) : nat * Z :=
  match filter (λ g, g.1 = k) gs with (_, cs) :: _ => cs | [] => (0, 0%Z) end.

Lemma str_leb_not x y : str_leb x y = false → str_leb y x = true ∧ y ≠ x.
Proof.
  intros H. destruct (str_leb_total x y) as [?|Hy]; [congruence|].
  split; [done|]. intros ->. by rewrite str_leb_refl in H.
Qed.

Lemma add_to_groups_keys k a gs g : g ∈ add_to_groups k a gs → g.1 = k ∨ ∃ g', g' ∈ gs ∧ g'.1 = g.1.
Proof.
  induction gs as [|[k' [c s]] gs IH]; simpl; [set_solver|].
  case_decide; [subst; intros [->|?]%elem_of_cons; [by left|right; eexists; split; [by right|done]]|].
  destruct (str_leb k k').
  - intros [->|?]%elem_of_cons; [by left|right; eauto].
  - intros [->|[?|(g' & ? & ?)]%IH]%elem_of_cons; [right; eexists; split; [left|]; done|by left|].
    right. exists g'. split; [by right|done].
Qed.

Lemma add_to_groups_sorted k a gs :
  StronglySorted key_lt gs → StronglySorted key_lt (add_to_groups k a gs).
Proof.
  induction 1 as [|[k' [c s]] gs Hgs IH Hhd]; simpl; [repeat constructor|].
  case_decide as Hk; [subst; by constructor|].
  destruct (str_leb k k') eqn:Hkk.
  - constructor; [by constructor|]. constructor; [done|].
    eapply Forall_impl; [done|]. intros [k'' x] [H1 H2]; simpl in *. split.
    + by eapply str_leb_trans.
    + simpl. intros <-. apply H2. by apply str_leb_antisym.
  - constructor; [done|]. apply Forall_forall. intros g Hg.
    destruct (add_to_groups_keys _ _ _ _ Hg) as [Heq|(g' & Hg' & Heq)].
    + unfold key_lt. simpl. rewrite Heq. by apply str_leb_not.
    + eapply Forall_forall in Hhd; [|done]. unfold key_lt in *. by rewrite <- Heq.
Qed.

Lemma add_to_groups_group_of k a gs k0 :
  StronglySorted key_lt gs →
  group_of k0 (add_to_groups k a gs) =
  if decide (k0 = k) then (S (group_of k0 gs).1, (group_of k0 gs).2 + a)%Z
  else group_of k0 gs.
Proof.
  unfold group_of. induction 1 as [|[k' [c s]] gs Hgs IH Hhd]; simpl.
  - rewrite filter_cons. repeat case_decide; subst; simpl; try done; f_equal; lia.
  - destruct (decide (k = k')) as [<-|Hk].
    + rewrite !filter_cons. simpl. by repeat case_decide; simplify_eq.
    + destruct (str_leb k k') eqn:Hkk.
      * rewrite !filter_cons. simpl. destruct (decide (k0 = k)) as [->|Hne]; simpl.
        -- destruct (decide (k = k)); [|done]. destruct (decide (k' = k)); [congruence|]. simpl.
           assert (Hnil : filter (λ g : pystr * (nat * Z), g.1 = k) gs = []).
           { apply (Forall_impl _ (λ g, g.1 ≠ k)) in Hhd.
             - clear IH Hgs. induction Hhd; [done|]. by rewrite filter_cons_False.
             - intros [k'' x] [H1 H2] Heq. simpl in *. subst k''. apply H2.
               by apply str_leb_antisym. }
           by rewrite Hnil.
        -- by repeat case_decide; simplify_eq.
      * rewrite !filter_cons. simpl. destruct (decide (k0 = k')) as [->|Hne]; simpl.
        -- by repeat case_decide; simplify_eq.
        -- destruct (decide (k' = k0)); [congruence|]. apply IH.
Qed.

Lemma add_to_groups_totals k a gs :
  sum_list_with (λ g, g.2.1) (add_to_groups k a gs) = S (sum_list_with (λ g, g.2.1) gs) ∧
  zsum (map (λ g, g.2.2) (add_to_groups k a gs)) = (zsum (map (λ g, g.2.2) gs) + a)%Z.
Proof.
  induction gs as [|[k' [c s]] gs IH]; simpl; [lia|].
  repeat case_decide; simpl; [lia|..]; destruct (str_leb k k'); simpl; lia.
Qed.

Lemma monthly_go_sorted gs rows :
  StronglySorted key_lt gs → StronglySorted key_lt (foldl month_step gs rows).
Proof.
  revert gs. induction rows as [|r rows IH]; intros gs Hgs; simpl; [done|].
  apply IH, add_to_groups_sorted, Hgs.
Qed.

(** The months of the summary are in ascending order, each once. *)
Lemma monthly_sorted rows : StronglySorted key_lt (monthly rows).
Proof. apply monthly_go_sorted. constructor. Qed.

Lemma monthly_go_group gs rows k :
  StronglySorted key_lt gs →
  group_of k (foldl month_step gs rows) =
  ((group_of k gs).1 + length (filter (λ r : row, month_key r.1 = k) rows),
   ((group_of k gs).2 + zsum (amounts (filter (λ r : row, month_key r.1 = k) rows)))%Z).
Proof.
  revert gs. induction rows as [|r rows IH]; intros gs Hgs; simpl.
  - destruct (group_of k gs). simpl. f_equal; lia.
  - unfold month_step at 2. rewrite IH by (by apply add_to_groups_sorted).
    rewrite add_to_groups_group_of by done. rewrite filter_cons.
    destruct (decide (k = month_key r.1)) as [->|Hne].
    + rewrite decide_True by done. simpl. f_equal; lia.
    + rewrite decide_False by congruence. done.
Qed.

(** The group of each month counts the rows of that month and sums
    their amounts; a month without rows has the count 0. *)
Lemma monthly_group rows k :
  group_of k (monthly rows) =
  (length (filter (λ r : row, month_key r.1 = k) rows),
   zsum (amounts (filter (λ r : row, month_key r.1 = k) rows))).
Proof. unfold monthly. rewrite monthly_go_group by constructor. done. Qed.

(** The counts of the months add up to the number of rows, and their
    sums to the net change. *)
Lemma monthly_totals rows :
  sum_list_with (λ g, g.2.1) (monthly rows) = length rows ∧
  zsum (map (λ g, g.2.2) (monthly rows)) = net_change rows.
Proof.
  rewrite net_change_sum. unfold monthly.
  enough (H : ∀ gs, sum_list_with (λ g, g.2.1) (foldl month_step gs rows) =
                    sum_list_with (λ g, g.2.1) gs + length rows ∧
                    zsum (map (λ g, g.2.2) (foldl month_step gs rows)) =
                    (zsum (map (λ g, g.2.2) gs) + zsum (amounts rows))%Z)
    by (destruct (H []) as [-> ->]; simpl; split; lia).
  induction rows as [|r rows IH]; intros gs; simpl; [split; lia|].
  destruct (IH (month_step gs r)) as [-> ->]. unfold month_step.
  destruct (add_to_groups_totals (month_key r.1) (Amount (record r.2)) gs) as [-> ->].
  split; lia.
Qed.

Lemma monthly_go_keys gs rows g :
  g ∈ foldl month_step gs rows →
  (∃ g', g' ∈ gs ∧ g'.1 = g.1) ∨ ∃ r, r ∈ rows ∧ g.1 = month_key r.1.
Proof.
  revert gs. induction rows as [|r rows IH]; intros gs; simpl; [eauto|].
  intros [(g' & Hg' & Heq)|(r' & Hr' & Heq)]%IH.
  - destruct (add_to_groups_keys _ _ _ _ Hg') as [Hk|(g'' & ? & ?)].
    + right. exists r. split; [by left|congruence].
    + left. exists g''. split; congruence.
  - right. exists r'. split; [by right|done].
Qed.

(** Each group of the summary is the month of a row. *)
Lemma monthly_keys rows g : g ∈ monthly rows → ∃ r, r ∈ rows ∧ g.1 = month_key r.1.
Proof. intros [(? & Hg & _)|?]%monthly_go_keys; [set_solver|done]. Qed.

End Monthly.

(** ** Months as calendar months *)

Section MonthKey.
Import Report.

Lemma split_month_key d :
  (0 ≤ d_year d)%Z → (0 ≤ d_month d)%Z →
  split_on "-"%char (month_key d) = [zpad 4 (py_str_int (d_year d)); zpad 2 (py_str_int (d_month d))].
Proof.
  intros Hy Hm. destruct (zpad_str_int 4 _ Hy) as (Hdy & _ & _).
  destruct (zpad_str_int 2 _ Hm) as (Hdm & _ & _).
  unfold month_key. rewrite split_on_app_sep by (by apply non_digit_not_in).
  rewrite split_on_no_sep_id; [done|]. by apply non_digit_not_in.
Qed.

(** Two dates of years and months [≥ 0] have the same [%Y-%m] key
    exactly when they are in the same calendar month. *)
Lemma month_key_inj d1 d2 :
  (0 ≤ d_year d1)%Z → (0 ≤ d_month d1)%Z → (0 ≤ d_year d2)%Z → (0 ≤ d_month d2)%Z →
  month_key d1 = month_key d2 ↔ d_year d1 = d_year d2 ∧ d_month d1 = d_month d2.
Proof.
  intros Hy1 Hm1 Hy2 Hm2. split; [|by intros [Hy Hm]; unfold month_key; rewrite Hy, Hm].
  intros Heq. apply (f_equal (split_on "-"%char)) in Heq.
  rewrite !split_month_key in Heq by done. injection Heq as Hy Hm.
  destruct (zpad_str_int 4 _ Hy1) as (_ & _ & Hv1), (zpad_str_int 4 _ Hy2) as (_ & _ & Hv2).
  destruct (zpad_str_int 2 _ Hm1) as (_ & _ & Hw1), (zpad_str_int 2 _ Hm2) as (_ & _ & Hw2).
  rewrite Hy in Hv1. rewrite Hm in Hw1. split; congruence.
Qed.

(** C26: For rows whose dates have years and months [≥ 0] (as every
    [Timestamp] has), the group of the month of [d] counts the rows of
    that calendar month and sums their amounts. *)
Lemma monthly_calendar rows d :
  (0 ≤ d_year d)%Z → (0 ≤ d_month d)%Z →
  Forall (λ r : row, 0 ≤ d_year r.1 ∧ 0 ≤ d_month r.1)%Z rows →
  let same := filter (λ r : row, d_year r.1 = d_year d ∧ d_month r.1 = d_month d) rows in
  group_of (month_key d) (monthly rows) = (length same, zsum (amounts same)).
Proof.
  intros Hy Hm Hrows same. rewrite monthly_group. subst same.
  rewrite (filter_ext_in (λ r : row, month_key r.1 = month_key d)
             (λ r : row, d_year r.1 = d_year d ∧ d_month r.1 = d_month d)); [done|].
  intros r Hr. eapply Forall_forall in Hrows as [? ?]; [|done]. by apply month_key_inj.
Qed.

(** [%Y-%m] of a year of four digits: four digits, a dash, two digits,
    which read back as the year and the month. *)
Lemma month_key_shape d :
  (1000 ≤ d_year d ≤ 9999)%Z → (1 ≤ d_month d ≤ 12)%Z →
  ∃ y m, month_key d = y ++ "-"%char :: m ∧ length y = 4 ∧ length m = 2 ∧
    digits y ∧ digits m ∧ Z.of_N (dec_val 0 y) = d_year d ∧ Z.of_N (dec_val 0 m) = d_month d.
Proof.
  intros Hy Hm. exists (zpad 4 (py_str_int (d_year d))), (zpad 2 (py_str_int (d_month d))).
  destruct (zpad_str_int 4 (d_year d)) as (Hdy & _ & Hvy); [lia|].
  destruct (zpad_str_int 2 (d_month d)) as (Hdm & _ & Hvm); [lia|].
  rewrite !zpad_length by (simpl; lia). done.
Qed.

End MonthKey.

(** ** The summary of a completed run *)

Section CompletedRun.
Import Report.
Context `{FileSystem} `{PdfReader}.

(** C14: In a completed run, every month of the monthly summary is a key
    [YYYY-MM]: four digits, a dash and two digits, those of the year and
    month of one of the rows. *)
Lemma run_monthly_keys folder n rows :
  run folder = Completed n rows →
  Forall (λ g : group, ∃ r y m, r ∈ rows ∧ g.1 = y ++ "-"%char :: m ∧
            length y = 4 ∧ length m = 2 ∧ digits y ∧ digits m ∧
            Z.of_N (dec_val 0 y) = d_year r.1 ∧ Z.of_N (dec_val 0 m) = d_month r.1)
         (monthly rows).
Proof.
  intros Hrun%run_rows_bounded. apply Forall_forall. intros g (r & Hr & ->)%monthly_keys.
  eapply Forall_forall in Hrun as (_ & Hy & Hm & _); [|done].
  destruct (month_key_shape r.1) as (y & m & Hk); [lia|done|]. eauto.
Qed.

End CompletedRun.

Section Instances.
Import Report Parser.

Definition sample_rows : list row :=
  [(mk_date 2024 3 14, mk_numbered coffee_txn 1); (mk_date 2024 3 20, mk_numbered coffee_txn 2);
   (mk_date 2024 4 2, mk_numbered coffee_txn 1)].

(** March 2024 has two rows of 4.50 each. *)
Lemma monthly_calendar_witness :
  group_of (month_key (mk_date 2024 3 1)) (monthly sample_rows) = (2, 900%Z).
Proof.
  refine (eq_trans (monthly_calendar sample_rows (mk_date 2024 3 1) _ _ _) _).
  - simpl. lia.
  - simpl. lia.
  - repeat constructor; simpl; lia.
  - vm_compute. reflexivity.
Defined.

(** The run on [overlap_files] completes, and its one month prints as
    [2024-01]. *)
Lemma run_monthly_keys_witness :
  ∃ n rows, @run (mem_fs overlap_files) (mem_pdf overlap_files) ⟪"/stmts"⟫ = Completed n rows ∧
    monthly rows = [(⟪"2024-01"⟫, (4, 2100%Z))] ∧
    Forall (λ g : group, ∃ r y m, r ∈ rows ∧ g.1 = y ++ "-"%char :: m ∧
              length y = 4 ∧ length m = 2 ∧ digits y ∧ digits m ∧
              Z.of_N (dec_val 0 y) = d_year r.1 ∧ Z.of_N (dec_val 0 m) = d_month r.1)
           (monthly rows).
Proof.
  destruct (@run (mem_fs overlap_files) (mem_pdf overlap_files) ⟪"/stmts"⟫)
    as [| | | |n rows| |] eqn:E; try (vm_compute in E; discriminate E).
  exists n, rows. split; [reflexivity|]. split.
  - vm_compute in E. injection E as _ <-. vm_compute. reflexivity.
  - exact (run_monthly_keys _ _ _ E).
Defined.

End Instances.
