(* ===== verification/Sheets.v ===== *)
(** * The DataFrame and the two sheets

    Lines 191-210 of src/pdf-2-excel.py turn the records into a pandas
    DataFrame, add the column [Sort_Date], sort it, and write two sheets
    with [to_excel(..., index=False)]: the frame without its helper
    columns ([df.drop(['Sort_Date', 'Statement_Sequence'], axis=1)]) and
    five of its columns ([df[[...]]]).  This file models a frame as its
    column labels and its rows of cells, the two column operations with
    the [KeyError] they raise on a missing label, and a sheet as the
    table [to_excel] writes: the header row, then the rows.

    The theorems: the column operations keep well-formed frames
    well-formed and pick the cells by label ([select_columns_cells]); on
    the program's frame they never raise, and the sheets hold exactly
    the rows [Summary.Report] describes ([excel_sheets_spec]), which is
    how [Console] hands them to the workbook. *)

From S2P Require Import Prelude PyStr PyNum Sorting Regex Dates Parser Batch Summary.
Import Calendar Parser Batch Report.

Module Frame.

(** A cell of a frame: a string, a float (held as hundredths, see
    [PyNum.cents_of]), an integer or a [Timestamp]. *)
Inductive cell :=
  | CStr (s : pystr)
  | CNum (hundredths : Z)
  | CInt (n : Z)
  | CDate (d : date).

#[export] Instance cell_eq_dec : EqDecision cell.
Proof. solve_decision. Defined.

(** A DataFrame: its column labels and its rows, one cell per column. *)
Record frame := mk_frame { columns : list pystr; rows : list (list cell) }.

(** The table a sheet holds: [to_excel(writer, index=False)] writes the
    labels as the header row, then each row. *)
Definition table := list (list cell).

Definition to_excel (df : frame) : table := map CStr (columns df) :: rows df.

(** The cells of a row whose column labels satisfy [keep]. *)
Definition keep_cells (keep : pystr → bool) (cols : list pystr) (r : list cell) : list cell :=
  (filter (λ p, keep p.1 = true) (zip cols r)).*2.

(** [df.drop(labels, axis=1)]: [KeyError] when a label is not a column. *)
Definition drop_columns (labels : list pystr) (df : frame) : pyres frame :=
  if forallb (λ l, bool_decide (l ∈ columns df)) labels then
    let keep := λ c, bool_decide (c ∉ labels) in
    Ok (mk_frame (filter (λ c, keep c = true) (columns df))
                 (map (keep_cells keep (columns df)) (rows df)))
  else Raise KeyError.

(** The position of a column label. *)
Definition column_index (cols : list pystr) (l : pystr) : pyres nat :=
  match list_find (λ c, c = l) cols with
  | Some (i, _) => Ok i
  | None => Raise KeyError
  end.

(** [df[labels]]: the columns in the order of [labels]; [KeyError] when
    one is not a column. *)
Definition select_columns (labels : list pystr) (df : frame) : pyres frame :=
  idxs ← py_map (column_index (columns df)) labels;
  Ok (mk_frame labels (map (λ r, map (λ i, default (CStr []) (r !! i)) idxs) (rows df))).

End Frame.

Module Excel.
Import Frame.

(** The keys of the dictionary of lines 139-147, in their order: the
    columns of [pd.DataFrame(all_transactions)] (line 191). *)
Definition record_columns : list pystr :=
  [⟪"Statement_Date"⟫; ⟪"Date"⟫; ⟪"Description"⟫; ⟪"Amount"⟫; ⟪"Balance"⟫;
   ⟪"Original_Line"⟫; ⟪"Source_File"⟫].

Definition txn_cells (t : transaction) : list cell :=
  [CStr (Statement_Date t); CStr (Date t); CStr (Description t); CNum (Amount t);
   CNum (Balance t); CStr (Original_Line t); CStr (Source_File t)].

(** The sorted frame of line 195: the record's keys, [Statement_Sequence]
    (added at line 180) and [Sort_Date] (line 194). *)
Definition frame_columns : list pystr :=
  record_columns ++ [⟪"Statement_Sequence"⟫; ⟪"Sort_Date"⟫].

Definition row_cells (r : row) : list cell :=
  txn_cells (record r.2) ++ [CInt (Z.of_nat (Statement_Sequence r.2)); CDate r.1].

Definition sorted_frame (rs : list row) : frame := mk_frame frame_columns (map row_cells rs).

(** Line 209: the columns of the verification sheet. *)
Definition verification_columns : list pystr :=
  [⟪"Statement_Date"⟫; ⟪"Date"⟫; ⟪"Description"⟫; ⟪"Amount"⟫; ⟪"Original_Line"⟫].

(** Lines 203-210: the two sheets, by name. *)
Definition excel_sheets (rs : list row) : pyres (list (pystr * table)) :=
  let df := sorted_frame rs in
  save_df ← drop_columns [⟪"Sort_Date"⟫; ⟪"Statement_Sequence"⟫] df;
  verification_df ← select_columns verification_columns df;
  Ok [(⟪"Transactions"⟫, to_excel save_df); (⟪"Verification"⟫, to_excel verification_df)].

End Excel.

(** ** Column operations *)

Section Columns.
Import Frame.

(** Every row has one cell per column. *)
Definition well_formed (df : frame) : Prop :=
  Forall (λ r, length r = length (columns df)) (rows df).

(** The cell of a row under the first column labelled [l]. *)
Definition cell_at (cols : list pystr) (r : list cell) (l : pystr) : cell :=
  match list_find (λ c, c = l) cols with
  | Some (i, _) => default (CStr []) (r !! i)
  | None => CStr []
  end.

Lemma keep_cells_length keep cols r :
  length r = length cols → length (keep_cells keep cols r) = length (filter (λ c, keep c = true) cols).
Proof.
  unfold keep_cells. revert r. induction cols as [|c cols IH]; intros [|x r] Hl; simpl in *; try lia.
  rewrite !filter_cons. cbn [fst]. destruct (decide (keep c = true)); simpl; rewrite IH; lia.
Qed.

(** [drop] raises exactly when a label is not a column; otherwise the
    frame stays well formed. *)
Lemma drop_columns_spec labels df :
  (drop_columns labels df = Raise KeyError ↔ ∃ l, l ∈ labels ∧ l ∉ columns df) ∧
  ∀ df', drop_columns labels df = Ok df' → well_formed df → well_formed df'.
Proof.
  unfold drop_columns. split.
  - destruct (forallb _ labels) eqn:Hall.
    + split; [done|]. intros (l & Hl & Hn). apply forallb_Forall in Hall.
      eapply Forall_forall in Hall; [|done]. by apply bool_decide_eq_true in Hall.
    + split; [intros _|done]. apply not_true_iff_false in Hall. rewrite forallb_Forall in Hall.
      apply (not_Forall_Exists (λ x, bool_decide (x ∈ columns df) = true)) in Hall.
      apply Exists_exists in Hall as (l & Hl & Hn).
      exists l. split; [done|]. intros Hin. apply Hn. simpl. by apply bool_decide_eq_true_2.
  - intros df'. destruct (forallb _ labels); [|done]. intros [= <-] Hwf. unfold well_formed in *.
    apply Forall_map. eapply Forall_impl; [done|]. intros r Hr. by apply keep_cells_length.
Qed.

Lemma column_index_ok cols l : is_ok (column_index cols l) = true ↔ l ∈ cols.
Proof.
  unfold column_index. destruct (list_find _ cols) as [[j c]|] eqn:Hf.
  - apply list_find_Some in Hf as (Hj & -> & _). split; [intros _|done].
    by eapply list_elem_of_lookup_2.
  - rewrite list_find_None in Hf. split; [done|]. intros Hl.
    by eapply Forall_forall in Hf.
Qed.

(** The columns of [df[labels]] are the labels, and each row holds, for
    each label, the cell under that label. *)
Lemma select_columns_cells labels df df' :
  select_columns labels df = Ok df' →
  columns df' = labels ∧ rows df' = map (λ r, map (cell_at (columns df) r) labels) (rows df).
Proof.
  unfold select_columns. destruct (py_map _ _) as [idxs|e] eqn:Hm; simpl; [|done].
  intros [= <-]. split; [done|]. simpl. apply map_ext. intros r.
  refine (py_map_Ok_map _ _ _ _ _ _ Hm). intros x y Hy.
  unfold column_index, cell_at in *. destruct (list_find _ _) as [[i c]|]; [|done].
  by injection Hy as ->.
Qed.

End Columns.

(** ** The program's sheets *)

Section Program.
Import Frame Excel.

(** The cells of a verification row, in the order of line 209. *)
Definition vrow_cells (v : verification_row) : list cell :=
  [CStr (v_Statement_Date v); CStr (v_Date v); CStr (v_Description v); CNum (v_Amount v);
   CStr (v_Original_Line v)].

Lemma drop_helpers rs :
  drop_columns [⟪"Sort_Date"⟫; ⟪"Statement_Sequence"⟫] (sorted_frame rs) =
  Ok (mk_frame record_columns (map txn_cells (transactions_sheet rs))).
Proof.
  unfold drop_columns, sorted_frame, transactions_sheet. cbn [columns rows].
  assert (Hc : forallb (λ l, bool_decide (l ∈ frame_columns))
                       [⟪"Sort_Date"⟫; ⟪"Statement_Sequence"⟫] = true) by reflexivity.
  rewrite Hc. f_equal. f_equal; try reflexivity.
  rewrite !map_map. apply map_ext. intros [d [t k]]. destruct t. reflexivity.
Qed.

Lemma select_verification rs :
  select_columns verification_columns (sorted_frame rs) =
  Ok (mk_frame verification_columns (map vrow_cells (verification_sheet rs))).
Proof.
  unfold select_columns, sorted_frame, verification_sheet. cbn [columns rows].
  assert (Hi : py_map (column_index frame_columns) verification_columns = Ok [0; 1; 2; 3; 5])
    by reflexivity.
  rewrite Hi. simpl. f_equal. f_equal; try reflexivity.
  rewrite !map_map. apply map_ext. intros [d [t k]]. destruct t. reflexivity.
Qed.

(** The sheets by name, as [Summary.Report] describes their rows. *)
Definition sheet_tables (rs : list row) : list (pystr * table) :=
  [(⟪"Transactions"⟫, map CStr record_columns :: map txn_cells (transactions_sheet rs));
   (⟪"Verification"⟫, map CStr verification_columns :: map vrow_cells (verification_sheet rs))].

(** The two sheets the program writes: the records' seven columns, and
    the five columns of the verification sheet, each under its header;
    the column operations never raise on the program's frame. *)
Lemma excel_sheets_spec rs : excel_sheets rs = Ok (sheet_tables rs).
Proof. unfold excel_sheets. by rewrite drop_helpers, select_verification. Qed.

End Program.
