(* ===== verification/Console.v ===== *)
(** * What [main] shows and prints

    [main] (src/pdf-2-excel.py, lines 14-249) talks to its user through
    message boxes and [print], and the [__main__] wrapper (lines 251-256)
    prints what escapes it.  This file models both with that transcript:
    a writer monad [io] whose trace is the sequence of [event]s, in the
    order the code emits them; [main_io], which opens the root window
    through the interface [Gui] ([tk.Tk()]), shows the boxes and the folder
    dialog, runs the same components as [Batch.run], emits the messages,
    names the workbook from the clock's stamp ([Clock.strftime_stamp]),
    builds the two sheets with [Sheets.excel_sheets] and writes them through
    the interface [Workbook] ([pd.ExcelWriter]); and [program_io], the
    wrapper.  An exception outside the [try] of line
    151 ends [main] ([or_crash]), one inside it reaches its [except]
    ([or_fail]).

    The theorems state what the transcript tells the user: one line per
    statement file, in order, with the number of records it gave; counts
    of the summary that agree with those lines and with the rows; the error
    that ends a run whose workbook cannot be written; and, for an
    exception of the discovery or a missing display, no dialog at all.
    The workbook's path is the same for two runs exactly when the clock
    agrees to the second ([output_path_collision]). *)

From S2P Require Import Prelude PyStr PyNum Sorting Regex Dates Clock Parser Format Batch Summary Sheets.
Import StatementDate Calendar Clock Parser MoneyFormat Batch Report Frame Excel.

(** What the program asks of [pd.ExcelWriter] (line 203): write the
    named sheets to the workbook at a path; it may raise. *)
Class Workbook := {
  write_workbook : pystr → list (pystr * table) → pyres unit
}.

(** What the program asks of tkinter (lines 16-17): [tk.Tk()] opens the
    root window, which [root.withdraw()] hides at once; it raises
    [TclError] when there is no display. *)
Class Gui := { tk_root : pyres unit }.

Module Transcript.

(** One thing the user sees. *)
Inductive event :=
  | ShowInfo (title body : pystr)       (** [messagebox.showinfo] *)
  | ShowError (title body : pystr)      (** [messagebox.showerror] *)
  | AskDirectory (title answer : pystr)
      (** [filedialog.askdirectory(title=...)] and the path it returns,
          [''] when the user cancels *)
  | Print (line : pystr)                (** [print] of a string *)
  | FileError (filename : pystr) (e : py_exn)
      (** line 183: [print(f"Error processing {filename}: {str(e)}")] *)
  | PrintTable (groups : list (pystr * (nat * Z)))
      (** line 233: [print(monthly)] *)
  | Failure (e : py_exn)
      (** lines 245-248: the traceback and the [Error] box *)
  | Uncaught (e : py_exn)
      (** line 255: [print(f"\nAn error occurred: {str(e)}")] *)
  | Input (prompt : pystr).
      (** line 256: [input(prompt)] *)

(** The writer monad: a value and the events emitted to compute it. *)
Record io (A : Type) := mk_io { val : A; trace : list event }.
Arguments mk_io {A} _ _.
Arguments val {A} _.
Arguments trace {A} _.

#[export] Instance io_ret : MRet io := λ A a, mk_io a [].
#[export] Instance io_bind : MBind io :=
  λ A B k m, let r := k (val m) in mk_io (val r) (trace m ++ trace r).

Definition tell (e : event) : io unit := mk_io () [e].

Definition nl : pystr := [newline].
Definition dashes : pystr := replicate 30 "-"%char.

(** [os.path.basename(p)]: what follows the last '/'. *)
Definition py_basename (p : pystr) : pystr :=
  match rfind_nat ⟪"/"⟫ p with Some i => drop (S i) p | None => p end.

Definition processing_line (filename statement_date : pystr) : pystr :=
  nl ++ ⟪"Processing: "⟫ ++ filename ++ ⟪" (Statement Date: "⟫ ++ statement_date ++ ⟪")"⟫.

Definition found_line (n : nat) : pystr :=
  ⟪"Found "⟫ ++ py_str_int (Z.of_nat n) ++ ⟪" transactions"⟫.

(** The welcome box (lines 20-26). *)
Definition welcome : event :=
  ShowInfo ⟪"Chase Statement Processor"⟫
    (⟪"This tool extracts transactions from Chase PDF statements and organizes them in Excel."⟫
     ++ nl ++ nl ++ ⟪"INSTRUCTIONS:"⟫ ++ nl ++
     ⟪"Select the folder containing your Chase PDF statements."⟫ ++ nl ++
     ⟪"All PDF files in the folder will be processed."⟫).

(** The title of the folder dialog (line 44). *)
Definition ask_title : pystr := ⟪"SELECT FOLDER CONTAINING CHASE PDF STATEMENTS"⟫.

Definition selected_line (folder : pystr) : pystr := nl ++ ⟪"Selected folder: "⟫ ++ folder.

(** An exception outside the [try] leaves [main]. *)
Definition or_crash {A} (r : pyres A) (k : A → io outcome) : io outcome :=
  match r with Ok a => k a | Raise e => mret (Crashed e) end.

(** An exception inside the [try] of line 151 goes to its [except]
    (lines 243-248). *)
Definition or_fail {A} (r : pyres A) (k : A → io outcome) : io outcome :=
  match r with Ok a => k a | Raise e => tell (Failure e);; mret (Failed e) end.

(** Lines 198-201: the workbook's name, from the folder's name and the
    clock's stamp, and its path in the folder. *)
Definition excel_filename (folder : pystr) (t_now : datetime) : pystr :=
  py_basename folder ++ ⟪"_chase_transactions_"⟫ ++ strftime_stamp t_now ++ ⟪".xlsx"⟫.

Definition output_path (folder : pystr) (t_now : datetime) : pystr :=
  path_join folder (excel_filename folder t_now).

Section Main.
Context `{FileSystem} `{PdfReader} `{Workbook} `{Gui}.
Context (t_now : datetime).   (** what [datetime.now()] returns at line 199 *)

(** Lines 167-184 with their prints: for each file, the line naming it,
    then the number of its records or the error. *)
Fixpoint process_io (folder : pystr) (files : list (pystr * pystr)) (acc : list numbered)
    : io (list numbered) :=
  match files with
  | [] => mret acc
  | (statement_date, filename) :: rest =>
      tell (Print (processing_line filename statement_date));;
      match process_file folder (statement_date, filename) with
      | Ok ns => tell (Print (found_line (length ns)));; process_io folder rest (acc ++ ns)
      | Raise e => tell (FileError filename e);; process_io folder rest acc
      end
  end.

(** Lines 212-241: the summaries and the final message. *)
Definition report_io (n_statements : nat) (rows : list row) (output_path excel_filename : pystr)
    : io unit :=
  tell (Print (nl ++ ⟪"2. VERIFICATION SUMMARY"⟫));;
  tell (Print dashes);;
  tell (Print (⟪"Total statements processed: "⟫ ++ py_str_int (Z.of_nat n_statements)));;
  tell (Print (⟪"Total transactions found: "⟫ ++ py_str_int (Z.of_nat (length rows))));;
  tell (Print (nl ++ ⟪"3. FINANCIAL SUMMARY"⟫));;
  tell (Print dashes);;
  tell (Print (⟪"Total Credits: $"⟫ ++ format_money (credits rows)));;
  tell (Print (⟪"Total Debits: $"⟫ ++ format_money (debits rows)));;
  tell (Print (⟪"Net Change: $"⟫ ++ format_money (credits rows + debits rows)));;
  tell (Print (nl ++ ⟪"4. MONTHLY SUMMARY"⟫));;
  tell (Print dashes);;
  tell (PrintTable (monthly rows));;
  tell (Print (nl ++ ⟪"Results saved to: "⟫ ++ output_path));;
  tell (ShowInfo ⟪"Processing Complete"⟫
          (⟪"Successfully processed "⟫ ++ py_str_int (Z.of_nat n_statements) ++
           ⟪" statements with "⟫ ++ py_str_int (Z.of_nat (length rows)) ++
           ⟪" transactions."⟫ ++ nl ++ nl ++ ⟪"Results saved to:"⟫ ++ nl ++ excel_filename)).

(** Lines 151-249: the [try] block on the folder discovery settled on. *)
Definition statements_io (folder : pystr) : io outcome :=
  or_fail (listdir folder) (λ names,
  let files := sorted_files names in
  tell (Print (nl ++ ⟪"1. PROCESSING STATEMENTS"⟫));;
  tell (Print dashes);;
  all ← process_io folder files [];
  match all with
  | [] => tell (ShowError ⟪"No Transactions"⟫ ⟪"No transactions found in the PDF files."⟫);;
          mret NoTransactions
  | _ =>
      or_fail (sort_rows all) (λ rows,
      let excel_filename := excel_filename folder t_now in
      let output_path := path_join folder excel_filename in
      or_fail (excel_sheets rows) (λ sheets,
      or_fail (write_workbook output_path sheets) (λ _,
      report_io (length files) rows output_path excel_filename;;
      mret (Completed (length files) rows))))
  end).

(** [main] (lines 14-79, then [statements_io]): the root window, the
    welcome box, the dependency check ([import_error] is [str(e)] of the
    [ImportError], when an import fails), the folder dialog and the path
    it returned ([folder]), the discovery with its messages, then the
    statements. *)
Definition main_io (import_error : option pystr) (folder : pystr) : io outcome :=
  or_crash tk_root (λ _,
  tell welcome;;
  match import_error with
  | Some msg =>
      tell (ShowError ⟪"Missing Dependencies"⟫
              (⟪"Required libraries not found: "⟫ ++ msg ++ nl ++ nl ++
               ⟪"Please install the required libraries with:"⟫ ++ nl ++
               ⟪"pip install pdfplumber pandas openpyxl"⟫ ++ nl ++ nl ++
               ⟪"On Linux, you may need to add: --break-system-packages"⟫));;
      mret (MissingDependencies msg)
  | None =>
  tell (AskDirectory ask_title folder);;
  if bool_decide (folder = []) then
    tell (ShowInfo ⟪"Cancelled"⟫ ⟪"No folder was selected. Exiting."⟫);; mret Cancelled
  else
    tell (Print (selected_line folder));;
    or_crash (listdir folder) (λ names,
    match pdfs_in names with
    | [] =>
        or_crash (listdir folder) (λ names',
        or_crash (find_subfolder folder names') (λ found,
        match found with
        | Some (sub, (p, _)) =>
            tell (Print (⟪"Found PDFs in subfolder: "⟫ ++ sub));;
            tell (Print (⟪"Using folder: "⟫ ++ p));;
            statements_io p
        | None =>
            tell (ShowError ⟪"No PDFs Found"⟫
                    (⟪"No PDF files were found in the selected folder or immediate subfolders:"⟫
                     ++ nl ++ folder ++ nl ++ nl ++
                     ⟪"Please try again with a folder containing Chase PDF statements."⟫));;
            mret NoPdfs
        end))
    | _ => statements_io folder
    end)
  end).

Definition exit_prompt : pystr := nl ++ ⟪"Press Enter to exit..."⟫.

(** Lines 251-256: the [__main__] wrapper, which reports an exception
    that left [main] and waits for the user. *)
Definition program_io (import_error : option pystr) (folder : pystr) : io outcome :=
  r ← main_io import_error folder;
  match r with
  | Crashed e => tell (Uncaught e);; tell (Input exit_prompt);; mret r
  | _ => mret r
  end.

End Main.

End Transcript.

(** ** The transcript and the silent model *)

Section Props.
Import Transcript.
Context `{FileSystem} `{PdfReader} `{Workbook} `{Gui}.
Context (t_now : datetime).
(** The lemmas on a run of [main] past line 16 assume a display. *)
Hypothesis tk_ok : tk_root = Ok ().

(** The sheets are computed by [excel_sheets_spec], not by unfolding. *)
Local Opaque excel_sheets.

Lemma val_bind {A B} (m : io A) (k : A → io B) : val (m ≫= k) = val (k (val m)).
Proof. reflexivity. Qed.

Lemma trace_bind {A B} (m : io A) (k : A → io B) :
  trace (m ≫= k) = trace m ++ trace (k (val m)).
Proof. reflexivity. Qed.

Lemma val_ret {A} (a : A) : val (mret a : io A) = a.
Proof. reflexivity. Qed.

Lemma trace_ret {A} (a : A) : trace (mret a : io A) = [].
Proof. reflexivity. Qed.

#[local] Hint Rewrite @val_bind @trace_bind @val_ret @trace_ret : pyx.

(** The events of one file: the line naming it, then its count or its
    error. *)
Definition file_events (folder : pystr) (file : pystr * pystr) : list event :=
  let '(statement_date, filename) := file in
  [Print (processing_line filename statement_date);
   match process_file folder (statement_date, filename) with
   | Ok ns => Print (found_line (length ns))
   | Raise e => FileError filename e
   end].

(** The loop with its prints computes what the silent loop computes, and
    prints the events of each file, in order. *)
Lemma process_io_spec folder files acc :
  val (process_io folder files acc) = acc ++ process_statements folder files ∧
  trace (process_io folder files acc) = concat (map (file_events folder) files).
Proof.
  revert acc. induction files as [|[sd fn] files IH]; intros acc.
  - simpl. by rewrite app_nil_r.
  - rewrite process_statements_cons. cbn [process_io map concat file_events].
    destruct (process_file folder (sd, fn)) as [ns|e]; py_simp.
    + destruct (IH (acc ++ ns)) as [-> ->]. by rewrite app_assoc.
    + destruct (IH acc) as [-> ->]. done.
Qed.

Lemma statements_io_val folder :
  val (statements_io t_now folder) =
  match listdir folder with
  | Raise e => Failed e
  | Ok names =>
      match process_statements folder (sorted_files names) with
      | [] => NoTransactions
      | all =>
          match sort_rows all with
          | Raise e => Failed e
          | Ok rows =>
              match write_workbook
                      (output_path folder t_now)
                      (sheet_tables rows) with
              | Raise e => Failed e
              | Ok _ => Completed (length (sorted_files names)) rows
              end
          end
      end
  end.
Proof.
  unfold statements_io, or_fail.
  destruct (listdir folder) as [names|e]; [|done]. py_simp.
  destruct (process_io_spec folder (sorted_files names) []) as [-> _].
  simpl. repeat case_match; rewrite ?excel_sheets_spec in *; simplify_eq; try done.
  (* the two matches on the same write, in the program and in the statement *)
  all: match goal with
       | H1 : write_workbook _ _ = ?r1, H2 : write_workbook _ _ = ?r2 |- _ =>
           tryif constr_eq H1 H2 then fail
           else (assert (r1 = r2) by (rewrite <- H1, <- H2; reflexivity); simplify_eq; done)
       end.
Qed.

(** The statements part opens with its header and the events of every
    file, in the order of the sorted files. *)
Lemma statements_io_files folder names :
  listdir folder = Ok names →
  Print (nl ++ ⟪"1. PROCESSING STATEMENTS"⟫) :: Print dashes ::
    concat (map (file_events folder) (sorted_files names))
  `prefix_of` trace (statements_io t_now folder).
Proof.
  intros Hl. unfold statements_io, or_fail. rewrite Hl. cbv zeta. rewrite !trace_bind.
  cbn [trace tell]. destruct (process_io_spec folder (sorted_files names) []) as [_ ->].
  eexists. cbn [app]. reflexivity.
Qed.

Lemma statements_io_completed folder n rows :
  val (statements_io t_now folder) = Completed n rows →
  let excel_filename := excel_filename folder t_now in
  ∃ names, listdir folder = Ok names ∧ n = length (sorted_files names) ∧
  trace (report_io n rows (path_join folder excel_filename) excel_filename)
  `suffix_of` trace (statements_io t_now folder).
Proof.
  unfold statements_io, or_fail. destruct (listdir folder) as [names|e]; [|done].
  cbv zeta. rewrite !val_bind, !trace_bind. cbn [val trace tell].
  repeat case_match; cbn [val trace]; intros Hc; simplify_eq.
  rewrite val_bind, val_ret in Hc. simplify_eq. exists names. do 2 (split; [done|]).
  rewrite trace_bind, trace_ret, app_nil_r. by do 3 apply suffix_app_r.
Qed.

(** A completed statements part sorted the records of the listed files. *)
Lemma statements_io_completed_rows folder n rows :
  val (statements_io t_now folder) = Completed n rows →
  ∃ names, listdir folder = Ok names ∧
    sort_rows (process_statements folder (sorted_files names)) = Ok rows.
Proof.
  rewrite statements_io_val. destruct (listdir folder) as [names|e]; [|done].
  exists names. split; [done|]. repeat case_match; congruence.
Qed.


(** How [main] ends: a missing library, no folder, no PDF file, an
    exception of the discovery, or the statements part on the folder the
    discovery settled on, as its last part. *)
Lemma main_io_cases ie folder :
  (∃ msg, ie = Some msg ∧ val (main_io t_now ie folder) = MissingDependencies msg) ∨
  (ie = None ∧ folder = [] ∧ val (main_io t_now ie folder) = Cancelled) ∨
  (ie = None ∧ folder ≠ [] ∧ discover folder = Ok None ∧ val (main_io t_now ie folder) = NoPdfs) ∨
  (∃ e, ie = None ∧ folder ≠ [] ∧ discover folder = Raise e ∧
     val (main_io t_now ie folder) = Crashed e ∧
     trace (main_io t_now ie folder) =
       [welcome; AskDirectory ask_title folder; Print (selected_line folder)]) ∨
  (∃ f fs, ie = None ∧ folder ≠ [] ∧ discover folder = Ok (Some (f, fs)) ∧
     val (main_io t_now ie folder) = val (statements_io t_now f) ∧
     trace (statements_io t_now f) `suffix_of` trace (main_io t_now ie folder)).
Proof.
  unfold main_io, discover. rewrite tk_ok. cbn [or_crash].
  destruct ie as [msg|]; [left; by exists msg|right].
  case_bool_decide as Hf; [by left|right].
  rewrite !val_bind, !trace_bind. cbn [val trace tell]. unfold or_crash.
  destruct (listdir folder) as [names|e]; cbn [mbind pyres_bind];
    [|right; left; by exists e].
  destruct (pdfs_in names) as [|x xs].
  - destruct (find_subfolder folder names) as [[[sub [p fs]]|]|e]; cbn [mbind pyres_bind fmap option_fmap option_map snd].
    + do 2 right. exists p, fs. rewrite !val_bind, !trace_bind. split_and!; auto 8 with pieces.
    + by left.
    + right. left. by exists e.
  - do 2 right. exists folder, (x :: xs). split_and!; auto 8 with pieces.
Qed.

(** The two counts of the verification summary, as printed. *)
Lemma report_io_counts n rows output_path excel_filename :
  infix_of [Print (⟪"Total statements processed: "⟫ ++ py_str_int (Z.of_nat n));
            Print (⟪"Total transactions found: "⟫ ++ py_str_int (Z.of_nat (length rows)))]
           (trace (report_io n rows output_path excel_filename)).
Proof. by eexists [_; _], _. Qed.

(** C11: Every statement file is reported: once PDF files are found, the
    transcript shows the header of the statements part, then, for each
    file in the order of the statement dates, the line naming it followed
    by the number of its records or by its error. *)
Lemma main_io_reports_files folder f fs names :
  folder ≠ [] → discover folder = Ok (Some (f, fs)) → listdir f = Ok names →
  infix_of (Print (nl ++ ⟪"1. PROCESSING STATEMENTS"⟫) :: Print dashes ::
              concat (map (file_events f) (sorted_files names)))
           (trace (main_io t_now None folder)).
Proof.
  intros Hf Hd Hl.
  destruct (main_io_cases None folder)
    as [(? & ? & _)|[(_ & ? & _)|[(_ & _ & ? & _)|[(e & _ & _ & ? & _)|
        (f' & fs' & _ & _ & Hd' & _ & Hs)]]]]; [done|done|congruence|congruence|].
  rewrite Hd in Hd'. injection Hd' as <- <-.
  eapply infix_of_prefix; [by apply statements_io_files|]. eauto with pieces.
Qed.

(** C27: The verification summary agrees with the per-file lines: the
    number of transactions it prints is the sum of the counts printed in
    the "Found N transactions" lines (the files that raised print an
    error and count 0), and the number of statements it prints is the
    number of PDF files listed, the files that raised included. *)
Lemma main_io_counts ie folder n rows :
  val (main_io t_now ie folder) = Completed n rows →
  ∃ f names, listdir f = Ok names ∧
    infix_of (concat (map (file_events f) (sorted_files names))) (trace (main_io t_now ie folder)) ∧
    infix_of [Print (⟪"Total statements processed: "⟫ ++ py_str_int (Z.of_nat n));
              Print (⟪"Total transactions found: "⟫ ++ py_str_int (Z.of_nat (length rows)))]
             (trace (main_io t_now ie folder)) ∧
    n = length (sorted_files names) ∧
    length rows = sum_list_with (λ file, match process_file f file with
                                         | Ok ns => length ns | Raise _ => 0 end) (sorted_files names).
Proof.
  destruct (main_io_cases ie folder)
    as [(? & _ & ->)|[(_ & _ & ->)|[(_ & _ & _ & ->)|[(e & _ & _ & _ & -> & _)|
        (f & fs & _ & _ & _ & -> & Hs)]]]]; [done..|].
  intros Hc. destruct (statements_io_completed _ _ _ Hc) as (names & Hl & -> & Hr).
  destruct (statements_io_completed_rows _ _ _ Hc) as (names' & Hl' & Hsort).
  rewrite Hl in Hl'. injection Hl' as <-.
  exists f, names. split_and!; [done| | |done|].
  - apply (infix_of_infix _ (Print (nl ++ ⟪"1. PROCESSING STATEMENTS"⟫) :: Print dashes ::
                               concat (map (file_events f) (sorted_files names)))).
    { exists [Print (nl ++ ⟪"1. PROCESSING STATEMENTS"⟫); Print dashes], []. by rewrite app_nil_r. }
    eapply infix_of_prefix; [by apply statements_io_files|]. eauto with pieces.
  - eapply infix_of_suffix; [apply report_io_counts|]. by etrans.
  - by rewrite (sort_rows_length _ _ Hsort), process_statements_length.
Qed.


(** C33: An exception of the discovery is not turned into a dialog: the
    [__main__] wrapper prints it and waits, and the user sees the welcome
    box, the selected folder, the error line and the prompt, nothing
    else. *)
Lemma program_io_crash folder e :
  folder ≠ [] → discover folder = Raise e →
  val (program_io t_now None folder) = Crashed e ∧
  trace (program_io t_now None folder) =
    [welcome; AskDirectory ask_title folder; Print (selected_line folder); Uncaught e;
     Input exit_prompt].
Proof.
  intros Hf Hd. unfold program_io. rewrite val_bind, trace_bind.
  destruct (main_io_cases None folder)
    as [(? & ? & _)|[(_ & ? & _)|[(_ & _ & ? & _)|[(e' & _ & _ & Hd' & -> & ->)|
        (f' & fs' & _ & _ & ? & _)]]]]; [done|done|congruence| |congruence].
  rewrite Hd in Hd'. injection Hd' as <-. done.
Qed.

(** C25: Without a display, [tk.Tk()] (line 16) raises before anything
    is shown: no welcome box, no dependency check, no folder dialog; the
    [__main__] wrapper prints the error and waits for Enter. *)
Lemma program_io_no_display ie folder e :
  tk_root = Raise e →
  val (program_io t_now ie folder) = Crashed e ∧
  trace (program_io t_now ie folder) = [Uncaught e; Input exit_prompt].
Proof. intros He. unfold program_io, main_io. rewrite He. split; reflexivity. Qed.

End Props.

(** ** The workbook's name *)

Section Naming.
Import Transcript.

Lemma path_join_inj a b1 b2 :
  starts_with ⟪"/"⟫ b1 = starts_with ⟪"/"⟫ b2 → path_join a b1 = path_join a b2 → b1 = b2.
Proof.
  unfold path_join. intros ->. destruct (starts_with _ b2); [done|].
  case_match; [apply app_inv_head|]. intros Heq%app_inv_head. congruence.
Qed.

Lemma starts_with_app_common c p x y :
  p ≠ [] → starts_with [c] (p ++ x) = starts_with [c] (p ++ y).
Proof. by destruct p. Qed.

(** C30: The workbook's name, meant to be unique (line 197), is unique only
    to the second: two runs on the same folder write to the same path
    exactly when the clock reads the same date, hour, minute and second.
    The microseconds [datetime.now()] also returns are not in the name. *)
Theorem output_path_collision folder t1 t2 :
  valid_datetime t1 = true → valid_datetime t2 = true →
  output_path folder t1 = output_path folder t2 ↔ stamp_fields t1 = stamp_fields t2.
Proof.
  intros H1 H2. rewrite <- strftime_stamp_eq by done.
  unfold output_path, excel_filename. split; [|by intros ->].
  intros Heq%path_join_inj; [|rewrite !(app_assoc (py_basename folder));
    apply starts_with_app_common; intros Hl%(f_equal length); rewrite length_app in Hl; simpl in Hl; lia].
  apply app_inv_head, app_inv_head, app_inv_tail in Heq. done.
Qed.

Lemma output_path_collision_witness :
  output_path ⟪"/stmts"⟫ (mk_datetime (mk_date 2024 3 1) 12 0 0 100000) =
  output_path ⟪"/stmts"⟫ (mk_datetime (mk_date 2024 3 1) 12 0 0 900000).
Proof.
  apply (proj2 (output_path_collision ⟪"/stmts"⟫ (mk_datetime (mk_date 2024 3 1) 12 0 0 100000)
                  (mk_datetime (mk_date 2024 3 1) 12 0 0 900000) eq_refl eq_refl)).
  reflexivity.
Defined.

End Naming.

(** ** Runs on files held in memory *)

Section Instances.
Import Transcript.
#[local] Instance overlap_fs : FileSystem := mem_fs overlap_files.
#[local] Instance overlap_pdf : PdfReader := mem_pdf overlap_files.

Definition stamp : datetime := mk_datetime (mk_date 2024 3 1) 12 0 0 0.

(** A workbook that is always written, and one that cannot be. *)
Definition writable : Workbook := {| write_workbook := λ _ _, Ok () |}.

(** A display is there. *)
#[local] Instance display : Gui := {| tk_root := Ok () |}.

(** What the run on [overlap_files] prints: twenty-five events; the
    unreadable file is named, then its error; the statements processed
    count it; the summary prints the sums with two decimals. *)
Example overlap_transcript :
  let t := trace (@main_io _ _ writable _ stamp None ⟪"/stmts"⟫) in
  length t = 25 ∧
  take 2 (drop 9 t) = [Print (processing_line ⟪"broken_20240315.pdf"⟫ ⟪"2024-03-15"⟫);
                       FileError ⟪"broken_20240315.pdf"⟫ ExtractionError] ∧
  take 2 (drop 13 t) = [Print ⟪"Total statements processed: 3"⟫;
                        Print ⟪"Total transactions found: 4"⟫] ∧
  take 3 (drop 17 t) = [Print ⟪"Total Credits: $21.00"⟫; Print ⟪"Total Debits: $0.00"⟫;
                        Print ⟪"Net Change: $21.00"⟫] ∧
  drop 23 t = [Print (nl ++ ⟪"Results saved to: /stmts/stmts_chase_transactions_20240301_120000.xlsx"⟫);
               ShowInfo ⟪"Processing Complete"⟫
                 (⟪"Successfully processed 3 statements with 4 transactions."⟫ ++ nl ++ nl ++
                  ⟪"Results saved to:"⟫ ++ nl ++ ⟪"stmts_chase_transactions_20240301_120000.xlsx"⟫)].
Proof. vm_compute. split_and!; reflexivity. Qed.

Lemma main_io_reports_files_witness :
  infix_of (Print (nl ++ ⟪"1. PROCESSING STATEMENTS"⟫) :: Print dashes ::
              concat (map (file_events ⟪"/stmts"⟫) (sorted_files overlap_files.*1)))
           (trace (@main_io _ _ writable _ stamp None ⟪"/stmts"⟫)).
Proof. eapply main_io_reports_files; [reflexivity|discriminate|reflexivity|reflexivity]. Defined.

Lemma main_io_counts_witness :
  ∃ n rows, val (@main_io _ _ writable _ stamp None ⟪"/stmts"⟫) = Completed n rows ∧
  ∃ f names, listdir f = Ok names ∧
    infix_of (concat (map (file_events f) (sorted_files names)))
             (trace (@main_io _ _ writable _ stamp None ⟪"/stmts"⟫)) ∧
    infix_of [Print (⟪"Total statements processed: "⟫ ++ py_str_int (Z.of_nat n));
              Print (⟪"Total transactions found: "⟫ ++ py_str_int (Z.of_nat (length rows)))]
             (trace (@main_io _ _ writable _ stamp None ⟪"/stmts"⟫)) ∧
    n = length (sorted_files names) ∧
    length rows = sum_list_with (λ file, match process_file f file with
                                         | Ok ns => length ns | Raise _ => 0 end) (sorted_files names).
Proof.
  destruct (val (@main_io _ _ writable _ stamp None ⟪"/stmts"⟫)) as [| | | |n rows| |] eqn:E;
    try (vm_compute in E; discriminate E).
  exists n, rows. split; [reflexivity|]. eapply main_io_counts; [reflexivity|exact E].
Defined.


End Instances.

Section CrashInstances.
Import Transcript.
#[local] Instance nested_fs_inst : FileSystem := nested_fs.
#[local] Instance empty_pdf : PdfReader := {| pdf_pages := λ _, Ok [] |}.
#[local] Instance never_written : Workbook := {| write_workbook := λ _ _, Ok () |}.
#[local] Instance crash_display : Gui := {| tk_root := Ok () |}.

(** The folder whose first subfolder cannot be listed: the wrapper's
    print and prompt, and no dialog. *)
Lemma program_io_crash_witness :
  val (program_io stamp None ⟪"/stmts"⟫) = Crashed OSError ∧
  trace (program_io stamp None ⟪"/stmts"⟫) =
    [welcome; AskDirectory ask_title ⟪"/stmts"⟫; Print (selected_line ⟪"/stmts"⟫);
     Uncaught OSError; Input exit_prompt].
Proof. apply program_io_crash; [reflexivity|discriminate|reflexivity]. Defined.

(** A machine without a display. *)
Definition headless : Gui := {| tk_root := Raise TclError |}.

Lemma program_io_no_display_witness :
  val (@program_io _ _ _ headless stamp None ⟪"/stmts"⟫) = Crashed TclError ∧
  trace (@program_io _ _ _ headless stamp None ⟪"/stmts"⟫) = [Uncaught TclError; Input exit_prompt].
Proof. apply program_io_no_display. reflexivity. Defined.

End CrashInstances.
